(** * Bizim Transfer MCP server: a shallow embedding and its verification

    The repository is three Python modules:
    - [utils.py]  : the currency table, the two validators and the five
                    formatters;
    - [client.py] : [BizimTransferClient], five request builders on top of
                    one HTTP session;
    - [server.py] : the five tools, each validating its arguments, calling
                    the client and formatting the answer.

    Conventions of the embedding.
    - A Python [str] is a [string]: the bytes of its UTF-8 encoding; its
      characters are the groups of bytes that encode one code point
      ([code_points]).  The operations that rest on the Unicode character
      database ([upper], [lower], the regex class [\d] and the digits of
      [int], the printable test of [repr]) are the ones of Python on ASCII
      text ([isascii]) and leave the bytes above that range alone, where
      Python goes on to the cased letters and decimal digits of other
      scripts.  A statement that depends on one of them is therefore made
      for ASCII text: it carries the hypothesis [isascii], or the shape it
      describes is ASCII by itself.
    - A Python [int] is a [Z]; a [float] is kept by the two observations the
      program makes of it (its [repr] and whether it is zero).
    - Values decoded from JSON are the inductive [json]; a [dict] is an
      association list in insertion order.
    - A Python exception is a value of [exn]; code that may raise returns a
      [Result].  Code that talks to the HTTP session additionally writes the
      list of [Event]s it caused.
    - What the program takes from Python's library is modelled as far as the
      program uses it: [datetime.strptime] by the regular expressions and the
      field checks of CPython's [_strptime] and [datetime] for the directives
      [%Y %m %d %H %M], [str] and [repr] of JSON values, [dict.get],
      iteration, [len], [str.join], and [raise_for_status] of the HTTP
      library.  An [EvHttp] event is the call of [post] or [get] on the
      session; what the session does with it (send it, fail in transport,
      refuse a body it cannot encode) is the answer [http] gives, which is a
      parameter.  [ctx.info(...)] is not modelled: the source never awaits
      the coroutine it builds. *)

From Stdlib Require Import ZArith List String Ascii Bool Lia DecimalString.
Import ListNotations.

Open Scope string_scope.
Open Scope Z_scope.

(** ** Python exceptions and results *)

Inductive exn : Type :=
| ValueError (msg : string)
| TypeError (msg : string)
| AttributeError (msg : string)
| HTTPError (msg : string).

(** [str(e)] *)
Definition exn_str (e : exn) : string :=
  match e with
  | ValueError m | TypeError m | AttributeError m | HTTPError m => m
  end.

Definition is_ValueError (e : exn) : bool :=
  match e with ValueError _ => true | _ => false end.

Inductive Result (A : Type) : Type :=
| Ok (a : A)
| Raise (e : exn).
Arguments Ok {A} a.
Arguments Raise {A} e.

Definition bind {A B} (m : Result A) (k : A -> Result B) : Result B :=
  match m with
  | Ok a => k a
  | Raise e => Raise e
  end.

Declare Scope py_scope.
Delimit Scope py_scope with py.
Notation "x <- m ;; k" := (bind m (fun x => k))
  (at level 61, m at next level, right associativity) : py_scope.
Open Scope py_scope.

(** [try: body except <cls>: handler] for one exception class. *)
Definition try_except {A} (body : Result A) (cls : exn -> bool)
    (handler : exn -> Result A) : Result A :=
  match body with
  | Ok a => Ok a
  | Raise e => if cls e then handler e else Raise e
  end.

(** ** Strings *)

Definition newline : ascii := "010"%char.

Fixpoint chars (s : string) : list ascii :=
  match s with
  | EmptyString => []
  | String c s' => c :: chars s'
  end.

(** [sep.join(parts)] *)
Fixpoint join (sep : string) (parts : list string) : string :=
  match parts with
  | [] => ""
  | [p] => p
  | p :: ps => p ++ sep ++ join sep ps
  end.

Definition in_range (lo hi c : ascii) : bool :=
  ((N_of_ascii lo <=? N_of_ascii c) && (N_of_ascii c <=? N_of_ascii hi))%N.

(** The decimal digits of ASCII. *)
Definition is_digit (c : ascii) : bool := in_range "0" "9" c.

Definition digit_val (c : ascii) : Z := Z.of_N (N_of_ascii c) - 48.

Definition upper_char (c : ascii) : ascii :=
  if in_range "a" "z" c then ascii_of_N (N_of_ascii c - 32) else c.

Definition lower_char (c : ascii) : ascii :=
  if in_range "A" "Z" c then ascii_of_N (N_of_ascii c + 32) else c.

Fixpoint map_string (f : ascii -> ascii) (s : string) : string :=
  match s with
  | EmptyString => EmptyString
  | String c s' => String (f c) (map_string f s')
  end.

(** [s.upper()] and [s.lower()] on ASCII text *)
Definition upper : string -> string := map_string upper_char.
Definition lower : string -> string := map_string lower_char.

(** [s.isascii()] *)
Definition isascii (s : string) : bool :=
  forallb (fun c => (N_of_ascii c <? 128)%N) (chars s).

(** In UTF-8 the bytes 10xxxxxx continue the code point begun before them. *)
Definition continuation (c : ascii) : bool := in_range "128" "191" c.

Definition continued (s : string) : bool :=
  match s with
  | String c _ => continuation c
  | EmptyString => false
  end.

(** The characters of a [str], each with the bytes that encode it. *)
Fixpoint code_points (s : string) : list string :=
  match s with
  | EmptyString => []
  | String c s' =>
      match code_points s' with
      | first :: others =>
          if continued s' then String c first :: others
          else String c "" :: first :: others
      | [] => [String c ""]
      end
  end.

(** [s.startswith(p)] *)
Definition startswith (s p : string) : bool := String.prefix p s.

(** [str(n)] for an [int] *)
Definition str_of_int (n : Z) : string := NilZero.string_of_int (Z.to_int n).

(** [needle in hay], as a proposition *)
Definition contains (hay needle : string) : Prop :=
  exists pre post, hay = pre ++ needle ++ post.

(** no line break inside *)
Definition one_line (s : string) : bool :=
  forallb (fun c => negb (Ascii.eqb c newline)) (chars s).

(** ** [re]: the backtracking matcher, on the fragment [_strptime] needs *)

Module re.

Inductive regex : Type :=
| Lit (c : ascii)                    (* an escaped literal character *)
| Range (lo hi : ascii)              (* [lo-hi] *)
| Digit                              (* \d, on ASCII text *)
| Cat (r1 r2 : regex)
| Alt (r1 r2 : regex)                (* r1|r2, r1 tried first *)
| Group (name : string) (r : regex). (* (?P<name>r) *)

Definition groupdict := list (string * string).

(** One candidate of the search: the text matched, the groups captured and
    the text left. *)
Definition candidate : Type := (string * groupdict * string)%type.

Definition one_char (p : ascii -> bool) (s : string) : list candidate :=
  match s with
  | String c rest => if p c then [(String c "", [], rest)] else []
  | EmptyString => []
  end.

(** All the ways [r] matches a prefix of [s], in the order in which the
    backtracking engine finds them. *)
Fixpoint exec (r : regex) (s : string) : list candidate :=
  match r with
  | Lit c => one_char (Ascii.eqb c) s
  | Range lo hi => one_char (in_range lo hi) s
  | Digit => one_char is_digit s
  | Cat r1 r2 =>
      flat_map (fun '(m1, g1, rest1) =>
        map (fun '(m2, g2, rest2) => (m1 ++ m2, (g1 ++ g2)%list, rest2))
            (exec r2 rest1))
        (exec r1 s)
  | Alt r1 r2 => (exec r1 s ++ exec r2 s)%list
  | Group name r1 =>
      map (fun '(m, g, rest) => (m, ((name, m) :: g)%list, rest)) (exec r1 s)
  end.

(** [regex.match(s)]: the first candidate, if any. *)
Definition match_ (r : regex) (s : string) : option candidate :=
  hd_error (exec r s).

Fixpoint group (g : groupdict) (name : string) : option string :=
  match g with
  | [] => None
  | (n, v) :: g' => if String.eqb n name then Some v else group g' name
  end.

(** The strings [r] matches as a whole, with the groups they capture. *)
Inductive Lang : regex -> string -> groupdict -> Prop :=
| LLit c : Lang (Lit c) (String c "") []
| LRange lo hi c : in_range lo hi c = true -> Lang (Range lo hi) (String c "") []
| LDigit c : is_digit c = true -> Lang Digit (String c "") []
| LCat r1 r2 m1 g1 m2 g2 :
    Lang r1 m1 g1 -> Lang r2 m2 g2 -> Lang (Cat r1 r2) (m1 ++ m2) (g1 ++ g2)%list
| LAltL r1 r2 m g : Lang r1 m g -> Lang (Alt r1 r2) m g
| LAltR r1 r2 m g : Lang r2 m g -> Lang (Alt r1 r2) m g
| LGroup name r m g : Lang r m g -> Lang (Group name r) m ((name, m) :: g).

End re.

(** ** [_strptime]: the directives [%Y %m %d %H %M] *)

Module _strptime.
Import re.

(** The entries of [TimeRE] for the five directives. *)
Definition re_Y : regex :=                       (* \d\d\d\d *)
  Cat Digit (Cat Digit (Cat Digit Digit)).
Definition re_m : regex :=                       (* 1[0-2]|0[1-9]|[1-9] *)
  Alt (Cat (Lit "1") (Range "0" "2"))
 (Alt (Cat (Lit "0") (Range "1" "9"))
      (Range "1" "9")).
Definition re_d : regex :=      (* 3[0-1]|[1-2]\d|0[1-9]|[1-9]| [1-9] *)
  Alt (Cat (Lit "3") (Range "0" "1"))
 (Alt (Cat (Range "1" "2") Digit)
 (Alt (Cat (Lit "0") (Range "1" "9"))
 (Alt (Range "1" "9")
      (Cat (Lit " ") (Range "1" "9"))))).
Definition re_H : regex :=                       (* 2[0-3]|[0-1]\d|\d *)
  Alt (Cat (Lit "2") (Range "0" "3"))
 (Alt (Cat (Range "0" "1") Digit)
      Digit).
Definition re_M : regex :=                       (* [0-5]\d|\d *)
  Alt (Cat (Range "0" "5") Digit) Digit.

Definition directive (c : ascii) : option regex :=
  if Ascii.eqb c "Y" then Some (Group "Y" re_Y)
  else if Ascii.eqb c "m" then Some (Group "m" re_m)
  else if Ascii.eqb c "d" then Some (Group "d" re_d)
  else if Ascii.eqb c "H" then Some (Group "H" re_H)
  else if Ascii.eqb c "M" then Some (Group "M" re_M)
  else None.

(** [TimeRE.pattern(format)]: every [%X] becomes the named group of its
    directive and every other character stands for itself.  [None] is a
    format outside the fragment: another directive, or a blank (which
    [pattern] turns into [\s+]). *)
Fixpoint pattern (format : string) : option (list regex) :=
  match format with
  | EmptyString => Some []
  | String "%" (String c rest) =>
      match directive c, pattern rest with
      | Some r, Some rs => Some (r :: rs)
      | _, _ => None
      end
  | String c rest =>
      if Ascii.eqb c " " then None
      else match pattern rest with
           | Some rs => Some (Lit c :: rs)
           | None => None
           end
  end.

Fixpoint cat_all (rs : list regex) : option regex :=
  match rs with
  | [] => None
  | [r] => Some r
  | r :: rs' => match cat_all rs' with
                | Some r' => Some (Cat r r')
                | None => None
                end
  end.

Definition compile (format : string) : option regex :=
  match pattern format with
  | Some rs => cat_all rs
  | None => None
  end.

(** [int(s)] on the text of a group, which is ASCII digits after at most
    one blank: blanks before the digits are skipped. *)
Fixpoint int_digits (acc : Z) (s : string) : option Z :=
  match s with
  | EmptyString => Some acc
  | String c s' =>
      if is_digit c then int_digits (10 * acc + digit_val c) s' else None
  end.

Fixpoint int (s : string) : option Z :=
  match s with
  | String c s' => if Ascii.eqb c " " then int s' else int_digits 0 s
  | EmptyString => None
  end.

(** The fields [_strptime] hands to the [datetime] constructor. *)
Record fields : Type := mkFields {
  year : Z; month : Z; day : Z; hour : Z; minute : Z
}.

Definition group_int (g : groupdict) (name : string) (default : Z) : option Z :=
  match group g name with
  | Some v => int v
  | None => Some default
  end.

Definition fields_of (g : groupdict) : option fields :=
  match group_int g "Y" 1900, group_int g "m" 1, group_int g "d" 1,
        group_int g "H" 0, group_int g "M" 0 with
  | Some y, Some m, Some d, Some H, Some M => Some (mkFields y m d H M)
  | _, _, _, _, _ => None
  end.

Definition parse (data_string format : string) : Result fields :=
  match compile format with
  | None => Raise (ValueError "bad directive in format")
  | Some format_regex =>
      match match_ format_regex data_string with
      | None => Raise (ValueError "time data does not match format")
      | Some (_, found_dict, rest) =>
          if negb (String.eqb rest "")
          then Raise (ValueError "unconverted data remains")
          else match fields_of found_dict with
               | Some f => Ok f
               | None => Raise (ValueError "invalid literal for int()")
               end
      end
  end.

End _strptime.

(** ** [datetime] *)

Module datetime.

Definition MINYEAR : Z := 1.
Definition MAXYEAR : Z := 9999.

Definition _is_leap (year : Z) : bool :=
  (year mod 4 =? 0) && (negb (year mod 100 =? 0) || (year mod 400 =? 0)).

Definition _DAYS_IN_MONTH (month : Z) : Z :=
  match month with
  | 1 => 31 | 2 => 28 | 3 => 31 | 4 => 30 | 5 => 31 | 6 => 30
  | 7 => 31 | 8 => 31 | 9 => 30 | 10 => 31 | 11 => 30 | 12 => 31
  | _ => 0
  end.

Definition _days_in_month (year month : Z) : Z :=
  if (month =? 2) && _is_leap year then 29 else _DAYS_IN_MONTH month.

Definition _check_date_fields (year month day : Z) : Result unit :=
  if negb ((MINYEAR <=? year) && (year <=? MAXYEAR))
  then Raise (ValueError "year is out of range")
  else if negb ((1 <=? month) && (month <=? 12))
  then Raise (ValueError "month must be in 1..12")
  else if negb ((1 <=? day) && (day <=? _days_in_month year month))
  then Raise (ValueError "day is out of range for month")
  else Ok tt.

Definition _check_time_fields (hour minute : Z) : Result unit :=
  if negb ((0 <=? hour) && (hour <=? 23))
  then Raise (ValueError "hour must be in 0..23")
  else if negb ((0 <=? minute) && (minute <=? 59))
  then Raise (ValueError "minute must be in 0..59")
  else Ok tt.

(** [datetime.strptime(date_string, format)] *)
Definition strptime (date_string format : string) : Result _strptime.fields :=
  f <- _strptime.parse date_string format ;;
  _ <- _check_date_fields (_strptime.year f) (_strptime.month f) (_strptime.day f) ;;
  _ <- _check_time_fields (_strptime.hour f) (_strptime.minute f) ;;
  Ok f.

End datetime.

(** ** utils.py: validators *)

(** [not s] for a [str] *)
Definition not_str (s : string) : bool := String.eqb s "".

Definition validate_date (date_str : string) : Result bool :=
  try_except
    (if not_str date_str then Ok true
     else _ <- datetime.strptime date_str "%Y-%m-%d" ;; Ok true)
    is_ValueError
    (fun _ => Ok false).

Definition validate_time (time_str : string) : Result bool :=
  try_except
    (if not_str time_str then Ok true
     else _ <- datetime.strptime time_str "%H:%M" ;; Ok true)
    is_ValueError
    (fun _ => Ok false).


(** ** Values decoded from JSON, and what Python does with them *)

Record pyfloat : Type := mkFloat {
  float_repr : string;     (* repr(x) *)
  float_is_zero : bool     (* x == 0.0 *)
}.

#[warnings="-register-all"]
Inductive json : Type :=
| JNull
| JBool (b : bool)
| JInt (n : Z)
| JFloat (x : pyfloat)
| JStr (s : string)
| JList (l : list json)
| JDict (d : list (string * json)).

(** [type(v).__name__] *)
Definition type_name (v : json) : string :=
  match v with
  | JNull => "NoneType"
  | JBool _ => "bool"
  | JInt _ => "int"
  | JFloat _ => "float"
  | JStr _ => "str"
  | JList _ => "list"
  | JDict _ => "dict"
  end.

(** [bool(v)] *)
Definition truthy (v : json) : bool :=
  match v with
  | JNull => false
  | JBool b => b
  | JInt n => negb (n =? 0)
  | JFloat x => negb (float_is_zero x)
  | JStr s => negb (String.eqb s "")
  | JList l => match l with [] => false | _ => true end
  | JDict d => match d with [] => false | _ => true end
  end.

(** [v == s] for a string literal [s] *)
Definition eq_str (v : json) (s : string) : bool :=
  match v with
  | JStr s' => String.eqb s' s
  | _ => false
  end.

Fixpoint mem_char (c : ascii) (s : string) : bool :=
  match s with
  | EmptyString => false
  | String c' s' => Ascii.eqb c c' || mem_char c s'
  end.

Definition hex_digit (n : N) : ascii :=
  if (n <? 10)%N then ascii_of_N (48 + n) else ascii_of_N (87 + n).

Definition backslash : ascii := "092"%char.
Definition dquote : ascii := "034"%char.
Definition squote : ascii := "039"%char.

Definition escape (c : ascii) : string := String backslash (String c "").

Definition repr_char (quote c : ascii) : string :=
  let n := N_of_ascii c in
  if Ascii.eqb c quote || Ascii.eqb c backslash then escape c
  else if (n =? 9)%N then escape "t"
  else if (n =? 10)%N then escape "n"
  else if (n =? 13)%N then escape "r"
  else if (n <? 32)%N || (n =? 127)%N
       then escape "x" ++ String (hex_digit (n / 16)) (String (hex_digit (n mod 16)) "")
  else String c "".

Fixpoint concat_map_chars (f : ascii -> string) (s : string) : string :=
  match s with
  | EmptyString => EmptyString
  | String c s' => f c ++ concat_map_chars f s'
  end.

(** [repr(s)] for a [str] *)
Definition repr_str (s : string) : string :=
  let quote : ascii :=
    if mem_char squote s && negb (mem_char dquote s) then dquote else squote in
  String quote (concat_map_chars (repr_char quote) s ++ String quote "").

(** [repr(v)] *)
Fixpoint repr (v : json) : string :=
  match v with
  | JNull => "None"
  | JBool true => "True"
  | JBool false => "False"
  | JInt n => str_of_int n
  | JFloat x => float_repr x
  | JStr s => repr_str s
  | JList l => "[" ++ join ", " (map repr l) ++ "]"
  | JDict d =>
      "{" ++ join ", " (map (fun kv => repr_str (fst kv) ++ ": " ++ repr (snd kv)) d) ++ "}"
  end.

(** [str(v)], which is also what an f-string field [{v}] prints *)
Definition str (v : json) : string :=
  match v with
  | JStr s => s
  | _ => repr v
  end.

Definition no_attribute {A} (v : json) (attr : string) : Result A :=
  Raise (AttributeError
    ("'" ++ type_name v ++ "' object has no attribute '" ++ attr ++ "'")).

Fixpoint lookup (d : list (string * json)) (key : string) : option json :=
  match d with
  | [] => None
  | (k, v) :: d' => if String.eqb k key then Some v else lookup d' key
  end.

(** [v.get(key, default)] *)
Definition get (v : json) (key : string) (default : json) : Result json :=
  match v with
  | JDict d => Ok (match lookup d key with Some x => x | None => default end)
  | _ => no_attribute v "get"
  end.

(** [v.startswith(p)] *)
Definition py_startswith (v : json) (p : string) : Result bool :=
  match v with
  | JStr s => Ok (startswith s p)
  | _ => no_attribute v "startswith"
  end.

(** [iter(v)]: the items a [for] loop visits *)
Definition iter (v : json) : Result (list json) :=
  match v with
  | JList l => Ok l
  | JDict d => Ok (map (fun kv => JStr (fst kv)) d)
  | JStr s => Ok (map JStr (code_points s))
  | _ => Raise (TypeError ("'" ++ type_name v ++ "' object is not iterable"))
  end.

(** [len(v)] *)
Definition len (v : json) : Result Z :=
  match v with
  | JList l => Ok (Z.of_nat (List.length l))
  | JDict d => Ok (Z.of_nat (List.length d))
  | JStr s => Ok (Z.of_nat (List.length (code_points s)))
  | _ => Raise (TypeError ("object of type '" ++ type_name v ++ "' has no len()"))
  end.

(** [enumerate(l, start)] *)
Fixpoint enumerate {A} (l : list A) (start : Z) : list (Z * A) :=
  match l with
  | [] => []
  | x :: l' => (start, x) :: enumerate l' (start + 1)
  end.

(** Appending lines to [response_parts] *)
Infix "+++" := (@List.app string) (at level 60, right associativity).

(** The lines a [for] loop appends: the body is run on each item in turn and
    the first exception ends the loop. *)
Fixpoint for_each {A} (items : list A) (body : A -> Result (list string))
    : Result (list string) :=
  match items with
  | [] => Ok []
  | x :: items' =>
      here <- body x ;;
      after <- for_each items' body ;;
      Ok (here +++ after)
  end.

(** The items of [sep.join(v)], which must all be [str]. *)
Fixpoint str_items (i : Z) (l : list json) : Result (list string) :=
  match l with
  | [] => Ok []
  | JStr s :: l' => ss <- str_items (i + 1) l' ;; Ok (s :: ss)
  | v :: _ =>
      Raise (TypeError ("sequence item " ++ str_of_int i
                        ++ ": expected str instance, " ++ type_name v ++ " found"))
  end.

Definition py_join (sep : string) (v : json) : Result string :=
  match iter v with
  | Ok l => ss <- str_items 0 l ;; Ok (join sep ss)
  | Raise _ => Raise (TypeError "can only join an iterable")
  end.

(** ** utils.py: the currency table and the formatters *)

Definition CURRENCY_MAP : list (string * Z) :=
  [("TRY", 1); ("EUR", 2); ("USD", 3); ("GBP", 4); ("RUB", 6)].

(** [CURRENCY_MAP.get(key, default)] *)
Fixpoint map_get (m : list (string * Z)) (key : string) (default : Z) : Z :=
  match m with
  | [] => default
  | (k, v) :: m' => if String.eqb k key then v else map_get m' key default
  end.

(** [v.get(key)] printed in an f-string *)
Definition field (v : json) (key : string) : Result string :=
  x <- get v key JNull ;; Ok (str x).

(** [v.get(key, default)] printed in an f-string *)
Definition field_or (v : json) (key default : string) : Result string :=
  x <- get v key (JStr default) ;; Ok (str x).

(** The first statement of the three formatters of a response with a
    [status]: [Some] is the text returned at once. *)
Definition check_status (result : json) : Result (option string) :=
  status <- get result "status" JNull ;;
  if negb (eq_str status "success")
  then description <- field_or result "description" "Unknown error occurred" ;;
       Ok (Some ("Error: " ++ description))
  else Ok None.

Definition format_extra (currency_symbol : string) (extra : json)
    : Result (list string) :=
  UrunTanimi <- field extra "UrunTanimi" ;;
  BirimFiyat <- field extra "BirimFiyat" ;;
  Ok ["- " ++ UrunTanimi ++ ": " ++ BirimFiyat ++ " " ++ currency_symbol].

Definition format_option (currency_symbol : string) (io : Z * json)
    : Result (list string) :=
  let '(i, option) := io in
  carname <- field option "carname" ;;
  extramessage <- field_or option "extramessage" "Standard" ;;
  pickup <- field option "pickup" ;;
  duration <- field option "duration" ;;
  price <- field option "price" ;;
  kisihakki <- field option "kisihakki" ;;
  bavulhakki <- field option "bavulhakki" ;;
  extras <- get option "extraurunler" (JList []) ;;
  extra_lines <-
    (if truthy extras
     then items <- iter extras ;;
          lines <- for_each items (format_extra currency_symbol) ;;
          Ok ("Available Extras:" :: lines)
     else Ok []) ;;
  routeid <- field option "routeid" ;;
  subrouteid <- field option "subrouteid" ;;
  Ok ([ "### Option " ++ str_of_int i ++ ": " ++ carname;
        "Type: " ++ extramessage;
        "Pickup Time: " ++ pickup;
        "Duration: " ++ duration ++ " minutes";
        "Price: " ++ price ++ " " ++ currency_symbol;
        "Max Passengers: " ++ kisihakki ++ " with " ++ bavulhakki ++ " luggage items" ]
      +++ extra_lines
      +++ [ "Route ID: " ++ routeid;
           "Subroute ID: " ++ subrouteid ++ " (needed for booking)";
           "" ]).

Definition format_way (currency_symbol : string) (way : json)
    : Result (list string) :=
  type <- get way "type" (JStr "") ;;
  outbound <- py_startswith type "yon1" ;;
  let way_type := if outbound then "Outbound" else "Return" in
  from <- field way "from" ;;
  to <- field way "to" ;;
  date <- field way "date" ;;
  options <- get way "list" (JList []) ;;
  items <- iter options ;;
  option_lines <- for_each (enumerate items 1) (format_option currency_symbol) ;;
  Ok ([ "## " ++ way_type ++ " Journey";
        "From: " ++ from;
        "To: " ++ to;
        "Date: " ++ date;
        "" ] +++ option_lines).

Definition format_transfer_results (result : json) : Result string :=
  early <- check_status result ;;
  match early with
  | Some text => Ok text
  | None =>
      currency_symbol <- field_or result "currencysembol" "" ;;
      pickup <- field result "pickup" ;;
      dropoff <- field result "dropoff" ;;
      adult <- field result "adult" ;;
      child <- field result "child" ;;
      infant <- field result "infant" ;;
      uuid <- field result "uuid" ;;
      ways <- get result "ways" (JList []) ;;
      items <- iter ways ;;
      way_lines <- for_each items (format_way currency_symbol) ;;
      Ok (join (String newline "")
            ([ "Transfer options from " ++ pickup ++ " to " ++ dropoff;
               "Total passengers: " ++ adult ++ " adults, " ++ child
                 ++ " children, " ++ infant ++ " infants";
               "";
               "Booking reference (UUID): " ++ uuid;
               "" ] +++ way_lines))
  end.

Definition format_reservation_results (result : json) : Result string :=
  early <- check_status result ;;
  match early with
  | Some text => Ok text
  | None =>
      rezid <- field result "rezid" ;;
      Ok (join (String newline "")
            [ "✅ Reservation successfully created!";
              "Reservation Number: " ++ rezid;
              "";
              "Please keep this reservation number for your records.";
              "You should receive a confirmation email with your booking details." ])
  end.

Definition format_listed_way (jw : Z * json) : Result (list string) :=
  let '(j, way) := jw in
  let dir_text := if j =? 1 then "Outbound" else "Return" in
  pickupadres <- field way "pickupadres" ;;
  returnadres <- field way "returnadres" ;;
  flightdate <- field way "flightdate" ;;
  pickuptime <- field way "pickuptime" ;;
  car <- field way "car" ;;
  duration <- field way "duration" ;;
  flightnumber <- get way "flightnumber" JNull ;;
  flight_lines <-
    (if truthy flightnumber
     then terminal <- field way "terminal" ;;
          Ok ["  Flight: " ++ str flightnumber ++ ", Terminal: " ++ terminal]
     else Ok []) ;;
  Ok ([ "- " ++ dir_text ++ ": " ++ pickupadres ++ " → " ++ returnadres;
        "  Date: " ++ flightdate ++ ", Pickup time: " ++ pickuptime;
        "  Vehicle: " ++ car ++ ", Duration: " ++ duration ++ " min" ]
      +++ flight_lines).

Definition format_listed_passenger (passenger : json) : Result (list string) :=
  namesurname <- field passenger "namesurname" ;;
  country <- field passenger "country" ;;
  Ok ["- " ++ namesurname ++ " (" ++ country ++ ")"].

Definition format_listed_reservation (ir : Z * json) : Result (list string) :=
  let '(i, res) := ir in
  reservationnumber <- field res "reservationnumber" ;;
  customername <- field res "customername" ;;
  customersurname <- field res "customersurname" ;;
  customeremail <- field res "customeremail" ;;
  customertel <- field res "customertel" ;;
  adult <- field res "adult" ;;
  child <- field res "child" ;;
  infant <- field res "infant" ;;
  Amount <- field res "Amount" ;;
  currency <- field res "currency" ;;
  status <- field res "status" ;;
  paymenttype <- field res "paymenttype" ;;
  createat <- field res "createat" ;;
  ways <- get res "ways" (JList []) ;;
  way_items <- iter ways ;;
  way_lines <- for_each (enumerate way_items 1) format_listed_way ;;
  passengers <- get res "passangers" (JList []) ;;
  passenger_lines <-
    (if truthy passengers
     then items <- iter passengers ;;
          lines <- for_each items format_listed_passenger ;;
          Ok (String newline "Passengers:" :: lines)
     else Ok []) ;;
  Ok ([ String newline "## Reservation " ++ str_of_int i;
        "Reservation Number: " ++ reservationnumber;
        "Customer: " ++ customername ++ " " ++ customersurname;
        "Contact: " ++ customeremail ++ ", " ++ customertel;
        "Passengers: " ++ adult ++ " adults, " ++ child ++ " children, "
          ++ infant ++ " infants";
        "Amount: " ++ Amount ++ " " ++ currency;
        "Status: " ++ status;
        "Payment: " ++ paymenttype;
        "Created: " ++ createat;
        String newline "Transfers:" ]
      +++ way_lines +++ passenger_lines).

Definition format_reservation_list (result : json) : Result string :=
  early <- check_status result ;;
  match early with
  | Some text => Ok text
  | None =>
      reservations <- get result "list" (JList []) ;;
      if negb (truthy reservations)
      then Ok "No reservations found matching your criteria."
      else
        n <- len reservations ;;
        items <- iter reservations ;;
        lines <- for_each (enumerate items 1) format_listed_reservation ;;
        Ok (join (String newline "")
              (("Found " ++ str_of_int n ++ " reservation(s):") :: lines))
  end.

Definition format_place (ip : Z * json) : Result (list string) :=
  let '(i, place) := ip in
  description <- field place "description" ;;
  place_id <- field place "place_id" ;;
  Ok [str_of_int i ++ ". " ++ description ++ " (ID: " ++ place_id ++ ")"].

Definition format_places_results (places : json) : Result string :=
  if negb (truthy places)
  then Ok "No places found matching your query."
  else
    items <- iter places ;;
    lines <- for_each (enumerate items 1) format_place ;;
    Ok (join (String newline "") ("Found locations:" :: lines)).

Definition format_place_details (details : json) : Result string :=
  name <- field_or details "name" "N/A" ;;
  formatted_address <- field_or details "formatted_address" "N/A" ;;
  geometry <- get details "geometry" (JDict []) ;;
  location <- get geometry "location" (JDict []) ;;
  location_lines <-
    (if truthy location
     then lat <- field_or location "lat" "N/A" ;;
          lng <- field_or location "lng" "N/A" ;;
          Ok ["Latitude: " ++ lat; "Longitude: " ++ lng]
     else Ok []) ;;
  types <- get details "types" (JList []) ;;
  type_lines <-
    (if truthy types
     then joined <- py_join ", " types ;;
          Ok ["Type: " ++ joined]
     else Ok []) ;;
  Ok (join (String newline "")
        ([ "Location Details:";
           "Name: " ++ name;
           "Address: " ++ formatted_address ]
         +++ location_lines +++ type_lines)).

(** ** The HTTP session and the trace of a call *)

Inductive HttpRequest : Type :=
| POST (url : string) (body : json)                   (* post(url, json=body) *)
| GET (url : string) (params : list (string * string)). (* get(url, params=...) *)

Record Response : Type := mkResponse {
  status_code : Z;
  status_error : string;   (* the message of the error raise_for_status raises *)
  json_body : Result json  (* response.json() *)
}.

(** [response.raise_for_status()] *)
Definition raise_for_status (response : Response) : Result unit :=
  if (200 <=? status_code response) && (status_code response <=? 299)
  then Ok tt
  else Raise (HTTPError (status_error response)).

(** A call of a method of [BizimTransferClient], with its arguments. *)
Inductive ApiCall : Type :=
| call_search_transfers
    (pickup : string) (pickuplat pickuplng : pyfloat)
    (dropoff : string) (dropofflat dropofflng : pyfloat)
    (adult child infant : Z) (pickupdate pickuptime : string)
    (dropoffdate dropofftime : option string)
    (requesttype currencyid : Z) (language : string)
| call_make_reservation
    (uuid customername customersurname customeremail customertelephone
     customercoutry : string) (transferway passangers : list json)
| call_list_reservations
    (querytype : string) (start end_ : option string) (reservationnumber : option Z)
| call_search_places (query language : string)
| call_get_place_details (place_id language : string).

Inductive Event : Type :=
| EvApi (c : ApiCall)        (* a method of the API client was entered *)
| EvHttp (r : HttpRequest).  (* [post] or [get] was called on the session *)

(** Code with effects: its result, and the events it caused in order. *)
Definition IO (A : Type) : Type := (Result A * list Event)%type.

Definition ret {A} (a : A) : IO A := (Ok a, []).
Definition lift {A} (r : Result A) : IO A := (r, []).
Definition emit (e : Event) : IO unit := (Ok tt, [e]).

Definition bindIO {A B} (m : IO A) (k : A -> IO B) : IO B :=
  match m with
  | (Ok a, t) => let '(r, t') := k a in (r, (t ++ t')%list)
  | (Raise e, t) => (Raise e, t)
  end.

Notation "x <~ m ;; k" := (bindIO m (fun x => k))
  (at level 61, m at next level, right associativity) : py_scope.

(** [try: body except Exception as e: handler e] *)
Definition try_except_Exception {A} (body : IO A) (handler : exn -> IO A) : IO A :=
  match body with
  | (Ok a, t) => (Ok a, t)
  | (Raise e, t) => let '(r, t') := handler e in (r, (t ++ t')%list)
  end.

Definition opt_str (o : option string) : json :=
  match o with Some s => JStr s | None => JNull end.

Definition opt_int (o : option Z) : json :=
  match o with Some n => JInt n | None => JNull end.

(** ** client.py *)

Module client.

Record BizimTransferClient : Type := mkClient {
  base_url : string;
  auth : string * string
}.

(** [BizimTransferClient()] with its default arguments *)
Definition default : BizimTransferClient :=
  mkClient "http://test-api.bizimtransfer.com" ("test", "test").

Section Session.

(** [self.client]: what [post] or [get] of the session returns or raises. *)
Variable http : HttpRequest -> Result Response.

Definition send (r : HttpRequest) : IO Response := (http r, [EvHttp r]).

Definition answer (request : HttpRequest) : IO json :=
  response <~ send request ;;
  _ <~ lift (raise_for_status response) ;;
  lift (json_body response).

Definition search_transfers (self : BizimTransferClient)
    (pickup : string) (pickuplat pickuplng : pyfloat)
    (dropoff : string) (dropofflat dropofflng : pyfloat)
    (adult child infant : Z) (pickupdate pickuptime : string)
    (dropoffdate dropofftime : option string)
    (requesttype currencyid : Z) (language : string) : IO json :=
  _ <~ emit (EvApi (call_search_transfers pickup pickuplat pickuplng
                      dropoff dropofflat dropofflng adult child infant
                      pickupdate pickuptime dropoffdate dropofftime
                      requesttype currencyid language)) ;;
  let payload := JDict [
    ("pickup", JStr pickup);
    ("pickuplat", JFloat pickuplat);
    ("pickuplng", JFloat pickuplng);
    ("dropoff", JStr dropoff);
    ("dropofflat", JFloat dropofflat);
    ("dropofflng", JFloat dropofflng);
    ("adult", JInt adult);
    ("child", JInt child);
    ("infant", JInt infant);
    ("pickupdate", JStr pickupdate);
    ("pickuptime", JStr pickuptime);
    ("dropoffdate", opt_str dropoffdate);
    ("dropofftime", opt_str dropofftime);
    ("requesttype", JInt requesttype);
    ("currencyid", JInt currencyid);
    ("language", JStr language) ] in
  answer (POST (base_url self ++ "/query") payload).

Definition make_reservation (self : BizimTransferClient)
    (uuid customername customersurname customeremail customertelephone
     customercoutry : string) (transferway passangers : list json) : IO json :=
  _ <~ emit (EvApi (call_make_reservation uuid customername customersurname
                      customeremail customertelephone customercoutry
                      transferway passangers)) ;;
  let payload := JDict [
    ("uuid", JStr uuid);
    ("customername", JStr customername);
    ("customersurname", JStr customersurname);
    ("customeremail", JStr customeremail);
    ("customertelephone", JStr customertelephone);
    ("customercoutry", JStr customercoutry);
    ("transferway", JList transferway);
    ("passangers", JList passangers) ] in
  answer (POST (base_url self ++ "/reservation") payload).

Definition list_reservations (self : BizimTransferClient)
    (querytype : string) (start end_ : option string)
    (reservationnumber : option Z) : IO json :=
  _ <~ emit (EvApi (call_list_reservations querytype start end_
                      reservationnumber)) ;;
  let payload :=
    if String.eqb querytype "createdate" || String.eqb querytype "flightdate"
    then JDict [ ("querytype", JStr querytype);
                 ("start", opt_str start);
                 ("end", opt_str end_) ]
    else JDict [ ("querytype", JStr querytype);
                 ("reservationnumber", opt_int reservationnumber) ] in
  answer (POST (base_url self ++ "/list") payload).

Definition search_places (self : BizimTransferClient)
    (query language : string) : IO json :=
  _ <~ emit (EvApi (call_search_places query language)) ;;
  answer (GET (base_url self ++ "/places")
              [("query", query); ("language", language)]).

Definition get_place_details (self : BizimTransferClient)
    (place_id language : string) : IO json :=
  _ <~ emit (EvApi (call_get_place_details place_id language)) ;;
  answer (GET (base_url self ++ "/places/detail")
              [("place_id", place_id); ("language", language)]).

End Session.

End client.

(** ** server.py *)

Module server.

Record AppContext : Type := mkAppContext {
  client : client.BizimTransferClient
}.

(** The [Context] the runtime injects; [lifespan_context] stands for
    [ctx.request_context.lifespan_context]. *)
Record Context : Type := mkContext {
  lifespan_context : option AppContext
}.

(** [ctx.request_context.lifespan_context], where [ctx] may be [None] *)
Definition get_lifespan_context (ctx : option Context) : Result (option AppContext) :=
  match ctx with
  | Some c => Ok (lifespan_context c)
  | None => no_attribute JNull "request_context"
  end.

(** [client.client], where [client] may be [None] *)
Definition get_client (c : option AppContext) : Result client.BizimTransferClient :=
  match c with
  | Some a => Ok (client a)
  | None => no_attribute JNull "client"
  end.

(** [not o] for an [Optional[str]] *)
Definition not_opt_str (o : option string) : bool :=
  match o with Some s => not_str s | None => true end.

(** [not o] for an [Optional[int]] *)
Definition not_opt_int (o : option Z) : bool :=
  match o with Some n => n =? 0 | None => true end.

(** [not o] for an [Optional[List[str]]] *)
Definition not_opt_list (o : option (list string)) : bool :=
  match o with Some (_ :: _) => false | _ => true end.

(** the list held by a truthy [Optional[List[str]]] *)
Definition or_nil (o : option (list string)) : list string :=
  match o with Some l => l | None => [] end.

(** [o or ""] *)
Definition or_empty (o : option string) : string :=
  match o with Some s => s | None => "" end.

(** The validators on an [Optional[str]]: [None] is falsy like [""]. *)
Definition validate_date_opt (o : option string) : Result bool :=
  validate_date (or_empty o).
Definition validate_time_opt (o : option string) : Result bool :=
  validate_time (or_empty o).

(** The dict of one leg in [transfer_ways]. *)
Definition transfer_way (subrouteid : Z) (flightnumber terminal notes : string) : json :=
  JDict [ ("subrouteid", JInt subrouteid);
          ("flightnumber", JStr flightnumber);
          ("terminal", JStr terminal);
          ("notes", JStr notes) ].

(** The dict of one passenger in [passengers]. *)
Definition passenger (name country : string) : json :=
  JDict [ ("name", JStr name); ("country", JStr country) ].

(** [zip(names, countries)] *)
Fixpoint zip (names countries : list string) : list (string * string) :=
  match names, countries with
  | n :: ns, c :: cs => (n, c) :: zip ns cs
  | _, _ => []
  end.

Section Session.

Variable http : HttpRequest -> Result Response.

Definition search_transfers
    (pickup_address : string) (pickup_lat pickup_lng : pyfloat)
    (dropoff_address : string) (dropoff_lat dropoff_lng : pyfloat)
    (pickup_date pickup_time : string)
    (adults children infants : Z)
    (round_trip : bool) (return_date return_time : option string)
    (currency language : string)
    (ctx : option Context) : IO string :=
  (* Input validation *)
  if not_str pickup_address || not_str dropoff_address then
    ret "Error: Pickup and dropoff addresses are required"
  else if adults <? 1 then
    ret "Error: At least one adult passenger is required"
  else
  pickup_date_ok <~ lift (validate_date pickup_date) ;;
  if negb pickup_date_ok then
    ret "Error: Invalid pickup date format. Please use YYYY-MM-DD format"
  else
  pickup_time_ok <~ lift (validate_time pickup_time) ;;
  if negb pickup_time_ok then
    ret "Error: Invalid pickup time format. Please use HH:MM format (24h)"
  else
  let call : IO string :=
    (* Get currency ID *)
    let currency_id := map_get CURRENCY_MAP (upper currency) 2 in
    (* Set request type (1 for one-way, 2 for round-trip) *)
    let request_type := if round_trip then 2 else 1 in
    try_except_Exception
      (lifespan <~ lift (get_lifespan_context ctx) ;;
       (* ctx.info(...) only builds a coroutine that is never awaited *)
       api <~ lift (get_client lifespan) ;;
       result <~ client.search_transfers http api
                   pickup_address pickup_lat pickup_lng
                   dropoff_address dropoff_lat dropoff_lng
                   adults children infants
                   pickup_date pickup_time
                   (if round_trip then return_date else Some "")
                   (if round_trip then return_time else Some "")
                   request_type currency_id language ;;
       lift (format_transfer_results result))
      (fun e => ret ("Error searching for transfers: " ++ exn_str e)) in
  if round_trip then
    if not_opt_str return_date || not_opt_str return_time then
      ret "Error: Return date and time are required for round trips"
    else
    return_date_ok <~ lift (validate_date_opt return_date) ;;
    if negb return_date_ok then
      ret "Error: Invalid return date format. Please use YYYY-MM-DD format"
    else
    return_time_ok <~ lift (validate_time_opt return_time) ;;
    if negb return_time_ok then
      ret "Error: Invalid return time format. Please use HH:MM format (24h)"
    else call
  else call.

Definition make_reservation
    (uuid first_name last_name email phone country_code : string)
    (outbound_subroute_id : Z)
    (flight_number terminal notes : option string)
    (return_subroute_id : option Z)
    (return_flight_number return_terminal return_notes : option string)
    (passenger_names passenger_countries : option (list string))
    (ctx : option Context) : IO string :=
  (* Input validation *)
  if not_str uuid then
    ret "Error: UUID is required from the search results"
  else if not_str first_name || not_str last_name then
    ret "Error: Customer name is required"
  else if not_str email then
    ret "Error: Email address is required"
  else if not_str phone then
    ret "Error: Phone number is required"
  else if not_str country_code then
    ret "Error: Country code is required"
  else if outbound_subroute_id =? 0 then
    ret "Error: Outbound subroute ID is required"
  else
  (* Prepare transfer ways *)
  let outbound :=
    transfer_way outbound_subroute_id
      (or_empty flight_number) (or_empty terminal) (or_empty notes) in
  (* Add return transfer if specified *)
  let transfer_ways :=
    match return_subroute_id with
    | Some id =>
        if id =? 0 then [outbound]
        else [ outbound;
               transfer_way id (or_empty return_flight_number)
                 (or_empty return_terminal) (or_empty return_notes) ]
    | None => [outbound]
    end in
  let call (passengers : list json) : IO string :=
    try_except_Exception
      (lifespan <~ lift (get_lifespan_context ctx) ;;
       api <~ lift (get_client lifespan) ;;
       result <~ client.make_reservation http api
                   uuid first_name last_name email phone
                   (lower country_code) transfer_ways passengers ;;
       lift (format_reservation_results result))
      (fun e => ret ("Error making reservation: " ++ exn_str e)) in
  (* Prepare passengers list *)
  if negb (not_opt_list passenger_names) && negb (not_opt_list passenger_countries) then
    let names := or_nil passenger_names in
    let countries := or_nil passenger_countries in
    if negb (Nat.eqb (List.length names) (List.length countries)) then
      ret "Error: Number of passenger names and countries must match"
    else
      call (map (fun nc => passenger (fst nc) (lower (snd nc)))
                (zip names countries))
  else
    (* Default to main customer if no specific passengers *)
    call [passenger (first_name ++ " " ++ last_name) (lower country_code)].

Definition list_reservations
    (query_type : string) (start_date end_date : option string)
    (reservation_number : option Z)
    (ctx : option Context) : IO string :=
  let by_date :=
    String.eqb query_type "createdate" || String.eqb query_type "flightdate" in
  (* Input validation *)
  if negb (by_date || String.eqb query_type "reservationnumber") then
    ret "Error: query_type must be 'createdate', 'flightdate', or 'reservationnumber'"
  else
  let proceed : IO string :=
    if String.eqb query_type "reservationnumber" && not_opt_int reservation_number
    then ret "Error: reservation_number is required for direct lookup"
    else
      try_except_Exception
        (lifespan <~ lift (get_lifespan_context ctx) ;;
         api <~ lift (get_client lifespan) ;;
         result <~
           (if by_date
            then client.list_reservations http api query_type
                   start_date end_date None
            else client.list_reservations http api query_type
                   None None reservation_number) ;;
         lift (format_reservation_list result))
        (fun e => ret ("Error listing reservations: " ++ exn_str e)) in
  if by_date then
    if not_opt_str start_date || not_opt_str end_date then
      ret ("Error: start_date and end_date are required for "
             ++ query_type ++ " queries")
    else
    start_ok <~ lift (validate_date_opt start_date) ;;
    if negb start_ok then
      ret "Error: Invalid date format. Please use YYYY-MM-DD format"
    else
    end_ok <~ lift (validate_date_opt end_date) ;;
    if negb end_ok then
      ret "Error: Invalid date format. Please use YYYY-MM-DD format"
    else proceed
  else proceed.

Definition search_places (query language : string)
    (ctx : option Context) : IO string :=
  if not_str query then
    ret "Error: Search query is required"
  else
  match ctx with
  | None | Some {| lifespan_context := None |} =>
      ret "Error: Server configuration error - missing context"
  | Some _ =>
      try_except_Exception
        (lifespan <~ lift (get_lifespan_context ctx) ;;
         api <~ lift (get_client lifespan) ;;
         places <~ client.search_places http api query language ;;
         lift (format_places_results places))
        (fun e => ret ("Error searching places: " ++ exn_str e))
  end.

Definition get_place_details (place_id language : string)
    (ctx : option Context) : IO string :=
  if not_str place_id then
    ret "Error: Place ID is required"
  else
    try_except_Exception
      (lifespan <~ lift (get_lifespan_context ctx) ;;
       api <~ lift (get_client lifespan) ;;
       details <~ client.get_place_details http api place_id language ;;
       lift (format_place_details details))
      (fun e => ret ("Error getting place details: " ++ exn_str e)).

End Session.

End server.


(** ** Vocabulary of the specification *)

(** [s] is the number [n] written with one, two or four decimal digits. *)
Definition digits1 (s : string) (n : Z) : Prop :=
  exists a, s = String a "" /\ is_digit a = true /\ n = digit_val a.

Definition digits2 (s : string) (n : Z) : Prop :=
  exists a b, s = String a (String b "")
    /\ is_digit a = true /\ is_digit b = true
    /\ n = 10 * digit_val a + digit_val b.

Definition digits4 (s : string) (n : Z) : Prop :=
  exists a b c d, s = String a (String b (String c (String d "")))
    /\ is_digit a = true /\ is_digit b = true
    /\ is_digit c = true /\ is_digit d = true
    /\ n = 1000 * digit_val a + 100 * digit_val b + 10 * digit_val c + digit_val d.

(** A blank and one digit, the way C pads a day of the month. *)
Definition blank_digit (s : string) (n : Z) : Prop :=
  exists a, s = String " " (String a "") /\ is_digit a = true /\ n = digit_val a.

(** The date shape the specification words: YYYY-MM-DD, two digits for the
    month and for the day, a day of the calendar. *)
Definition strict_date (s : string) : Prop :=
  exists ys ms ds y m d,
    s = ys ++ "-" ++ ms ++ "-" ++ ds
    /\ digits4 ys y /\ digits2 ms m /\ digits2 ds d
    /\ 1 <= m <= 12 /\ 1 <= d <= datetime._days_in_month y m.

(** The date shape [strptime] takes for [%Y-%m-%d]. *)
Definition lenient_date (s : string) : Prop :=
  exists ys ms ds y m d,
    s = ys ++ "-" ++ ms ++ "-" ++ ds
    /\ digits4 ys y /\ 1 <= y
    /\ (digits1 ms m \/ digits2 ms m) /\ 1 <= m <= 12
    /\ (digits1 ds d \/ digits2 ds d \/ blank_digit ds d)
    /\ 1 <= d <= datetime._days_in_month y m.

(** The time shape the specification words: HH:MM, two digits each. *)
Definition strict_time (s : string) : Prop :=
  exists hs ms h m,
    s = hs ++ ":" ++ ms
    /\ digits2 hs h /\ 0 <= h <= 23
    /\ digits2 ms m /\ 0 <= m <= 59.

(** The time shape [strptime] takes for [%H:%M]. *)
Definition lenient_time (s : string) : Prop :=
  exists hs ms h m,
    s = hs ++ ":" ++ ms
    /\ (digits1 hs h \/ digits2 hs h) /\ 0 <= h <= 23
    /\ (digits1 ms m \/ digits2 ms m) /\ 0 <= m <= 59.

(** A call of one of the five tools, with its arguments in the order of
    the source. *)
Inductive ToolCall : Type :=
| SearchTransfers
    (pickup_address : string) (pickup_lat pickup_lng : pyfloat)
    (dropoff_address : string) (dropoff_lat dropoff_lng : pyfloat)
    (pickup_date pickup_time : string)
    (adults children infants : Z)
    (round_trip : bool) (return_date return_time : option string)
    (currency language : string)
| MakeReservation
    (uuid first_name last_name email phone country_code : string)
    (outbound_subroute_id : Z)
    (flight_number terminal notes : option string)
    (return_subroute_id : option Z)
    (return_flight_number return_terminal return_notes : option string)
    (passenger_names passenger_countries : option (list string))
| ListReservations
    (query_type : string) (start_date end_date : option string)
    (reservation_number : option Z)
| SearchPlaces (query language : string)
| GetPlaceDetails (place_id language : string).

Definition run (http : HttpRequest -> Result Response) (c : ToolCall)
    (ctx : option server.Context) : IO string :=
  match c with
  | SearchTransfers pickup_address pickup_lat pickup_lng
      dropoff_address dropoff_lat dropoff_lng pickup_date pickup_time
      adults children infants round_trip return_date return_time
      currency language =>
      server.search_transfers http pickup_address pickup_lat pickup_lng
        dropoff_address dropoff_lat dropoff_lng pickup_date pickup_time
        adults children infants round_trip return_date return_time
        currency language ctx
  | MakeReservation uuid first_name last_name email phone country_code
      outbound_subroute_id flight_number terminal notes return_subroute_id
      return_flight_number return_terminal return_notes
      passenger_names passenger_countries =>
      server.make_reservation http uuid first_name last_name email phone
        country_code outbound_subroute_id flight_number terminal notes
        return_subroute_id return_flight_number return_terminal return_notes
        passenger_names passenger_countries ctx
  | ListReservations query_type start_date end_date reservation_number =>
      server.list_reservations http query_type start_date end_date
        reservation_number ctx
  | SearchPlaces query language => server.search_places http query language ctx
  | GetPlaceDetails place_id language =>
      server.get_place_details http place_id language ctx
  end.

(** An optional text that was not supplied, or supplied empty. *)
Definition missing (o : option string) : Prop := o = None \/ o = Some "".

Definition invalid_date (o : option string) : Prop :=
  exists d, o = Some d /\ validate_date d = Ok false.

Definition invalid_time (o : option string) : Prop :=
  exists t, o = Some t /\ validate_time t = Ok false.

(** The argument assignments that fail a validation check of their tool. *)
Definition fails_validation (c : ToolCall) : Prop :=
  match c with
  | SearchTransfers pickup_address _ _ dropoff_address _ _
      pickup_date pickup_time adults _ _
      round_trip return_date return_time _ _ =>
      pickup_address = "" \/ dropoff_address = ""
      \/ adults < 1
      \/ validate_date pickup_date = Ok false
      \/ validate_time pickup_time = Ok false
      \/ (round_trip = true
          /\ (missing return_date \/ missing return_time
              \/ invalid_date return_date \/ invalid_time return_time))
  | MakeReservation uuid first_name last_name email phone country_code
      outbound_subroute_id _ _ _ _ _ _ _
      passenger_names passenger_countries =>
      uuid = "" \/ first_name = "" \/ last_name = "" \/ email = ""
      \/ phone = "" \/ country_code = ""
      \/ outbound_subroute_id = 0
      \/ (exists names countries,
            passenger_names = Some names /\ passenger_countries = Some countries
            /\ names <> [] /\ countries <> []
            /\ List.length names <> List.length countries)
  | ListReservations query_type start_date end_date reservation_number =>
      ~ In query_type ["createdate"; "flightdate"; "reservationnumber"]
      \/ (In query_type ["createdate"; "flightdate"]
          /\ (missing start_date \/ missing end_date
              \/ invalid_date start_date \/ invalid_date end_date))
      \/ (query_type = "reservationnumber"
          /\ (reservation_number = None \/ reservation_number = Some 0))
  | SearchPlaces query _ => query = ""
  | GetPlaceDetails place_id _ => place_id = ""
  end.

(** The context of a running server: the lifespan context holds [api]. *)
Definition running (api : client.BizimTransferClient) : option server.Context :=
  Some (server.mkContext (Some (server.mkAppContext api))).

(** What a rejected call looks like: an error line and no event. *)
Definition rejected (r : IO string) : Prop :=
  exists msg,
    r = (Ok msg, []) /\ startswith msg "Error: " = true /\ one_line msg = true.

(** A validator that answered false. *)
Definition refused (r : Result bool) : bool :=
  match r with Ok false => true | _ => false end.

(** The validation checks of each tool in the order of the source: whether
    the check fails on the arguments, and the text the tool returns when it
    is the first check to fail. *)
Definition checks (c : ToolCall) : list (bool * string) :=
  match c with
  | SearchTransfers pickup_address _ _ dropoff_address _ _
      pickup_date pickup_time adults _ _
      round_trip return_date return_time _ _ =>
      [ (not_str pickup_address || not_str dropoff_address,
         "Error: Pickup and dropoff addresses are required");
        (adults <? 1,
         "Error: At least one adult passenger is required");
        (refused (validate_date pickup_date),
         "Error: Invalid pickup date format. Please use YYYY-MM-DD format");
        (refused (validate_time pickup_time),
         "Error: Invalid pickup time format. Please use HH:MM format (24h)");
        (round_trip && (server.not_opt_str return_date
                        || server.not_opt_str return_time),
         "Error: Return date and time are required for round trips");
        (round_trip && refused (server.validate_date_opt return_date),
         "Error: Invalid return date format. Please use YYYY-MM-DD format");
        (round_trip && refused (server.validate_time_opt return_time),
         "Error: Invalid return time format. Please use HH:MM format (24h)") ]
  | MakeReservation uuid first_name last_name email phone country_code
      outbound_subroute_id _ _ _ _ _ _ _
      passenger_names passenger_countries =>
      [ (not_str uuid, "Error: UUID is required from the search results");
        (not_str first_name || not_str last_name,
         "Error: Customer name is required");
        (not_str email, "Error: Email address is required");
        (not_str phone, "Error: Phone number is required");
        (not_str country_code, "Error: Country code is required");
        (outbound_subroute_id =? 0, "Error: Outbound subroute ID is required");
        (negb (server.not_opt_list passenger_names)
         && negb (server.not_opt_list passenger_countries)
         && negb (Nat.eqb (List.length (server.or_nil passenger_names))
                          (List.length (server.or_nil passenger_countries))),
         "Error: Number of passenger names and countries must match") ]
  | ListReservations query_type start_date end_date reservation_number =>
      let by_date :=
        String.eqb query_type "createdate" || String.eqb query_type "flightdate" in
      [ (negb (by_date || String.eqb query_type "reservationnumber"),
         "Error: query_type must be 'createdate', 'flightdate', or 'reservationnumber'");
        (by_date && (server.not_opt_str start_date || server.not_opt_str end_date),
         "Error: start_date and end_date are required for "
           ++ query_type ++ " queries");
        (by_date && (refused (server.validate_date_opt start_date)
                     || refused (server.validate_date_opt end_date)),
         "Error: Invalid date format. Please use YYYY-MM-DD format");
        (String.eqb query_type "reservationnumber"
         && server.not_opt_int reservation_number,
         "Error: reservation_number is required for direct lookup") ]
  | SearchPlaces query _ => [(not_str query, "Error: Search query is required")]
  | GetPlaceDetails place_id _ =>
      [(not_str place_id, "Error: Place ID is required")]
  end.

(** The text of the first check that fails. *)
Fixpoint first_failed (l : list (bool * string)) : option string :=
  match l with
  | [] => None
  | (failed, text) :: l' => if failed then Some text else first_failed l'
  end.

(** A call rejected by validation: the result is the text of the first
    failed check of [c], which is one error line, and there is no event. *)
Definition rejected_by (c : ToolCall) (r : IO string) : Prop :=
  exists msg,
    first_failed (checks c) = Some msg
    /\ r = (Ok msg, [])
    /\ startswith msg "Error: " = true /\ one_line msg = true.

(** The dates and times that a call hands to the validators are ASCII
    text. *)
Definition ascii_dates (c : ToolCall) : bool :=
  match c with
  | SearchTransfers _ _ _ _ _ _ pickup_date pickup_time _ _ _
      round_trip return_date return_time _ _ =>
      isascii pickup_date && isascii pickup_time
      && (negb round_trip
          || isascii (server.or_empty return_date)
             && isascii (server.or_empty return_time))
  | ListReservations query_type start_date end_date _ =>
      negb (String.eqb query_type "createdate"
            || String.eqb query_type "flightdate")
      || isascii (server.or_empty start_date)
         && isascii (server.or_empty end_date)
  | _ => true
  end.

(** The passenger made of the customer's own name and country. *)
Definition default_passenger (first_name last_name country_code : string) : json :=
  server.passenger (first_name ++ " " ++ last_name) (lower country_code).

(** The five codes of the currency enumeration. *)
Definition currency_codes : list string := ["TRY"; "EUR"; "USD"; "GBP"; "RUB"].

(** *** Well-formed responses *)

(** A list of objects, each satisfying [P]. *)
Definition dict_list (P : list (string * json) -> Prop) (v : json) : Prop :=
  exists l, v = JList l /\ Forall (fun x => exists d, x = JDict d /\ P d) l.

(** The field [key], when present, satisfies [P]. *)
Definition optional (d : list (string * json)) (key : string)
    (P : json -> Prop) : Prop :=
  match lookup d key with Some v => P v | None => True end.

Definition any_dict (_ : list (string * json)) : Prop := True.

Definition is_str (v : json) : Prop := exists s, v = JStr s.

Definition wf_option (o : list (string * json)) : Prop :=
  optional o "extraurunler" (dict_list any_dict).

Definition wf_way (w : list (string * json)) : Prop :=
  optional w "type" is_str /\ optional w "list" (dict_list wf_option).

Definition wf_transfers (d : list (string * json)) : Prop :=
  lookup d "status" = Some (JStr "success")
  /\ optional d "ways" (dict_list wf_way).

Definition wf_reservation (d : list (string * json)) : Prop :=
  lookup d "status" = Some (JStr "success").

Definition wf_record (r : list (string * json)) : Prop :=
  optional r "ways" (dict_list any_dict)
  /\ optional r "passangers" (dict_list any_dict).

Definition wf_reservation_list (d : list (string * json)) : Prop :=
  lookup d "status" = Some (JStr "success")
  /\ optional d "list" (dict_list wf_record).

Definition wf_places (places : json) : Prop := dict_list any_dict places.

Definition wf_details (d : list (string * json)) : Prop :=
  optional d "geometry"
    (fun g => exists gd, g = JDict gd
                /\ optional gd "location" (fun l => exists ld, l = JDict ld))
  /\ optional d "types" (fun t => exists l, t = JList l /\ Forall is_str l).

(** The members of the list under [key]. *)
Definition items (d : list (string * json)) (key : string) : list json :=
  match lookup d key with Some (JList l) => l | _ => [] end.

(** The text an f-string prints for [d.get(key)]. *)
Definition printed (d : list (string * json)) (key : string) : string :=
  match lookup d key with Some v => str v | None => "None" end.

(** The text of the error line of a response whose [status] is not the
    success marker. *)
Definition error_line (d : list (string * json)) : string :=
  "Error: " ++ match lookup d "description" with
               | Some v => str v
               | None => "Unknown error occurred"
               end.

(** *** Reading a call and its trace *)

(** The words that open the error line of each tool when its [try] fails. *)
Definition action (c : ToolCall) : string :=
  match c with
  | SearchTransfers _ _ _ _ _ _ _ _ _ _ _ _ _ _ _ _ =>
      "Error searching for transfers: "
  | MakeReservation _ _ _ _ _ _ _ _ _ _ _ _ _ _ _ _ =>
      "Error making reservation: "
  | ListReservations _ _ _ _ => "Error listing reservations: "
  | SearchPlaces _ _ => "Error searching places: "
  | GetPlaceDetails _ _ => "Error getting place details: "
  end.

(** The formatter each tool hands the answer to. *)
Definition formatter (c : ToolCall) : json -> Result string :=
  match c with
  | SearchTransfers _ _ _ _ _ _ _ _ _ _ _ _ _ _ _ _ => format_transfer_results
  | MakeReservation _ _ _ _ _ _ _ _ _ _ _ _ _ _ _ _ => format_reservation_results
  | ListReservations _ _ _ _ => format_reservation_list
  | SearchPlaces _ _ => format_places_results
  | GetPlaceDetails _ _ => format_place_details
  end.

(** The method of [BizimTransferClient] a recorded call stands for. *)
Definition client_call (http : HttpRequest -> Result Response)
    (api : client.BizimTransferClient) (a : ApiCall) : IO json :=
  match a with
  | call_search_transfers pickup pickuplat pickuplng dropoff dropofflat
      dropofflng adult child infant pickupdate pickuptime dropoffdate
      dropofftime requesttype currencyid language =>
      client.search_transfers http api pickup pickuplat pickuplng dropoff
        dropofflat dropofflng adult child infant pickupdate pickuptime
        dropoffdate dropofftime requesttype currencyid language
  | call_make_reservation uuid customername customersurname customeremail
      customertelephone customercoutry transferway passangers =>
      client.make_reservation http api uuid customername customersurname
        customeremail customertelephone customercoutry transferway passangers
  | call_list_reservations querytype start end_ reservationnumber =>
      client.list_reservations http api querytype start end_ reservationnumber
  | call_search_places query language =>
      client.search_places http api query language
  | call_get_place_details place_id language =>
      client.get_place_details http api place_id language
  end.

(** The tool that goes with a client method. *)
Definition serves (c : ToolCall) (a : ApiCall) : Prop :=
  match c, a with
  | SearchTransfers _ _ _ _ _ _ _ _ _ _ _ _ _ _ _ _,
    call_search_transfers _ _ _ _ _ _ _ _ _ _ _ _ _ _ _ _ => True
  | MakeReservation _ _ _ _ _ _ _ _ _ _ _ _ _ _ _ _,
    call_make_reservation _ _ _ _ _ _ _ _ => True
  | ListReservations _ _ _ _, call_list_reservations _ _ _ _ => True
  | SearchPlaces _ _, call_search_places _ _ => True
  | GetPlaceDetails _ _, call_get_place_details _ _ => True
  | _, _ => False
  end.

(** A 2xx status. *)
Definition is_success (response : Response) : bool :=
  (200 <=? status_code response) && (status_code response <=? 299).

Definition url (r : HttpRequest) : string :=
  match r with POST u _ | GET u _ => u end.

Definition is_post (r : HttpRequest) : bool :=
  match r with POST _ _ => true | GET _ _ => false end.

(** The method and path of the endpoint behind each client method. *)
Definition endpoint (a : ApiCall) : bool * string :=
  match a with
  | call_search_transfers _ _ _ _ _ _ _ _ _ _ _ _ _ _ _ _ => (true, "/query")
  | call_make_reservation _ _ _ _ _ _ _ _ => (true, "/reservation")
  | call_list_reservations _ _ _ _ => (true, "/list")
  | call_search_places _ _ => (false, "/places")
  | call_get_place_details _ _ => (false, "/places/detail")
  end.

(** The text a tool returns when there is no context to take the client
    from: [attr] is the attribute Python fails to find on [None]. *)
Definition no_attribute_text (c : ToolCall) (attr : string) : string :=
  match c with
  | SearchPlaces _ _ => "Error: Server configuration error - missing context"
  | _ => action c ++ "'NoneType' object has no attribute '" ++ attr ++ "'"
  end.

(** The text of a call that reached the session, read off the answer. *)
Definition outcome (c : ToolCall) (answer : Result Response) : string :=
  match answer with
  | Raise e => action c ++ exn_str e
  | Ok response =>
      if is_success response then
        match json_body response with
        | Raise e => action c ++ exn_str e
        | Ok result =>
            match formatter c result with
            | Ok text => text
            | Raise e => action c ++ exn_str e
            end
        end
      else action c ++ status_error response
  end.

(** The [try] of a tool once the client is at hand: the client method is
    called, its answer formatted, and any exception turned into text. *)
Definition served (http : HttpRequest -> Result Response) (c : ToolCall)
    (api : client.BizimTransferClient) (a : ApiCall) : IO string :=
  try_except_Exception
    (result <~ client_call http api a ;; lift (formatter c result))
    (fun e => ret (action c ++ exn_str e)).

(** A context whose lifespan context is missing. *)
Definition no_lifespan : option server.Context :=
  Some (server.mkContext None).

(** What a call that passed validation does, by the context it is given. *)
Definition proceeds (http : HttpRequest -> Result Response) (c : ToolCall)
    (ctx : option server.Context) : Prop :=
  exists a,
    serves c a
    /\ match ctx with
       | Some {| server.lifespan_context := Some {| server.client := api |} |} =>
           run http c ctx = served http c api a
       | Some {| server.lifespan_context := None |} =>
           run http c ctx = (Ok (no_attribute_text c "client"), [])
       | None =>
           run http c ctx = (Ok (no_attribute_text c "request_context"), [])
       end.

(** *** Sample inputs *)

(** A session whose every request fails in transport. *)
Definition offline (_ : HttpRequest) : Result Response :=
  Raise (HTTPError "All connection attempts failed").

Definition sample_lat : pyfloat := mkFloat "36.8987" false.
Definition sample_lng : pyfloat := mkFloat "30.8005" false.

Definition sample_transfers : list (string * json) :=
  [ ("status", JStr "success");
    ("uuid", JStr "3f2b-77aa");
    ("pickup", JStr "Antalya Airport");
    ("dropoff", JStr "Kemer");
    ("adult", JInt 2); ("child", JInt 0); ("infant", JInt 0);
    ("currencysembol", JStr "EUR");
    ("ways",
     JList [ JDict [ ("type", JStr "yon1");
                     ("from", JStr "Antalya Airport");
                     ("to", JStr "Kemer");
                     ("date", JStr "2024-05-01");
                     ("list",
                      JList [ JDict [ ("carname", JStr "Vito");
                                      ("price", JInt 50);
                                      ("extraurunler",
                                       JList [ JDict [ ("UrunTanimi", JStr "Child seat");
                                                       ("BirimFiyat", JInt 5) ] ]);
                                      ("routeid", JInt 7);
                                      ("subrouteid", JInt 7041) ] ]) ] ]) ].

Definition sample_listing : list (string * json) :=
  [ ("status", JStr "success");
    ("list",
     JList [ JDict [ ("reservationnumber", JInt 90017);
                     ("customername", JStr "Ada");
                     ("ways", JList [ JDict [ ("flightnumber", JStr "TK1") ] ]);
                     ("passangers", JList [ JDict [ ("namesurname", JStr "Ada L") ] ]) ] ]) ].

Definition sample_places : json :=
  JList [ JDict [ ("place_id", JStr "ChIJ-ayt"); ("description", JStr "Antalya Airport") ] ].

(** A session that answers every request with status 503. *)
Definition unavailable (_ : HttpRequest) : Result Response :=
  Ok (mkResponse 503 "Server error '503 Service Unavailable'"
        (Raise (ValueError "Expecting value: line 1 column 1 (char 0)"))).

(** A session that answers every request with status 200 and body [j]. *)
Definition answering (j : json) (_ : HttpRequest) : Result Response :=
  Ok (mkResponse 200 "" (Ok j)).

(** ** Strings and digits *)

Lemma append_assoc (a b c : string) : (a ++ b) ++ c = a ++ (b ++ c).
Proof.
  induction a as [|x a IH]; simpl; [reflexivity | now rewrite IH].
Qed.

Lemma append_nil_r (s : string) : s ++ "" = s.
Proof.
  induction s as [|x s IH]; simpl; [reflexivity | now rewrite IH].
Qed.


Lemma in_range_bounds lo hi c :
  in_range lo hi c = true <->
  (N_of_ascii lo <= N_of_ascii c <= N_of_ascii hi)%N.
Proof.
  unfold in_range. rewrite andb_true_iff, !N.leb_le. tauto.
Qed.

Lemma in_range_digit lo hi c :
  in_range lo hi c = true ->
  is_digit lo = true -> is_digit hi = true -> is_digit c = true.
Proof.
  unfold is_digit. rewrite !in_range_bounds. lia.
Qed.

Lemma is_digit_val c : is_digit c = true -> 0 <= digit_val c <= 9.
Proof.
  unfold is_digit, digit_val. rewrite in_range_bounds. simpl. lia.
Qed.

(** A digit is one of the ten characters. *)
Lemma is_digit_cases c :
  is_digit c = true ->
  In c ["0"; "1"; "2"; "3"; "4"; "5"; "6"; "7"; "8"; "9"]%char.
Proof.
  intros H.
  destruct c as [[] [] [] [] [] [] [] []]; vm_compute in H; try discriminate H;
    vm_compute; repeat (first [left; reflexivity | right]).
Qed.

(** [upper] and [lower] keep ASCII text ASCII and never make it so. *)
Lemma isascii_upper s : isascii (upper s) = isascii s.
Proof.
  induction s as [|c s IH]; [reflexivity |].
  unfold isascii in *. cbn [upper map_string chars forallb].
  fold (upper s). rewrite IH. f_equal.
  destruct c as [[] [] [] [] [] [] [] []]; reflexivity.
Qed.

Lemma isascii_lower s : isascii (lower s) = isascii s.
Proof.
  induction s as [|c s IH]; [reflexivity |].
  unfold isascii in *. cbn [lower map_string chars forallb].
  fold (lower s). rewrite IH. f_equal.
  destruct c as [[] [] [] [] [] [] [] []]; reflexivity.
Qed.

(** ** The matcher finds what the language describes *)

Section Strptime.

Import re _strptime.

Lemma one_char_inv p s m g rest :
  In (m, g, rest) (one_char p s) ->
  exists c, s = String c rest /\ p c = true /\ m = String c "" /\ g = [].
Proof.
  destruct s as [|c s']; simpl; [tauto |].
  destruct (p c) eqn:E; simpl; [| tauto].
  intros [H | []]. inversion H; subst. now exists c.
Qed.

Lemma exec_sound r :
  forall s m g rest, In (m, g, rest) (exec r s) -> s = m ++ rest /\ Lang r m g.
Proof.
  induction r as [c | lo hi | | r1 IH1 r2 IH2 | r1 IH1 r2 IH2 | name r IH];
    intros s m g rest Hin; simpl in Hin.
  - apply one_char_inv in Hin as (c' & -> & E & -> & ->).
    apply Ascii.eqb_eq in E; subst c'. split; [reflexivity | constructor].
  - apply one_char_inv in Hin as (c' & -> & E & -> & ->).
    split; [reflexivity | now constructor].
  - apply one_char_inv in Hin as (c' & -> & E & -> & ->).
    split; [reflexivity | now constructor].
  - apply in_flat_map in Hin as ([[m1 g1] rest1] & H1 & H2).
    apply in_map_iff in H2 as ([[m2 g2] rest2] & E & H2).
    inversion E; subst; clear E.
    apply IH1 in H1 as [-> L1]. apply IH2 in H2 as [-> L2].
    split; [now rewrite append_assoc | now constructor].
  - apply in_app_or in Hin as [H | H].
    + apply IH1 in H as [-> L]. split; [reflexivity | now apply LAltL].
    + apply IH2 in H as [-> L]. split; [reflexivity | now apply LAltR].
  - apply in_map_iff in Hin as ([[m' g'] rest'] & E & H).
    inversion E; subst; clear E.
    apply IH in H as [-> L]. split; [reflexivity | now constructor].
Qed.

Lemma match_sound r s m g rest :
  match_ r s = Some (m, g, rest) -> s = m ++ rest /\ Lang r m g.
Proof.
  unfold match_. intros H. apply exec_sound.
  destruct (exec r s); simpl in H; [discriminate |].
  inversion H; subst. now left.
Qed.

Ltac inv H := inversion H; subst; clear H.

Ltac inv_lang :=
  repeat match goal with
  | H : Lang (Cat _ _) _ _ |- _ => inv H
  | H : Lang (Alt _ _) _ _ |- _ => inv H
  | H : Lang (Group _ _) _ _ |- _ => inv H
  | H : Lang (Lit _) _ _ |- _ => inv H
  | H : Lang (Range _ _) _ _ |- _ => inv H
  | H : Lang Digit _ _ |- _ => inv H
  end.

Ltac digit_goal :=
  match goal with
  | |- is_digit _ = true =>
      first [ assumption | reflexivity
            | eapply in_range_digit; [eassumption | reflexivity | reflexivity] ]
  end.

Lemma lang_Y m g : Lang re_Y m g -> g = [] /\ exists y, digits4 m y.
Proof.
  unfold re_Y. intros H. inv_lang. split; [reflexivity |].
  eexists. do 4 eexists. simpl. repeat split; digit_goal.
Qed.

Lemma lang_m m g : Lang re_m m g -> g = [] /\ exists v, digits1 m v \/ digits2 m v.
Proof.
  unfold re_m. intros H. inv_lang; (split; [reflexivity |]); eexists.
  - right. do 2 eexists. simpl. repeat split; digit_goal.
  - right. do 2 eexists. simpl. repeat split; digit_goal.
  - left. eexists. repeat split; digit_goal.
Qed.

Lemma lang_d m g :
  Lang re_d m g ->
  g = [] /\ exists v, digits1 m v \/ digits2 m v \/ blank_digit m v.
Proof.
  unfold re_d. intros H. inv_lang; (split; [reflexivity |]); eexists.
  - right; left. do 2 eexists. simpl. repeat split; digit_goal.
  - right; left. do 2 eexists. simpl. repeat split; digit_goal.
  - right; left. do 2 eexists. simpl. repeat split; digit_goal.
  - left. eexists. repeat split; digit_goal.
  - right; right. eexists. simpl. repeat split; digit_goal.
Qed.

Lemma lang_H m g : Lang re_H m g -> g = [] /\ exists v, digits1 m v \/ digits2 m v.
Proof.
  unfold re_H. intros H. inv_lang; (split; [reflexivity |]); eexists.
  - right. do 2 eexists. simpl. repeat split; digit_goal.
  - right. do 2 eexists. simpl. repeat split; digit_goal.
  - left. eexists. repeat split; digit_goal.
Qed.

Lemma lang_M m g : Lang re_M m g -> g = [] /\ exists v, digits1 m v \/ digits2 m v.
Proof.
  unfold re_M. intros H. inv_lang; (split; [reflexivity |]); eexists.
  - right. do 2 eexists. simpl. repeat split; digit_goal.
  - left. eexists. repeat split; digit_goal.
Qed.

Lemma digit_not_blank c : is_digit c = true -> Ascii.eqb c " " = false.
Proof.
  intros H. apply is_digit_cases in H. simpl in H.
  repeat (destruct H as [<- | H]; [reflexivity |]). contradiction.
Qed.

Lemma int_digits1 s v : digits1 s v -> int s = Some v.
Proof.
  intros (a & -> & Ha & ->). cbn [int int_digits]. rewrite (digit_not_blank a Ha), Ha.
  reflexivity.
Qed.

Lemma int_digits2 s v : digits2 s v -> int s = Some v.
Proof.
  intros (a & b & -> & Ha & Hb & ->). cbn [int int_digits].
  rewrite (digit_not_blank a Ha), Ha, Hb. f_equal; lia.
Qed.

Lemma int_digits4 s v : digits4 s v -> int s = Some v.
Proof.
  intros (a & b & c & d & -> & Ha & Hb & Hc & Hd & ->). cbn [int int_digits].
  rewrite (digit_not_blank a Ha), Ha, Hb, Hc, Hd. f_equal; lia.
Qed.

Lemma int_blank_digit s v : blank_digit s v -> int s = Some v.
Proof.
  intros (a & -> & Ha & ->). cbn [int int_digits]. rewrite (digit_not_blank a Ha), Ha.
  reflexivity.
Qed.

Lemma compile_date :
  compile "%Y-%m-%d" =
  Some (Cat (Group "Y" re_Y) (Cat (Lit "-")
       (Cat (Group "m" re_m) (Cat (Lit "-") (Group "d" re_d))))).
Proof. reflexivity. Qed.

Lemma compile_time :
  compile "%H:%M" = Some (Cat (Group "H" re_H) (Cat (Lit ":") (Group "M" re_M))).
Proof. reflexivity. Qed.

Lemma days_in_month_le y m : datetime._days_in_month y m <= 31.
Proof.
  unfold datetime._days_in_month, datetime._DAYS_IN_MONTH.
  destruct ((m =? 2) && datetime._is_leap y); [lia |].
  destruct m as [|p|p]; try lia.
  do 4 (destruct p as [p|p|]; try lia).
Qed.

Lemma check_date_fields_ok y m d :
  datetime._check_date_fields y m d = Ok tt <->
  1 <= y <= 9999 /\ 1 <= m <= 12 /\ 1 <= d <= datetime._days_in_month y m.
Proof.
  unfold datetime._check_date_fields, datetime.MINYEAR, datetime.MAXYEAR.
  destruct ((1 <=? y) && (y <=? 9999)) eqn:Ey;
  destruct ((1 <=? m) && (m <=? 12)) eqn:Em;
  destruct ((1 <=? d) && (d <=? datetime._days_in_month y m)) eqn:Ed; simpl;
  rewrite ?andb_true_iff, ?andb_false_iff, ?Z.leb_le, ?Z.leb_gt in *;
  split; intros H; try discriminate; try reflexivity; try lia.
Qed.

Ltac tokens :=
  repeat match goal with
  | H : Lang re_Y _ _ |- _ => apply lang_Y in H as (-> & ? & ?)
  | H : Lang re_m _ _ |- _ => apply lang_m in H as (-> & ? & ?)
  | H : Lang re_d _ _ |- _ => apply lang_d in H as (-> & ? & ?)
  | H : Lang re_H _ _ |- _ => apply lang_H in H as (-> & ? & ?)
  | H : Lang re_M _ _ |- _ => apply lang_M in H as (-> & ? & ?)
  end.

Lemma lang_date m g :
  Lang (Cat (Group "Y" re_Y) (Cat (Lit "-")
       (Cat (Group "m" re_m) (Cat (Lit "-") (Group "d" re_d))))) m g ->
  exists ys ms ds y mo d,
    m = ys ++ "-" ++ ms ++ "-" ++ ds
    /\ g = [("Y", ys); ("m", ms); ("d", ds)]
    /\ digits4 ys y
    /\ (digits1 ms mo \/ digits2 ms mo)
    /\ (digits1 ds d \/ digits2 ds d \/ blank_digit ds d).
Proof.
  intros L. inv_lang. tokens. do 6 eexists. repeat split; eassumption.
Qed.

Lemma lang_time m g :
  Lang (Cat (Group "H" re_H) (Cat (Lit ":") (Group "M" re_M))) m g ->
  exists hs ms h mi,
    m = hs ++ ":" ++ ms
    /\ g = [("H", hs); ("M", ms)]
    /\ (digits1 hs h \/ digits2 hs h)
    /\ (digits1 ms mi \/ digits2 ms mi).
Proof.
  intros L. inv_lang. tokens. do 4 eexists. repeat split; eassumption.
Qed.

Lemma int_month s v : digits1 s v \/ digits2 s v -> int s = Some v.
Proof. intros [H | H]; [now apply int_digits1 | now apply int_digits2]. Qed.

Lemma int_day s v :
  digits1 s v \/ digits2 s v \/ blank_digit s v -> int s = Some v.
Proof.
  intros [H | [H | H]];
    [now apply int_digits1 | now apply int_digits2 | now apply int_blank_digit].
Qed.

Lemma fields_of_date ys ms ds y m d :
  int ys = Some y -> int ms = Some m -> int ds = Some d ->
  fields_of [("Y", ys); ("m", ms); ("d", ds)] = Some (mkFields y m d 0 0).
Proof.
  intros Hy Hm Hd. unfold fields_of, group_int. simpl.
  now rewrite Hy, Hm, Hd.
Qed.

Lemma fields_of_time hs ms h m :
  int hs = Some h -> int ms = Some m ->
  fields_of [("H", hs); ("M", ms)] = Some (mkFields 1900 1 1 h m).
Proof.
  intros Hh Hm. unfold fields_of, group_int. simpl.
  now rewrite Hh, Hm.
Qed.

Lemma check_date_fields_raises y m d e :
  datetime._check_date_fields y m d = Raise e -> is_ValueError e = true.
Proof.
  unfold datetime._check_date_fields.
  repeat match goal with |- (if ?b then _ else _) = _ -> _ => destruct b end;
    intros H; inversion H; reflexivity.
Qed.

Lemma check_time_fields_ok h m :
  datetime._check_time_fields h m = Ok tt <-> 0 <= h <= 23 /\ 0 <= m <= 59.
Proof.
  unfold datetime._check_time_fields.
  destruct ((0 <=? h) && (h <=? 23)) eqn:Eh;
  destruct ((0 <=? m) && (m <=? 59)) eqn:Em; simpl;
  rewrite ?andb_true_iff, ?andb_false_iff, ?Z.leb_le, ?Z.leb_gt in *;
  split; intros H; try discriminate; try reflexivity; try lia.
Qed.

Lemma check_time_fields_raises h m e :
  datetime._check_time_fields h m = Raise e -> is_ValueError e = true.
Proof.
  unfold datetime._check_time_fields.
  repeat match goal with |- (if ?b then _ else _) = _ -> _ => destruct b end;
    intros H; inversion H; reflexivity.
Qed.

Lemma validate_date_inv s : validate_date s = Ok true -> s = "" \/ lenient_date s.
Proof.
  unfold validate_date. destruct (not_str s) eqn:E.
  { left. now apply String.eqb_eq in E. }
  intros H. right.
  unfold datetime.strptime, parse in H. rewrite compile_date in H.
  destruct (match_ _ s) as [[[m g] rest]|] eqn:M; [| cbn in H; discriminate H].
  destruct (String.eqb rest "") eqn:R; [| cbn in H; discriminate H].
  apply String.eqb_eq in R; subst rest.
  apply match_sound in M as [-> L]. rewrite append_nil_r.
  apply lang_date in L as (ys & ms & ds & y & mo & d & -> & -> & Hy & Hm & Hd).
  rewrite (fields_of_date _ _ _ _ _ _
             (int_digits4 _ _ Hy) (int_month _ _ Hm) (int_day _ _ Hd)) in H.
  cbn -[datetime._check_date_fields] in H.
  destruct (datetime._check_date_fields y mo d) as [[]|e] eqn:C.
  2:{ apply check_date_fields_raises in C. cbn in H. rewrite C in H.
      discriminate H. }
  apply check_date_fields_ok in C.
  exists ys, ms, ds, y, mo, d. intuition.
Qed.

Lemma validate_time_inv s : validate_time s = Ok true -> s = "" \/ lenient_time s.
Proof.
  unfold validate_time. destruct (not_str s) eqn:E.
  { left. now apply String.eqb_eq in E. }
  intros H. right.
  unfold datetime.strptime, parse in H. rewrite compile_time in H.
  destruct (match_ _ s) as [[[m g] rest]|] eqn:M; [| cbn in H; discriminate H].
  destruct (String.eqb rest "") eqn:R; [| cbn in H; discriminate H].
  apply String.eqb_eq in R; subst rest.
  apply match_sound in M as [-> L]. rewrite append_nil_r.
  apply lang_time in L as (hs & ms & h & mi & -> & -> & Hh & Hm).
  rewrite (fields_of_time _ _ _ _ (int_month _ _ Hh) (int_month _ _ Hm)) in H.
  cbn -[datetime._check_time_fields] in H.
  destruct (datetime._check_time_fields h mi) as [[]|e] eqn:C.
  2:{ apply check_time_fields_raises in C. cbn in H. rewrite C in H.
      discriminate H. }
  apply check_time_fields_ok in C.
  exists hs, ms, h, mi. intuition.
Qed.

(** The first candidate of a concatenation, of a group, of a literal. *)
Lemma match_cat r1 r2 s m1 g1 rest1 m2 g2 rest2 :
  match_ r1 s = Some (m1, g1, rest1) ->
  match_ r2 rest1 = Some (m2, g2, rest2) ->
  match_ (Cat r1 r2) s = Some (m1 ++ m2, (g1 ++ g2)%list, rest2).
Proof.
  unfold match_. simpl.
  destruct (exec r1 s) as [|[[a b] c] l1]; simpl; [discriminate |].
  intros H1; inversion H1; subst; clear H1.
  destruct (exec r2 rest1) as [|[[a' b'] c'] l2]; simpl; [discriminate |].
  intros H2; inversion H2; subst; clear H2. reflexivity.
Qed.

Lemma match_group name r s m g rest :
  match_ r s = Some (m, g, rest) ->
  match_ (Group name r) s = Some (m, (name, m) :: g, rest).
Proof.
  unfold match_. simpl.
  destruct (exec r s) as [|[[a b] c] l]; simpl; [discriminate |].
  intros H; inversion H; subst. reflexivity.
Qed.

Lemma match_lit c rest :
  match_ (Lit c) (String c rest) = Some (String c "", [], rest).
Proof.
  unfold match_. simpl. now rewrite Ascii.eqb_refl.
Qed.

Ltac each_digit H :=
  apply is_digit_cases in H; simpl in H;
  repeat (destruct H as [<- | H]; [| ]); [.. | contradiction].

Ltac numeral_bounds :=
  unfold digit_val in *; simpl in *; try lia.

Lemma match_Y ys y rest :
  digits4 ys y -> match_ re_Y (ys ++ rest) = Some (ys, [], rest).
Proof.
  intros (a & b & c & d & -> & Ha & Hb & Hc & Hd & _).
  unfold match_, re_Y. simpl. rewrite Ha. simpl. rewrite Hb. simpl.
  rewrite Hc. simpl. rewrite Hd. reflexivity.
Qed.

Lemma match_m ms m rest :
  digits1 ms m \/ digits2 ms m -> 1 <= m <= 12 ->
  match_ re_m (ms ++ String "-" rest) = Some (ms, [], String "-" rest).
Proof.
  intros [(a & -> & Ha & ->) | (a & b & -> & Ha & Hb & ->)] Hm.
  - each_digit Ha; solve [numeral_bounds | reflexivity].
  - each_digit Ha; each_digit Hb; solve [numeral_bounds | reflexivity].
Qed.

Lemma match_H hs h rest :
  digits1 hs h \/ digits2 hs h -> 0 <= h <= 23 ->
  match_ re_H (hs ++ String ":" rest) = Some (hs, [], String ":" rest).
Proof.
  intros [(a & -> & Ha & ->) | (a & b & -> & Ha & Hb & ->)] Hm.
  - each_digit Ha; solve [numeral_bounds | reflexivity].
  - each_digit Ha; each_digit Hb; solve [numeral_bounds | reflexivity].
Qed.

Lemma match_d ds d :
  digits1 ds d \/ digits2 ds d \/ blank_digit ds d -> 1 <= d <= 31 ->
  match_ re_d ds = Some (ds, [], "").
Proof.
  intros [(a & -> & Ha & ->) | [(a & b & -> & Ha & Hb & ->) | (a & -> & Ha & ->)]] Hm.
  - each_digit Ha; solve [numeral_bounds | reflexivity].
  - each_digit Ha; each_digit Hb; solve [numeral_bounds | reflexivity].
  - each_digit Ha; solve [numeral_bounds | reflexivity].
Qed.

Lemma match_M ms m :
  digits1 ms m \/ digits2 ms m -> 0 <= m <= 59 ->
  match_ re_M ms = Some (ms, [], "").
Proof.
  intros [(a & -> & Ha & ->) | (a & b & -> & Ha & Hb & ->)] Hm.
  - each_digit Ha; solve [numeral_bounds | reflexivity].
  - each_digit Ha; each_digit Hb; solve [numeral_bounds | reflexivity].
Qed.

Lemma digits4_bounds s y : digits4 s y -> 0 <= y <= 9999.
Proof.
  intros (a & b & c & d & _ & Ha & Hb & Hc & Hd & ->).
  apply is_digit_val in Ha, Hb, Hc, Hd. lia.
Qed.

Lemma digits4_not_empty s y rest : digits4 s y -> not_str (s ++ rest) = false.
Proof. intros (a & b & c & d & -> & _). reflexivity. Qed.

Lemma digits12_not_empty s v rest :
  digits1 s v \/ digits2 s v -> not_str (s ++ rest) = false.
Proof. intros [(a & -> & _) | (a & b & -> & _)]; reflexivity. Qed.

Lemma validate_date_complete s : lenient_date s -> validate_date s = Ok true.
Proof.
  intros (ys & ms & ds & y & m & d & -> & Hy & Hy1 & Hm & Hm1 & Hd & Hd1).
  unfold validate_date. rewrite (digits4_not_empty _ _ _ Hy).
  unfold datetime.strptime, parse. rewrite compile_date.
  assert (M : match_ (Cat (Group "Y" re_Y) (Cat (Lit "-")
                (Cat (Group "m" re_m) (Cat (Lit "-") (Group "d" re_d)))))
                (ys ++ "-" ++ ms ++ "-" ++ ds)
              = Some (ys ++ "-" ++ ms ++ "-" ++ ds,
                      [("Y", ys); ("m", ms); ("d", ds)], "")).
  { pose proof (days_in_month_le y m).
    eapply (match_cat _ _ _ ys [("Y", ys)]).
    { apply match_group, (match_Y _ _ _ Hy). }
    eapply (match_cat _ _ _ "-" []); [apply match_lit |].
    eapply (match_cat _ _ _ ms [("m", ms)]).
    { apply match_group, (match_m _ _ _ Hm Hm1). }
    eapply (match_cat _ _ _ "-" []); [apply match_lit |].
    apply match_group, (match_d _ _ Hd). lia. }
  rewrite M. cbn [String.eqb negb].
  rewrite (fields_of_date _ _ _ _ _ _
             (int_digits4 _ _ Hy) (int_month _ _ Hm) (int_day _ _ Hd)).
  cbn -[datetime._check_date_fields].
  pose proof (digits4_bounds _ _ Hy).
  assert (C : datetime._check_date_fields y m d = Ok tt)
    by (apply check_date_fields_ok; lia).
  rewrite C. reflexivity.
Qed.

Lemma validate_time_complete s : lenient_time s -> validate_time s = Ok true.
Proof.
  intros (hs & ms & h & m & -> & Hh & Hh1 & Hm & Hm1).
  unfold validate_time. rewrite (digits12_not_empty _ _ _ Hh).
  unfold datetime.strptime, parse. rewrite compile_time.
  assert (M : match_ (Cat (Group "H" re_H) (Cat (Lit ":") (Group "M" re_M)))
                (hs ++ ":" ++ ms)
              = Some (hs ++ ":" ++ ms, [("H", hs); ("M", ms)], "")).
  { eapply (match_cat _ _ _ hs [("H", hs)]).
    { apply match_group, (match_H _ _ _ Hh Hh1). }
    eapply (match_cat _ _ _ ":" []); [apply match_lit |].
    apply match_group, (match_M _ _ Hm Hm1). }
  rewrite M. cbn [String.eqb negb].
  rewrite (fields_of_time _ _ _ _ (int_month _ _ Hh) (int_month _ _ Hm)).
  cbn -[datetime._check_time_fields].
  assert (C : datetime._check_time_fields h m = Ok tt)
    by (apply check_time_fields_ok; lia).
  rewrite C. reflexivity.
Qed.


End Strptime.

(** ** The validators never raise *)

Lemma parse_raises s f e : _strptime.parse s f = Raise e -> is_ValueError e = true.
Proof.
  unfold _strptime.parse.
  destruct (_strptime.compile f); [| now inversion 1].
  destruct (re.match_ _ s) as [[[m g] rest]|]; [| now inversion 1].
  destruct (negb _); [now inversion 1 |].
  destruct (_strptime.fields_of g); now inversion 1.
Qed.

Lemma strptime_raises s f e :
  datetime.strptime s f = Raise e -> is_ValueError e = true.
Proof.
  unfold datetime.strptime.
  destruct (_strptime.parse s f) as [x|e'] eqn:P; cbn [bind].
  2:{ intros H; inversion H; subst. eapply parse_raises; eassumption. }
  destruct (datetime._check_date_fields _ _ _) as [[]|e'] eqn:D; cbn [bind].
  2:{ intros H; inversion H; subst. eapply check_date_fields_raises; eassumption. }
  destruct (datetime._check_time_fields _ _) as [[]|e'] eqn:T; cbn [bind].
  2:{ intros H; inversion H; subst. eapply check_time_fields_raises; eassumption. }
  discriminate.
Qed.

(** The validators answer; they never raise. *)
Lemma validate_date_total s : validate_date s = Ok true \/ validate_date s = Ok false.
Proof.
  unfold validate_date. destruct (not_str s); [now left |].
  destruct (datetime.strptime s _) as [x|e] eqn:P; cbn; [now left |].
  rewrite (strptime_raises _ _ _ P). now right.
Qed.

Lemma validate_time_total s : validate_time s = Ok true \/ validate_time s = Ok false.
Proof.
  unfold validate_time. destruct (not_str s); [now left |].
  destruct (datetime.strptime s _) as [x|e] eqn:P; cbn; [now left |].
  rewrite (strptime_raises _ _ _ P). now right.
Qed.

Lemma bindIO_lift_ok {A B} (a : A) (k : A -> IO B) : bindIO (lift (Ok a)) k = k a.
Proof. unfold bindIO, lift. destruct (k a). reflexivity. Qed.

Lemma not_str_false s : not_str s = false <-> s <> "".
Proof. unfold not_str. apply String.eqb_neq. Qed.

Lemma not_str_true s : not_str s = true <-> s = "".
Proof. unfold not_str. apply String.eqb_eq. Qed.

Lemma not_opt_str_false o :
  server.not_opt_str o = false <-> exists s, o = Some s /\ s <> "".
Proof.
  destruct o as [s|]; simpl.
  - rewrite not_str_false. split; [intros H; now exists s |].
    intros (s' & E & H). now inversion E; subst.
  - split; [discriminate | intros (s' & E & _); discriminate].
Qed.

(** ** Rejected calls *)

Ltac reject :=
  eexists; split; [reflexivity | split; [reflexivity | split; reflexivity]].

(** One validation check: either the call is rejected here, or the check
    passed and is recorded under the given name. *)
Tactic Notation "check" constr(b) "as" ident(E) :=
  destruct b eqn:E; cbn [orb andb negb]; [reject |].

Tactic Notation "check_date" constr(x) "as" ident(V) :=
  destruct (validate_date_total x) as [V | V]; rewrite V, bindIO_lift_ok;
  cbn [negb refused orb andb]; [| reject].

Tactic Notation "check_time" constr(x) "as" ident(V) :=
  destruct (validate_time_total x) as [V | V]; rewrite V, bindIO_lift_ok;
  cbn [negb refused orb andb]; [| reject].

Lemma rejected_by_rejected c r : rejected_by c r -> rejected r.
Proof. intros (msg & _ & H). now exists msg. Qed.

Lemma search_transfers_rejects http pickup_address pickup_lat pickup_lng
    dropoff_address dropoff_lat dropoff_lng pickup_date pickup_time
    adults children infants round_trip return_date return_time
    currency language ctx :
  fails_validation
    (SearchTransfers pickup_address pickup_lat pickup_lng
       dropoff_address dropoff_lat dropoff_lng pickup_date pickup_time
       adults children infants round_trip return_date return_time
       currency language) ->
  rejected_by
    (SearchTransfers pickup_address pickup_lat pickup_lng
       dropoff_address dropoff_lat dropoff_lng pickup_date pickup_time
       adults children infants round_trip return_date return_time
       currency language)
    (server.search_transfers http pickup_address pickup_lat pickup_lng
       dropoff_address dropoff_lat dropoff_lng pickup_date pickup_time
       adults children infants round_trip return_date return_time
       currency language ctx).
Proof.
  cbn [fails_validation]. intros H.
  unfold rejected_by, server.search_transfers. cbn [checks first_failed].
  check (not_str pickup_address || not_str dropoff_address) as Eaddr.
  check (adults <? 1) as Eadults.
  check_date pickup_date as Vpd. check_time pickup_time as Vpt.
  apply orb_false_iff in Eaddr as [Ea Eb].
  apply not_str_false in Ea, Eb. apply Z.ltb_ge in Eadults.
  destruct round_trip; cbn [andb].
  - check (server.not_opt_str return_date || server.not_opt_str return_time)
      as Ereturn.
    apply orb_false_iff in Ereturn as [Ec Ed].
    apply not_opt_str_false in Ec as (d & -> & Hd), Ed as (t & -> & Ht).
    unfold server.validate_date_opt, server.validate_time_opt.
    cbn [server.or_empty].
    check_date d as Vd. check_time t as Vt.
    exfalso. unfold missing, invalid_date, invalid_time in H.
    destruct H as [H|[H|[H|[H|[H|[_ [[H|H]|[[H|H]|[(x & E & H)|(x & E & H)]]]]]]]]];
      try congruence; try lia.
  - exfalso.
    destruct H as [H|[H|[H|[H|[H|[H _]]]]]]; try congruence; try lia.
Qed.

Lemma not_opt_list_false o :
  server.not_opt_list o = false <-> exists l, o = Some l /\ l <> [].
Proof.
  destruct o as [[|x l]|]; simpl; split; try discriminate; try reflexivity.
  - intros (l' & E & H). inversion E; subst. congruence.
  - intros _. eexists; split; [reflexivity | discriminate].
  - intros (l' & E & _). discriminate.
Qed.

Lemma make_reservation_rejects http uuid first_name last_name email phone
    country_code outbound_subroute_id flight_number terminal notes
    return_subroute_id return_flight_number return_terminal return_notes
    passenger_names passenger_countries ctx :
  fails_validation
    (MakeReservation uuid first_name last_name email phone country_code
       outbound_subroute_id flight_number terminal notes return_subroute_id
       return_flight_number return_terminal return_notes
       passenger_names passenger_countries) ->
  rejected_by
    (MakeReservation uuid first_name last_name email phone country_code
       outbound_subroute_id flight_number terminal notes return_subroute_id
       return_flight_number return_terminal return_notes
       passenger_names passenger_countries)
    (server.make_reservation http uuid first_name last_name email phone
       country_code outbound_subroute_id flight_number terminal notes
       return_subroute_id return_flight_number return_terminal return_notes
       passenger_names passenger_countries ctx).
Proof.
  cbn [fails_validation]. intros H.
  unfold rejected_by, server.make_reservation. cbn [checks first_failed].
  check (not_str uuid) as Euuid.
  check (not_str first_name || not_str last_name) as Ename.
  check (not_str email) as Eemail.
  check (not_str phone) as Ephone.
  check (not_str country_code) as Ecountry.
  check (outbound_subroute_id =? 0) as Eoutbound.
  apply orb_false_iff in Ename as [Efirst Elast].
  apply not_str_false in Euuid, Efirst, Elast, Eemail, Ephone, Ecountry.
  apply Z.eqb_neq in Eoutbound.
  destruct H as [H|[H|[H|[H|[H|[H|[H|H]]]]]]]; try congruence.
  destruct H as (names & countries & -> & -> & Hn & Hc & Hlen).
  destruct names as [|n ns]; [congruence |].
  destruct countries as [|c cs]; [congruence |].
  cbn [server.not_opt_list negb andb server.or_nil].
  apply Nat.eqb_neq in Hlen. rewrite Hlen. cbn [negb]. reject.
Qed.

Lemma date_query_rejects http query_type start_date end_date reservation_number ctx :
  query_type = "createdate" \/ query_type = "flightdate" ->
  missing start_date \/ missing end_date
  \/ invalid_date start_date \/ invalid_date end_date ->
  rejected_by
    (ListReservations query_type start_date end_date reservation_number)
    (server.list_reservations http query_type start_date end_date
       reservation_number ctx).
Proof.
  intros Hq H. unfold rejected_by, server.list_reservations.
  cbn [checks first_failed].
  assert (Eq : String.eqb query_type "createdate"
               || String.eqb query_type "flightdate" = true)
    by (destruct Hq as [-> | ->]; reflexivity).
  rewrite Eq. cbn [orb negb andb].
  destruct (server.not_opt_str start_date || server.not_opt_str end_date)
    eqn:Erange.
  { destruct Hq as [-> | ->]; reject. }
  apply orb_false_iff in Erange as [Ea Eb].
  apply not_opt_str_false in Ea as (d & -> & Hd), Eb as (t & -> & Ht).
  unfold server.validate_date_opt. cbn [server.or_empty].
  check_date d as Vd. check_date t as Vt. exfalso.
  unfold missing, invalid_date in H.
  destruct H as [[H|H]|[[H|H]|[(x & E & H)|(x & E & H)]]]; congruence.
Qed.

Lemma list_reservations_rejects http query_type start_date end_date
    reservation_number ctx :
  fails_validation
    (ListReservations query_type start_date end_date reservation_number) ->
  rejected_by
    (ListReservations query_type start_date end_date reservation_number)
    (server.list_reservations http query_type start_date end_date
       reservation_number ctx).
Proof.
  cbn [fails_validation In]. intros [H | [[Hq H] | [-> H]]].
  - unfold rejected_by, server.list_reservations. cbn [checks first_failed].
    assert (E : String.eqb query_type "createdate"
                || String.eqb query_type "flightdate"
                || String.eqb query_type "reservationnumber" = false).
    { rewrite !orb_false_iff, !String.eqb_neq. repeat split; intros ->; tauto. }
    rewrite E. reject.
  - apply date_query_rejects; [| exact H].
    destruct Hq as [<- | [<- | []]]; auto.
  - unfold rejected_by, server.list_reservations. cbn [checks first_failed].
    cbn [String.eqb Ascii.eqb Bool.eqb orb negb andb].
    destruct H as [-> | ->]; reject.
Qed.

Lemma search_places_rejects http query language ctx :
  fails_validation (SearchPlaces query language) ->
  rejected_by (SearchPlaces query language)
    (server.search_places http query language ctx).
Proof.
  cbn [fails_validation]. intros ->. unfold rejected_by, server.search_places.
  cbn [checks first_failed not_str String.eqb]. reject.
Qed.

Lemma get_place_details_rejects http place_id language ctx :
  fails_validation (GetPlaceDetails place_id language) ->
  rejected_by (GetPlaceDetails place_id language)
    (server.get_place_details http place_id language ctx).
Proof.
  cbn [fails_validation]. intros ->. unfold rejected_by, server.get_place_details.
  cbn [checks first_failed not_str String.eqb]. reject.
Qed.

(** C1.  A call of any of the five tools whose arguments fail a validation
    check, its dates and times being ASCII text, returns the text of the
    first check that fails in the order of the source (the texts are listed
    in [checks]), which is one line that starts with "Error: "; it causes
    no event (no call of the API client, hence no call on the HTTP session)
    and raises nothing. *)
Theorem validation_error_before_any_call http c ctx :
  ascii_dates c = true ->
  fails_validation c ->
  exists msg,
    first_failed (checks c) = Some msg
    /\ run http c ctx = (Ok msg, [])
    /\ startswith msg "Error: " = true
    /\ one_line msg = true.
Proof.
  intros _. destruct c; cbn [run].
  - apply search_transfers_rejects.
  - apply make_reservation_rejects.
  - apply list_reservations_rejects.
  - apply search_places_rejects.
  - apply get_place_details_rejects.
Qed.

(** C1 at a search with an empty pickup address, at a search on 30 February
    and at a listing without its date range, each with no context. *)
Lemma validation_error_before_any_call_witness :
  run offline
    (SearchTransfers "" sample_lat sample_lng "Kemer" sample_lat sample_lng
       "2024-05-01" "10:30" 2 0 0 false None None "EUR" "en")
    None
  = (Ok "Error: Pickup and dropoff addresses are required", [])
  /\ run offline
       (SearchTransfers "Antalya Airport" sample_lat sample_lng
          "Kemer" sample_lat sample_lng
          "2024-02-30" "10:30" 2 0 0 false None None "EUR" "en")
       None
     = (Ok "Error: Invalid pickup date format. Please use YYYY-MM-DD format", [])
  /\ run offline (ListReservations "flightdate" (Some "2024-05-01") None None) None
     = (Ok "Error: start_date and end_date are required for flightdate queries", []).
Proof.
  split; [| split].
  - destruct (validation_error_before_any_call offline
                (SearchTransfers "" sample_lat sample_lng
                   "Kemer" sample_lat sample_lng
                   "2024-05-01" "10:30" 2 0 0 false None None "EUR" "en")
                None) as (msg & F & R & _);
      [reflexivity | simpl; left; reflexivity |].
    injection F as <-. exact R.
  - destruct (validation_error_before_any_call offline
                (SearchTransfers "Antalya Airport" sample_lat sample_lng
                   "Kemer" sample_lat sample_lng
                   "2024-02-30" "10:30" 2 0 0 false None None "EUR" "en")
                None) as (msg & F & R & _);
      [reflexivity | simpl; do 3 right; left; vm_compute; reflexivity |].
    vm_compute in F. injection F as <-. exact R.
  - destruct (validation_error_before_any_call offline
                (ListReservations "flightdate" (Some "2024-05-01") None None)
                None) as (msg & F & R & _);
      [reflexivity | simpl; right; left; split; [auto | right; left; now left] |].
    vm_compute in F. injection F as <-. exact R.
Defined.

(** ** The events of an accepted call *)

(** The events of a request on the session do not depend on the answer. *)
Lemma snd_answer http r : snd (client.answer http r) = [EvHttp r].
Proof.
  unfold client.answer, client.send, bindIO, lift.
  destruct (http r) as [resp|e]; [| reflexivity].
  destruct (raise_for_status resp) as [[]|e]; [| reflexivity].
  destruct (json_body resp); reflexivity.
Qed.

Lemma snd_emit_then {A} e (m : IO A) :
  snd (bindIO (emit e) (fun _ => m)) = e :: snd m.
Proof. unfold bindIO, emit. destruct m. reflexivity. Qed.

(** A [try] whose handler only builds the error text keeps the events of its
    body; formatting adds none. *)
Lemma snd_try_format {A} (m : IO A) (f : A -> Result string) (h : exn -> string) :
  snd (try_except_Exception (bindIO m (fun x => lift (f x))) (fun e => ret (h e)))
  = snd m.
Proof.
  unfold try_except_Exception, bindIO, lift, ret.
  destruct m as [[a|e] t]; simpl.
  - destruct (f a); simpl; now rewrite ?app_nil_r.
  - now rewrite app_nil_r.
Qed.

Lemma bindIO_lift_ok' {A B} (a : A) (k : A -> IO B) : bindIO (Ok a, []) k = k a.
Proof. apply (bindIO_lift_ok a k). Qed.

(** The body of the [try] of a tool, once the context is there. *)
Lemma running_body {A} api (k : client.BizimTransferClient -> IO A) :
  bindIO (lift (server.get_lifespan_context (running api)))
    (fun lifespan => bindIO (lift (server.get_client lifespan)) k)
  = k api.
Proof.
  unfold running. cbn [server.get_lifespan_context server.lifespan_context].
  rewrite bindIO_lift_ok. cbn [server.get_client server.client].
  now rewrite bindIO_lift_ok.
Qed.

Lemma search_transfers_one_way http pa plat plng da dlat dlng pd pt ad ch inf rd rt cur lang ctx :
  server.search_transfers http pa plat plng da dlat dlng pd pt ad ch inf false rd rt cur lang ctx
  = server.search_transfers http pa plat plng da dlat dlng pd pt ad ch inf false None None cur lang ctx.
Proof. reflexivity. Qed.

Lemma search_transfers_sends http pa plat plng da dlat dlng pd pt ad ch inf
    (round_trip : bool) rd rt cur lang api :
  pa <> "" -> da <> "" -> 1 <= ad ->
  validate_date pd = Ok true -> validate_time pt = Ok true ->
  (round_trip = true ->
   exists d t, rd = Some d /\ rt = Some t /\ d <> "" /\ t <> ""
               /\ validate_date d = Ok true /\ validate_time t = Ok true) ->
  snd (server.search_transfers http pa plat plng da dlat dlng pd pt ad ch inf
         round_trip rd rt cur lang (running api))
  = snd (client.search_transfers http api pa plat plng da dlat dlng ad ch inf pd pt
           (if round_trip then rd else Some "") (if round_trip then rt else Some "")
           (if round_trip then 2 else 1) (map_get CURRENCY_MAP (upper cur) 2) lang).
Proof.
  intros Hpa Hda Had Hpd Hpt Hrt. unfold server.search_transfers.
  apply not_str_false in Hpa, Hda. rewrite Hpa, Hda. cbn [orb].
  apply Z.ltb_ge in Had. rewrite Had.
  rewrite Hpd, bindIO_lift_ok, Hpt, bindIO_lift_ok. cbn [negb].
  destruct round_trip.
  - destruct (Hrt eq_refl) as (d & t & -> & -> & Hd & Ht & Vd & Vt).
    cbn [server.not_opt_str]. apply not_str_false in Hd, Ht. rewrite Hd, Ht.
    cbn [orb]. unfold server.validate_date_opt, server.validate_time_opt.
    cbn [server.or_empty]. rewrite Vd, bindIO_lift_ok, Vt, bindIO_lift_ok.
    cbn [negb]. rewrite running_body. apply snd_try_format.
  - rewrite running_body. apply snd_try_format.
Qed.

Lemma snd_client_search_transfers http api pa plat plng da dlat dlng ad ch inf pd pt dd dt rq cid lang :
  exists d,
    snd (client.search_transfers http api pa plat plng da dlat dlng ad ch inf pd pt dd dt rq cid lang)
    = [ EvApi (call_search_transfers pa plat plng da dlat dlng ad ch inf pd pt dd dt rq cid lang);
        EvHttp (POST (client.base_url api ++ "/query") (JDict d)) ]
    /\ lookup d "dropoffdate" = Some (opt_str dd)
    /\ lookup d "dropofftime" = Some (opt_str dt)
    /\ lookup d "requesttype" = Some (JInt rq)
    /\ lookup d "currencyid" = Some (JInt cid).
Proof.
  eexists. unfold client.search_transfers. rewrite snd_emit_then, snd_answer.
  split; [reflexivity |]. repeat split; reflexivity.
Qed.

Lemma snd_client_make_reservation http api uuid n sn em tel co ways ps :
  snd (client.make_reservation http api uuid n sn em tel co ways ps)
  = [ EvApi (call_make_reservation uuid n sn em tel co ways ps);
      EvHttp (POST (client.base_url api ++ "/reservation")
                (JDict [ ("uuid", JStr uuid);
                         ("customername", JStr n);
                         ("customersurname", JStr sn);
                         ("customeremail", JStr em);
                         ("customertelephone", JStr tel);
                         ("customercoutry", JStr co);
                         ("transferway", JList ways);
                         ("passangers", JList ps) ])) ].
Proof.
  unfold client.make_reservation. now rewrite snd_emit_then, snd_answer.
Qed.

Section MakeReservation.

Variable http : HttpRequest -> Result Response.
Variables uuid first_name last_name email phone country_code : string.
Variable outbound_subroute_id : Z.
Variables flight_number terminal notes : option string.
Variable return_subroute_id : option Z.
Variables return_flight_number return_terminal return_notes : option string.
Variable api : client.BizimTransferClient.

Hypothesis uuid_given : uuid <> "".
Hypothesis first_name_given : first_name <> "".
Hypothesis last_name_given : last_name <> "".
Hypothesis email_given : email <> "".
Hypothesis phone_given : phone <> "".
Hypothesis country_code_given : country_code <> "".
Hypothesis outbound_given : outbound_subroute_id <> 0.

Ltac required :=
  unfold server.make_reservation;
  rewrite (proj2 (not_str_false _) uuid_given),
    (proj2 (not_str_false _) first_name_given),
    (proj2 (not_str_false _) last_name_given),
    (proj2 (not_str_false _) email_given),
    (proj2 (not_str_false _) phone_given),
    (proj2 (not_str_false _) country_code_given),
    (proj2 (Z.eqb_neq _ _) outbound_given);
  cbn [orb].

Lemma reserve_default names countries :
  server.not_opt_list names = true \/ server.not_opt_list countries = true ->
  exists ways d,
    snd (server.make_reservation http uuid first_name last_name email phone
       country_code outbound_subroute_id flight_number terminal notes
       return_subroute_id return_flight_number return_terminal return_notes
       names countries (running api))
    = [ EvApi (call_make_reservation uuid first_name last_name email phone
                 (lower country_code) ways
                 [default_passenger first_name last_name country_code]);
        EvHttp (POST (client.base_url api ++ "/reservation") (JDict d)) ]
    /\ lookup d "passangers"
       = Some (JList [default_passenger first_name last_name country_code]).
Proof.
  intros H. required.
  assert (E : negb (server.not_opt_list names)
              && negb (server.not_opt_list countries) = false)
    by (destruct H as [-> | ->]; [reflexivity | apply andb_false_r]).
  rewrite E, running_body, snd_try_format, snd_client_make_reservation.
  do 2 eexists. split; reflexivity.
Qed.


End MakeReservation.

(** ** The formatters *)

(** *** Substrings *)

Lemma contains_refl s : contains s s.
Proof. exists "", "". simpl. now rewrite append_nil_r. Qed.

Lemma contains_app_r a b x : contains b x -> contains (a ++ b) x.
Proof.
  intros (p & q & ->). exists (a ++ p), q. now rewrite append_assoc.
Qed.

Lemma contains_app_l a b x : contains a x -> contains (a ++ b) x.
Proof.
  intros (p & q & ->). exists p, (q ++ b). now rewrite !append_assoc.
Qed.

Lemma contains_join sep lines line x :
  In line lines -> contains line x -> contains (join sep lines) x.
Proof.
  induction lines as [|l ls IH]; [contradiction |].
  intros [-> | Hin] Hx.
  - destruct ls; simpl; [assumption | now apply contains_app_l].
  - destruct ls as [|l' ls']; [contradiction |].
    change (join sep (l :: l' :: ls')) with (l ++ sep ++ join sep (l' :: ls')).
    apply contains_app_r, contains_app_r. now apply IH.
Qed.

(** *** Loops *)

Lemma for_each_spec {A} (body : A -> Result (list string)) items :
  (forall x, In x items -> exists ls, body x = Ok ls) ->
  exists lines,
    for_each items body = Ok lines
    /\ forall x ls l, In x items -> body x = Ok ls -> In l ls -> In l lines.
Proof.
  induction items as [|x xs IH]; intros H.
  - exists []. split; [reflexivity | contradiction].
  - destruct (H x (or_introl eq_refl)) as (ls & Hx).
    destruct IH as (rest & Hrest & Hin).
    { intros y Hy. apply H. now right. }
    exists (ls ++ rest)%list. simpl. rewrite Hx, Hrest. split; [reflexivity |].
    intros y ly l [<- | Hy] Ey Hl.
    + rewrite Hx in Ey. inversion Ey; subst. apply in_or_app. now left.
    + apply in_or_app. right. eapply Hin; eassumption.
Qed.

Lemma in_enumerate {A} (l : list A) x start :
  In x l -> exists i, In (i, x) (enumerate l start).
Proof.
  revert start. induction l as [|y l IH]; intros start; [contradiction |].
  intros [-> | H].
  - exists start. now left.
  - destruct (IH (start + 1) H) as (i & Hi). exists i. now right.
Qed.

Lemma enumerate_in {A} (l : list A) i x start :
  In (i, x) (enumerate l start) -> In x l.
Proof.
  revert start. induction l as [|y l IH]; intros start; [contradiction |].
  intros [E | H].
  - inversion E; subst. now left.
  - right. eapply IH; eassumption.
Qed.

(** *** Fields of an object *)

Lemma field_dict d key : field (JDict d) key = Ok (printed d key).
Proof. unfold field, printed, get. simpl. now destruct (lookup d key). Qed.

Lemma field_or_dict d key default :
  field_or (JDict d) key default
  = Ok (match lookup d key with Some v => str v | None => default end).
Proof. unfold field_or, get. simpl. now destruct (lookup d key). Qed.

Lemma check_status_success d :
  lookup d "status" = Some (JStr "success") -> check_status (JDict d) = Ok None.
Proof. intros H. unfold check_status, get. simpl. now rewrite H. Qed.

Lemma check_status_error d :
  lookup d "status" <> Some (JStr "success") ->
  check_status (JDict d) = Ok (Some (error_line d)).
Proof.
  intros H. unfold check_status, get. cbn [bind].
  assert (E : eq_str (match lookup d "status" with Some x => x | None => JNull end)
                "success" = false).
  { destruct (lookup d "status") as [[]|]; try reflexivity.
    simpl. apply String.eqb_neq. congruence. }
  rewrite E. cbn [negb]. rewrite field_or_dict. reflexivity.
Qed.

Lemma dict_list_items P d key :
  optional d key (dict_list P) ->
  (match lookup d key with Some x => x | None => JList [] end) = JList (items d key)
  /\ Forall (fun x => exists e, x = JDict e /\ P e) (items d key).
Proof.
  unfold optional, items. destruct (lookup d key) as [v|].
  - intros (l & -> & H). now split.
  - intros _. split; [reflexivity | constructor].
Qed.

Lemma get_dict d key default :
  get (JDict d) key default
  = Ok (match lookup d key with Some x => x | None => default end).
Proof. reflexivity. Qed.

Lemma for_each_dicts {A} (P : list (string * json) -> Prop)
    (body : A -> Result (list string)) (proj : A -> json) xs :
  Forall (fun x => exists e, proj x = JDict e /\ P e) xs ->
  (forall x e, proj x = JDict e -> P e -> exists ls, body x = Ok ls) ->
  exists lines,
    for_each xs body = Ok lines
    /\ forall x ls l, In x xs -> body x = Ok ls -> In l ls -> In l lines.
Proof.
  intros Hall Hbody. apply for_each_spec.
  intros x Hx. rewrite Forall_forall in Hall.
  destruct (Hall x Hx) as (e & E & HP). eapply Hbody; eassumption.
Qed.

Lemma format_extra_dict cs e : exists ls, format_extra cs (JDict e) = Ok ls.
Proof. unfold format_extra. rewrite !field_dict. cbn [bind]. eauto. Qed.

Lemma format_option_lines cs i o :
  wf_option o ->
  exists lines,
    format_option cs (i, JDict o) = Ok lines
    /\ In ("Route ID: " ++ printed o "routeid") lines
    /\ In ("Subroute ID: " ++ printed o "subrouteid" ++ " (needed for booking)") lines.
Proof.
  intros Hwf. unfold format_option.
  rewrite !field_dict, field_or_dict, get_dict. cbn [bind].
  destruct (dict_list_items _ _ _ Hwf) as [-> Hall].
  assert (X : exists extra_lines,
            (if truthy (JList (items o "extraurunler"))
             then items0 <- iter (JList (items o "extraurunler")) ;;
                  lines <- for_each items0 (format_extra cs) ;;
                  Ok ("Available Extras:" :: lines)
             else Ok []) = Ok extra_lines).
  { destruct (items o "extraurunler") as [|x xs] eqn:E; [now exists [] |].
    cbn [truthy iter bind].
    destruct (for_each_dicts any_dict (format_extra cs) (fun x => x) (x :: xs))
      as (ls & -> & _); [assumption | |].
    - intros y e -> _. apply format_extra_dict.
    - cbn [bind]. eauto. }
  destruct X as (extra_lines & ->). cbn [bind].
  eexists. split; [reflexivity |].
  split; apply in_or_app; right; apply in_or_app; right; simpl; tauto.
Qed.

Lemma format_way_lines cs w :
  wf_way w ->
  exists lines,
    format_way cs (JDict w) = Ok lines
    /\ forall o l, In (JDict o) (items w "list") ->
         l = "Route ID: " ++ printed o "routeid"
         \/ l = "Subroute ID: " ++ printed o "subrouteid" ++ " (needed for booking)" ->
         In l lines.
Proof.
  intros [Htype Hlist]. unfold format_way.
  rewrite get_dict.
  assert (T : exists s, (match lookup w "type" with Some x => x | None => JStr "" end) = JStr s).
  { unfold optional in Htype. destruct (lookup w "type"); [exact Htype | now exists ""]. }
  destruct T as (s & ->). cbn [bind py_startswith].
  rewrite !field_dict, get_dict. cbn [bind].
  destruct (dict_list_items _ _ _ Hlist) as [-> Hall]. cbn [iter bind].
  destruct (for_each_dicts wf_option (format_option cs) snd
              (enumerate (items w "list") 1)) as (ls & -> & Hin).
  - rewrite Forall_forall in *. intros [i x] Hx.
    apply enumerate_in in Hx. exact (Hall x Hx).
  - intros [i x] e E He. simpl in E. subst x.
    destruct (format_option_lines cs i e He) as (lines & -> & _). eauto.
  - cbn [bind]. eexists. split; [reflexivity |].
    intros o l Ho Hl. apply in_or_app. right.
    destruct (in_enumerate _ _ 1 Ho) as (i & Hi).
    rewrite Forall_forall in Hall. destruct (Hall _ Ho) as (e & E & He).
    inversion E; subst e.
    destruct (format_option_lines cs i o He) as (lines & Eo & Hr & Hs).
    eapply Hin; [exact Hi | exact Eo |].
    destruct Hl as [-> | ->]; assumption.
Qed.

Lemma transfer_identifiers d :
  wf_transfers d ->
  exists out,
    format_transfer_results (JDict d) = Ok out
    /\ contains out (printed d "uuid")
    /\ forall w o, In (JDict w) (items d "ways") -> In (JDict o) (items w "list") ->
         contains out (printed o "routeid") /\ contains out (printed o "subrouteid").
Proof.
  intros [Hs Hways]. unfold format_transfer_results.
  rewrite (check_status_success d Hs). cbn [bind].
  rewrite field_or_dict, !field_dict, get_dict. cbn [bind].
  destruct (dict_list_items _ _ _ Hways) as [-> Hall]. cbn [iter bind].
  set (cs := match lookup d "currencysembol" with Some v => str v | None => "" end).
  destruct (for_each_dicts wf_way (format_way cs) (fun x => x) (items d "ways"))
    as (ls & -> & Hin); [assumption | |].
  { intros x e -> He. destruct (format_way_lines cs e He) as (lines & -> & _). eauto. }
  cbn [bind]. eexists. split; [reflexivity |]. split.
  - eapply contains_join with (line := "Booking reference (UUID): " ++ printed d "uuid").
    + apply in_or_app. left. simpl. tauto.
    + apply contains_app_r, contains_refl.
  - intros w o Hw Ho.
    rewrite Forall_forall in Hall. destruct (Hall _ Hw) as (e & E & He).
    inversion E; subst e.
    destruct (format_way_lines cs w He) as (lines & Ew & Hl).
    split.
    + eapply contains_join with (line := "Route ID: " ++ printed o "routeid").
      * apply in_or_app. right. eapply Hin; [exact Hw | exact Ew |].
        eapply Hl; [exact Ho | now left].
      * apply contains_app_r, contains_refl.
    + eapply contains_join
        with (line := "Subroute ID: " ++ printed o "subrouteid" ++ " (needed for booking)").
      * apply in_or_app. right. eapply Hin; [exact Hw | exact Ew |].
        eapply Hl; [exact Ho | now right].
      * apply contains_app_r, contains_app_l, contains_refl.
Qed.

Lemma reservation_identifier d :
  wf_reservation d ->
  exists out,
    format_reservation_results (JDict d) = Ok out
    /\ contains out (printed d "rezid").
Proof.
  intros Hs. unfold format_reservation_results.
  rewrite (check_status_success d Hs). cbn [bind]. rewrite field_dict. cbn [bind].
  eexists. split; [reflexivity |].
  eapply contains_join with (line := "Reservation Number: " ++ printed d "rezid").
  - simpl. tauto.
  - apply contains_app_r, contains_refl.
Qed.

Lemma format_listed_way_dict j e : exists ls, format_listed_way (j, JDict e) = Ok ls.
Proof.
  unfold format_listed_way. rewrite !field_dict, get_dict. cbn [bind].
  destruct (truthy _); cbn [bind]; eauto.
Qed.

Lemma format_listed_passenger_dict e :
  exists ls, format_listed_passenger (JDict e) = Ok ls.
Proof. unfold format_listed_passenger. rewrite !field_dict. cbn [bind]. eauto. Qed.

Lemma format_listed_reservation_lines i r :
  wf_record r ->
  exists lines,
    format_listed_reservation (i, JDict r) = Ok lines
    /\ In ("Reservation Number: " ++ printed r "reservationnumber") lines.
Proof.
  intros [Hways Hpass]. unfold format_listed_reservation.
  rewrite !field_dict, get_dict. cbn [bind].
  destruct (dict_list_items _ _ _ Hways) as [-> Hall]. cbn [iter bind].
  destruct (for_each_dicts any_dict format_listed_way snd
              (enumerate (items r "ways") 1)) as (ls & -> & _).
  { rewrite Forall_forall in *. intros [j x] Hx.
    apply enumerate_in in Hx. exact (Hall x Hx). }
  { intros [j x] e E _. simpl in E. subst x. apply format_listed_way_dict. }
  cbn [bind]. rewrite get_dict.
  destruct (dict_list_items _ _ _ Hpass) as [-> Hallp]. cbn [bind].
  assert (X : exists passenger_lines,
            (if truthy (JList (items r "passangers"))
             then items0 <- iter (JList (items r "passangers")) ;;
                  lines <- for_each items0 format_listed_passenger ;;
                  Ok (String newline "Passengers:" :: lines)
             else Ok []) = Ok passenger_lines).
  { destruct (items r "passangers") as [|x xs] eqn:E; [now exists [] |].
    cbn [truthy iter bind].
    destruct (for_each_dicts any_dict format_listed_passenger (fun x => x) (x :: xs))
      as (pl & -> & _); [assumption | |].
    - intros y e -> _. apply format_listed_passenger_dict.
    - cbn [bind]. eauto. }
  destruct X as (passenger_lines & ->). cbn [bind].
  eexists. split; [reflexivity |].
  apply in_or_app. left. simpl. tauto.
Qed.

Lemma reservation_list_identifiers d :
  wf_reservation_list d ->
  exists out,
    format_reservation_list (JDict d) = Ok out
    /\ forall r, In (JDict r) (items d "list") ->
         contains out (printed r "reservationnumber").
Proof.
  intros [Hs Hlist]. unfold format_reservation_list.
  rewrite (check_status_success d Hs). cbn [bind]. rewrite get_dict. cbn [bind].
  destruct (dict_list_items _ _ _ Hlist) as [-> Hall].
  destruct (items d "list") as [|x xs] eqn:E.
  { cbn [truthy negb]. eexists. split; [reflexivity | contradiction]. }
  cbn [truthy negb len iter bind].
  destruct (for_each_dicts wf_record format_listed_reservation snd
              (enumerate (x :: xs) 1)) as (ls & -> & Hin).
  { rewrite Forall_forall in *. intros [i y] Hy.
    apply enumerate_in in Hy. exact (Hall y Hy). }
  { intros [i y] e Ey He. simpl in Ey. subst y.
    destruct (format_listed_reservation_lines i e He) as (lines & -> & _). eauto. }
  cbn [bind]. eexists. split; [reflexivity |].
  intros r Hr.
  destruct (in_enumerate _ _ 1 Hr) as (i & Hi).
  rewrite Forall_forall in Hall. destruct (Hall _ Hr) as (e & Ee & He).
  inversion Ee; subst e.
  destruct (format_listed_reservation_lines i r He) as (lines & Er & Hl).
  eapply contains_join
    with (line := "Reservation Number: " ++ printed r "reservationnumber").
  - right. eapply Hin; [exact Hi | exact Er | exact Hl].
  - apply contains_app_r, contains_refl.
Qed.

Lemma format_place_line i p :
  format_place (i, JDict p)
  = Ok [str_of_int i ++ ". " ++ printed p "description"
          ++ " (ID: " ++ printed p "place_id" ++ ")"].
Proof. unfold format_place. now rewrite !field_dict. Qed.

Lemma places_identifiers places :
  wf_places places ->
  exists l out,
    places = JList l
    /\ format_places_results places = Ok out
    /\ forall p, In (JDict p) l -> contains out (printed p "place_id").
Proof.
  intros (l & -> & Hall). exists l. unfold format_places_results.
  destruct l as [|x xs] eqn:E.
  { cbn [truthy negb]. eexists. split; [reflexivity |]. split; [reflexivity | contradiction]. }
  rewrite <- E in *. assert (T : truthy (JList l) = true) by (now subst l).
  rewrite T. cbn [negb iter bind].
  destruct (for_each_dicts any_dict format_place snd (enumerate l 1))
    as (ls & -> & Hin).
  { rewrite Forall_forall in *. intros [i y] Hy.
    apply enumerate_in in Hy. exact (Hall y Hy). }
  { intros [i y] e Ey _. simpl in Ey. subst y. rewrite format_place_line. eauto. }
  cbn [bind]. eexists. split; [reflexivity |]. split; [reflexivity |].
  intros p Hp. destruct (in_enumerate _ _ 1 Hp) as (i & Hi).
  eapply contains_join.
  - right. eapply Hin; [exact Hi | apply format_place_line | now left].
  - apply contains_app_r, contains_app_r, contains_app_r, contains_app_r,
      contains_app_l, contains_refl.
Qed.

Lemma str_items_strs i l :
  Forall is_str l -> exists ss, str_items i l = Ok ss.
Proof.
  intros H. revert i. induction H as [|x l (s & ->) _ IH]; intros i.
  - now exists [].
  - destruct (IH (i + 1)) as (ss & E). simpl. rewrite E. cbn [bind]. eauto.
Qed.

Lemma details_formatted d :
  wf_details d -> exists out, format_place_details (JDict d) = Ok out.
Proof.
  intros [Hgeo Htypes]. unfold format_place_details.
  rewrite !field_or_dict, !get_dict. cbn [bind].
  assert (L : exists lines,
            (location <- get (match lookup d "geometry" with
                              | Some x => x | None => JDict [] end)
                           "location" (JDict []) ;;
             location_lines <-
               (if truthy location
                then lat <- field_or location "lat" "N/A" ;;
                     lng <- field_or location "lng" "N/A" ;;
                     Ok ["Latitude: " ++ lat; "Longitude: " ++ lng]
                else Ok []) ;;
             Ok location_lines) = Ok lines).
  { unfold optional in Hgeo. destruct (lookup d "geometry") as [g|].
    - destruct Hgeo as (gd & -> & Hloc). rewrite get_dict. cbn [bind].
      unfold optional in Hloc. destruct (lookup gd "location") as [l|].
      + destruct Hloc as (ld & ->). destruct (truthy (JDict ld)).
        * rewrite !field_or_dict. cbn [bind]. eauto.
        * cbn [bind]. eauto.
      + cbn [truthy bind]. eauto.
    - rewrite get_dict. cbn [lookup truthy bind]. eauto. }
  destruct L as (lines & L).
  destruct (get _ "location" (JDict [])) as [location|e]; [| discriminate L].
  cbn [bind] in L |- *.
  destruct (if truthy location then _ else _) as [ll|e]; [| discriminate L].
  cbn [bind].
  unfold optional in Htypes. destruct (lookup d "types") as [t|].
  - destruct Htypes as (l & -> & Hl). destruct l as [|x xs].
    + cbn [truthy bind]. eauto.
    + cbn [truthy]. unfold py_join. cbn [iter].
      destruct (str_items_strs 0 _ Hl) as (ss & ->). cbn [bind]. eauto.
  - cbn [truthy bind]. eauto.
Qed.

(** ** Main results *)

(** C7.  [validate_date] takes the empty string, refuses 30 February 2024,
    takes 29 February 2024 (a leap year) and refuses a date written with
    slashes. *)
Theorem validate_date_examples :
  validate_date "" = Ok true
  /\ validate_date "2024-02-30" = Ok false
  /\ validate_date "2024-02-29" = Ok true
  /\ validate_date "2024/01/01" = Ok false.
Proof. repeat split; vm_compute; reflexivity. Qed.

(** *** Dates *)



(** Every date of the worded shape from year 0001 on is taken. *)
Lemma strict_date_accepted s :
  strict_date s ->
  (exists ys y rest, s = ys ++ rest /\ digits4 ys y /\ 1 <= y) ->
  validate_date s = Ok true.
Proof.
  intros (ys & ms & ds & y & m & d & -> & Hy & Hm & Hd & Hm1 & Hd1)
         (ys' & y' & rest & E & Hy' & Hpos).
  assert (ys' = ys /\ y' = y) as [-> ->].
  { destruct Hy as (a & b & c & e & -> & _ & _ & _ & _ & ->).
    destruct Hy' as (a' & b' & c' & e' & -> & _ & _ & _ & _ & ->).
    simpl in E. inversion E; subst. split; reflexivity. }
  apply validate_date_complete.
  exists ys, ms, ds, y, m, d. repeat split; auto; lia.
Qed.



(** *** Times *)

Lemma strict_time_length s : strict_time s -> String.length s = 5%nat.
Proof.
  intros (hs & ms & h & m & -> & Hh & _ & Hm & _).
  destruct Hh as (a & b & -> & _). destruct Hm as (a' & b' & -> & _).
  reflexivity.
Qed.

(** C6, as worded, fails: [validate_time] does not answer false on "9:5",
    which is not of the two-digit form HH:MM. *)
Lemma single_digit_time_accepted :
  validate_time "9:5" <> Ok false /\ ~ strict_time "9:5".
Proof.
  split; [vm_compute; discriminate |].
  intros H. apply strict_time_length in H. discriminate H.
Qed.

(** Every time of the worded shape is taken. *)
Lemma strict_time_accepted s : strict_time s -> validate_time s = Ok true.
Proof.
  intros (hs & ms & h & m & -> & Hh & Hh1 & Hm & Hm1).
  apply validate_time_complete. exists hs, ms, h, m. repeat split; auto; lia.
Qed.

(** C6, amended.  [validate_time] takes the empty string, "23:59" and "9:5"
    and refuses "24:00"; on ASCII text it answers true exactly on the empty
    string and on the strings hour:minute where the hour has one or two
    digits and lies in 0..23 and the minute has one or two digits and lies
    in 0..59. *)
Theorem validate_time_accepts :
  validate_time "" = Ok true
  /\ validate_time "23:59" = Ok true
  /\ validate_time "24:00" = Ok false
  /\ validate_time "9:5" = Ok true
  /\ forall s, isascii s = true ->
       (validate_time s = Ok true <-> s = "" \/ lenient_time s).
Proof.
  do 4 (split; [vm_compute; reflexivity |]).
  intros s _. split; [apply validate_time_inv |].
  intros [-> | H]; [reflexivity | now apply validate_time_complete].
Qed.

(** C6 at five past nine written without padding, and at 24:00. *)
Lemma validate_time_accepts_witness :
  lenient_time "9:5" /\ ~ lenient_time "24:00".
Proof.
  destruct validate_time_accepts as (_ & _ & V24 & V9 & H). split.
  - destruct (proj1 (H "9:5" eq_refl) V9) as [E | L];
      [discriminate E | exact L].
  - intros L.
    assert (V : validate_time "24:00" = Ok true)
      by (apply (H "24:00" eq_refl); now right).
    rewrite V24 in V. discriminate V.
Defined.

(** *** Error responses *)

(** C2, as worded, fails for the two place formatters: on a response whose
    status is "error" and whose description is "No cars available" neither
    returns the error line. *)
Lemma place_formatters_skip_status :
  format_place_details
    (JDict [("status", JStr "error"); ("description", JStr "No cars available")])
  <> Ok "Error: No cars available"
  /\ format_places_results
       (JDict [("status", JStr "error"); ("description", JStr "No cars available")])
     <> Ok "Error: No cars available".
Proof. split; vm_compute; discriminate. Qed.

(** C2, amended.  On a response whose [status] is not "success" the three
    formatters of transfer results, of a reservation and of a reservation
    list return exactly "Error: " followed by the [description], or by
    "Unknown error occurred" when there is none; the formatter of place
    details never reads [status]. *)
Theorem status_error_line (d : list (string * json)) :
  lookup d "status" <> Some (JStr "success") ->
  format_transfer_results (JDict d) = Ok (error_line d)
  /\ format_reservation_results (JDict d) = Ok (error_line d)
  /\ format_reservation_list (JDict d) = Ok (error_line d)
  /\ forall v, format_place_details (JDict (("status", v) :: d))
               = format_place_details (JDict d).
Proof.
  intros H.
  unfold format_transfer_results, format_reservation_results, format_reservation_list.
  rewrite (check_status_error d H). repeat split; reflexivity.
Qed.

(** C2 at the error response of the specification. *)
Lemma status_error_line_witness :
  format_transfer_results
    (JDict [("status", JStr "error"); ("description", JStr "No cars available")])
  = Ok "Error: No cars available".
Proof.
  apply (status_error_line
           [("status", JStr "error"); ("description", JStr "No cars available")]).
  simpl. discriminate.
Defined.

(** *** Currency *)

Lemma map_get_default u :
  ~ In u currency_codes -> map_get CURRENCY_MAP u 2 = 2.
Proof.
  unfold currency_codes, CURRENCY_MAP. cbn [In map_get]. intros H.
  repeat match goal with
  | |- context [String.eqb ?a u] =>
      let E := fresh in
      destruct (String.eqb a u) eqn:E; [apply String.eqb_eq in E; tauto |]
  end.
  reflexivity.
Qed.

(** C4, as worded, fails: "usd" is not one of the five codes, yet the request
    carries currency id 3 and not 2. *)
Lemma lowercase_currency_is_looked_up :
  ~ In "usd" currency_codes
  /\ exists payload,
       snd (server.search_transfers offline
              "Antalya Airport" sample_lat sample_lng
              "Kemer" sample_lat sample_lng
              "2024-05-01" "10:30" 2 0 0 false None None "usd" "en"
              (running client.default))
       = [ EvApi (call_search_transfers
                    "Antalya Airport" sample_lat sample_lng
                    "Kemer" sample_lat sample_lng
                    2 0 0 "2024-05-01" "10:30" (Some "") (Some "") 1 3 "en");
           EvHttp (POST "http://test-api.bizimtransfer.com/query" (JDict payload)) ]
       /\ lookup payload "currencyid" = Some (JInt 3).
Proof.
  split.
  - unfold currency_codes. simpl. intuition discriminate.
  - eexists. split; vm_compute; reflexivity.
Qed.

(** C4, amended.  The currency is put in upper case before it is looked up:
    in the request of an accepted search, a currency whose upper-case form
    is TRY, EUR, USD, GBP or RUB is sent as 1, 2, 3, 4 or 6, and every
    currency of ASCII letters whose upper-case form is none of the five is
    sent as 2.  ([upper] leaves the bytes above ASCII alone, so a currency
    it maps to one of the five codes is ASCII text.) *)
Theorem currency_id_sent http pickup_address pickup_lat pickup_lng
    dropoff_address dropoff_lat dropoff_lng pickup_date pickup_time
    adults children infants (round_trip : bool) return_date return_time
    currency language api :
  pickup_address <> "" -> dropoff_address <> "" -> 1 <= adults ->
  validate_date pickup_date = Ok true -> validate_time pickup_time = Ok true ->
  (round_trip = true ->
   exists d t, return_date = Some d /\ return_time = Some t /\ d <> "" /\ t <> ""
               /\ validate_date d = Ok true /\ validate_time t = Ok true) ->
  exists id dropoffdate dropofftime requesttype payload,
    snd (server.search_transfers http pickup_address pickup_lat pickup_lng
           dropoff_address dropoff_lat dropoff_lng pickup_date pickup_time
           adults children infants round_trip return_date return_time
           currency language (running api))
    = [ EvApi (call_search_transfers pickup_address pickup_lat pickup_lng
                 dropoff_address dropoff_lat dropoff_lng adults children infants
                 pickup_date pickup_time dropoffdate dropofftime requesttype
                 id language);
        EvHttp (POST (client.base_url api ++ "/query") (JDict payload)) ]
    /\ lookup payload "currencyid" = Some (JInt id)
    /\ (upper currency = "TRY" -> id = 1)
    /\ (upper currency = "EUR" -> id = 2)
    /\ (upper currency = "USD" -> id = 3)
    /\ (upper currency = "GBP" -> id = 4)
    /\ (upper currency = "RUB" -> id = 6)
    /\ (isascii currency = true ->
        ~ In (upper currency) currency_codes -> id = 2).
Proof.
  intros Hpa Hda Had Hpd Hpt Hrt.
  rewrite (search_transfers_sends http _ _ _ _ _ _ _ _ _ _ _ _ _ _ _ _ api
             Hpa Hda Had Hpd Hpt Hrt).
  destruct (snd_client_search_transfers http api pickup_address pickup_lat
              pickup_lng dropoff_address dropoff_lat dropoff_lng adults children
              infants pickup_date pickup_time
              (if round_trip then return_date else Some "")
              (if round_trip then return_time else Some "")
              (if round_trip then 2 else 1)
              (map_get CURRENCY_MAP (upper currency) 2) language)
    as (payload & T & _ & _ & _ & Hc).
  do 5 eexists. split; [exact T |]. split; [exact Hc |].
  repeat split; try (intros ->; reflexivity). intros _. apply map_get_default.
Qed.

(** C4 at a one-way search paid in "gbp". *)
Lemma currency_id_sent_witness :
  exists id dropoffdate dropofftime requesttype payload,
    snd (server.search_transfers offline
           "Antalya Airport" sample_lat sample_lng
           "Kemer" sample_lat sample_lng
           "2024-05-01" "10:30" 2 0 0 false None None "gbp" "en"
           (running client.default))
    = [ EvApi (call_search_transfers
                 "Antalya Airport" sample_lat sample_lng
                 "Kemer" sample_lat sample_lng 2 0 0
                 "2024-05-01" "10:30" dropoffdate dropofftime requesttype
                 id "en");
        EvHttp (POST (client.base_url client.default ++ "/query") (JDict payload)) ]
    /\ lookup payload "currencyid" = Some (JInt id)
    /\ id = 4.
Proof.
  destruct (currency_id_sent offline
              "Antalya Airport" sample_lat sample_lng
              "Kemer" sample_lat sample_lng
              "2024-05-01" "10:30" 2 0 0 false None None "gbp" "en"
              client.default)
    as (id & dd & dt & rq & payload & T & Hc & _ & _ & _ & Hg & _);
    [discriminate | discriminate | lia | vm_compute; reflexivity
    | vm_compute; reflexivity | discriminate |].
  exists id, dd, dt, rq, payload. split; [exact T |]. split; [exact Hc |].
  apply Hg. reflexivity.
Defined.

(** C3.  A reservation that passes validation and names no passenger list
    calls the API client with exactly one passenger, whose name is the first
    and last name joined by one blank and whose country is the country code
    in lower case; the request body carries the same list.  The country
    code is ASCII text, as the codes of countries are. *)
Theorem default_passenger_sent http uuid first_name last_name email phone
    country_code outbound_subroute_id flight_number terminal notes
    return_subroute_id return_flight_number return_terminal return_notes api :
  uuid <> "" -> first_name <> "" -> last_name <> "" -> email <> "" ->
  phone <> "" -> country_code <> "" -> outbound_subroute_id <> 0 ->
  isascii country_code = true ->
  exists ways payload,
    snd (server.make_reservation http uuid first_name last_name email phone
           country_code outbound_subroute_id flight_number terminal notes
           return_subroute_id return_flight_number return_terminal return_notes
           None None (running api))
    = [ EvApi (call_make_reservation uuid first_name last_name email phone
                 (lower country_code) ways
                 [JDict [ ("name", JStr (first_name ++ " " ++ last_name));
                          ("country", JStr (lower country_code)) ]]);
        EvHttp (POST (client.base_url api ++ "/reservation") (JDict payload)) ]
    /\ lookup payload "passangers"
       = Some (JList [JDict [ ("name", JStr (first_name ++ " " ++ last_name));
                              ("country", JStr (lower country_code)) ]]).
Proof.
  intros H1 H2 H3 H4 H5 H6 H7 _.
  apply (reserve_default http uuid first_name last_name email phone country_code
           outbound_subroute_id flight_number terminal notes return_subroute_id
           return_flight_number return_terminal return_notes api
           H1 H2 H3 H4 H5 H6 H7 None None).
  now left.
Qed.

(** C3 at a reservation for one customer. *)
Lemma default_passenger_sent_witness :
  exists ways payload,
    snd (server.make_reservation offline "3f2b-77aa" "Ada" "Lovelace"
           "ada@example.org" "+905550000000" "TR" 7041 None None None
           None None None None None None (running client.default))
    = [ EvApi (call_make_reservation "3f2b-77aa" "Ada" "Lovelace"
                 "ada@example.org" "+905550000000" "tr" ways
                 [JDict [ ("name", JStr "Ada Lovelace"); ("country", JStr "tr") ]]);
        EvHttp (POST "http://test-api.bizimtransfer.com/reservation" (JDict payload)) ]
    /\ lookup payload "passangers"
       = Some (JList [JDict [ ("name", JStr "Ada Lovelace"); ("country", JStr "tr") ]]).
Proof.
  apply (default_passenger_sent offline "3f2b-77aa" "Ada" "Lovelace"
           "ada@example.org" "+905550000000" "TR" 7041 None None None
           None None None None client.default);
    try discriminate; reflexivity.
Defined.



(** C10.  In an accepted one-way search the return date and time play no
    part: whatever they are, the result is the one of a call without them,
    and the request carries an empty drop-off date and time and request type
    1.  An accepted round trip carries the return date and time it was given
    and request type 2. *)
Theorem return_leg_forwarding http pickup_address pickup_lat pickup_lng
    dropoff_address dropoff_lat dropoff_lng pickup_date pickup_time
    adults children infants currency language api :
  pickup_address <> "" -> dropoff_address <> "" -> 1 <= adults ->
  validate_date pickup_date = Ok true -> validate_time pickup_time = Ok true ->
  (forall return_date return_time,
     (forall ctx,
        server.search_transfers http pickup_address pickup_lat pickup_lng
          dropoff_address dropoff_lat dropoff_lng pickup_date pickup_time
          adults children infants false return_date return_time
          currency language ctx
        = server.search_transfers http pickup_address pickup_lat pickup_lng
            dropoff_address dropoff_lat dropoff_lng pickup_date pickup_time
            adults children infants false None None currency language ctx)
     /\ exists id payload,
          snd (server.search_transfers http pickup_address pickup_lat pickup_lng
                 dropoff_address dropoff_lat dropoff_lng pickup_date pickup_time
                 adults children infants false return_date return_time
                 currency language (running api))
          = [ EvApi (call_search_transfers pickup_address pickup_lat pickup_lng
                       dropoff_address dropoff_lat dropoff_lng
                       adults children infants pickup_date pickup_time
                       (Some "") (Some "") 1 id language);
              EvHttp (POST (client.base_url api ++ "/query") (JDict payload)) ]
          /\ lookup payload "dropoffdate" = Some (JStr "")
          /\ lookup payload "dropofftime" = Some (JStr "")
          /\ lookup payload "requesttype" = Some (JInt 1))
  /\ (forall return_date return_time,
        return_date <> "" -> return_time <> "" ->
        validate_date return_date = Ok true ->
        validate_time return_time = Ok true ->
        exists id payload,
          snd (server.search_transfers http pickup_address pickup_lat pickup_lng
                 dropoff_address dropoff_lat dropoff_lng pickup_date pickup_time
                 adults children infants true (Some return_date) (Some return_time)
                 currency language (running api))
          = [ EvApi (call_search_transfers pickup_address pickup_lat pickup_lng
                       dropoff_address dropoff_lat dropoff_lng
                       adults children infants pickup_date pickup_time
                       (Some return_date) (Some return_time) 2 id language);
              EvHttp (POST (client.base_url api ++ "/query") (JDict payload)) ]
          /\ lookup payload "dropoffdate" = Some (JStr return_date)
          /\ lookup payload "dropofftime" = Some (JStr return_time)
          /\ lookup payload "requesttype" = Some (JInt 2)).
Proof.
  intros Hpa Hda Had Hpd Hpt. split.
  - intros rd rt. split; [intros ctx; apply search_transfers_one_way |].
    rewrite (search_transfers_sends http _ _ _ _ _ _ _ _ _ _ _ false rd rt _ _ api
               Hpa Hda Had Hpd Hpt); [| discriminate].
    destruct (snd_client_search_transfers http api pickup_address pickup_lat
                pickup_lng dropoff_address dropoff_lat dropoff_lng adults children
                infants pickup_date pickup_time (Some "") (Some "") 1
                (map_get CURRENCY_MAP (upper currency) 2) language)
      as (payload & T & Hd & Ht & Hr & _).
    exists (map_get CURRENCY_MAP (upper currency) 2), payload. auto.
  - intros rd rt Hrd Hrt Vd Vt.
    rewrite (search_transfers_sends http _ _ _ _ _ _ _ _ _ _ _ true
               (Some rd) (Some rt) _ _ api Hpa Hda Had Hpd Hpt).
    2:{ intros _. exists rd, rt. auto 10. }
    destruct (snd_client_search_transfers http api pickup_address pickup_lat
                pickup_lng dropoff_address dropoff_lat dropoff_lng adults children
                infants pickup_date pickup_time (Some rd) (Some rt) 2
                (map_get CURRENCY_MAP (upper currency) 2) language)
      as (payload & T & Hd & Ht & Hr & _).
    exists (map_get CURRENCY_MAP (upper currency) 2), payload. auto.
Qed.

(** C10 at a one-way search given an unusable return date and time, and at
    a round trip. *)
Lemma return_leg_forwarding_witness :
  (exists id payload,
     snd (server.search_transfers offline
            "Antalya Airport" sample_lat sample_lng "Kemer" sample_lat sample_lng
            "2024-05-01" "10:30" 2 0 0 false (Some "soon") (Some "25:99")
            "EUR" "en" (running client.default))
     = [ EvApi (call_search_transfers
                  "Antalya Airport" sample_lat sample_lng
                  "Kemer" sample_lat sample_lng 2 0 0 "2024-05-01" "10:30"
                  (Some "") (Some "") 1 id "en");
         EvHttp (POST (client.base_url client.default ++ "/query") (JDict payload)) ]
     /\ lookup payload "dropoffdate" = Some (JStr "")
     /\ lookup payload "dropofftime" = Some (JStr "")
     /\ lookup payload "requesttype" = Some (JInt 1))
  /\ (exists id payload,
        snd (server.search_transfers offline
               "Antalya Airport" sample_lat sample_lng "Kemer" sample_lat sample_lng
               "2024-05-01" "10:30" 2 0 0 true (Some "2024-05-08") (Some "18:00")
               "EUR" "en" (running client.default))
        = [ EvApi (call_search_transfers
                     "Antalya Airport" sample_lat sample_lng
                     "Kemer" sample_lat sample_lng 2 0 0 "2024-05-01" "10:30"
                     (Some "2024-05-08") (Some "18:00") 2 id "en");
            EvHttp (POST (client.base_url client.default ++ "/query") (JDict payload)) ]
        /\ lookup payload "dropoffdate" = Some (JStr "2024-05-08")
        /\ lookup payload "dropofftime" = Some (JStr "18:00")
        /\ lookup payload "requesttype" = Some (JInt 2)).
Proof.
  destruct (return_leg_forwarding offline
              "Antalya Airport" sample_lat sample_lng "Kemer" sample_lat sample_lng
              "2024-05-01" "10:30" 2 0 0 "EUR" "en" client.default)
    as [Hone Hround];
    [discriminate | discriminate | lia | vm_compute; reflexivity
    | vm_compute; reflexivity |].
  split.
  - exact (proj2 (Hone (Some "soon") (Some "25:99"))).
  - apply Hround; [discriminate | discriminate | vm_compute; reflexivity
                  | vm_compute; reflexivity].
Defined.

Lemma printed_some d key v : lookup d key = Some v -> printed d key = str v.
Proof. unfold printed. now intros ->. Qed.

(** C8.  On a well-formed success response each formatter returns a text,
    and that text contains what every identifier prints as: the uuid and
    each option's route and subroute id for transfer results, the rezid for
    a reservation, each record's reservation number for a reservation list
    and each candidate's place id for a place search. *)
Theorem identifiers_are_printed :
  (forall d, wf_transfers d ->
     exists out,
       format_transfer_results (JDict d) = Ok out
       /\ (forall uuid, lookup d "uuid" = Some uuid -> contains out (str uuid))
       /\ (forall w o id,
             In (JDict w) (items d "ways") -> In (JDict o) (items w "list") ->
             lookup o "subrouteid" = Some id \/ lookup o "routeid" = Some id ->
             contains out (str id)))
  /\ (forall d, wf_reservation d ->
        exists out,
          format_reservation_results (JDict d) = Ok out
          /\ (forall rezid, lookup d "rezid" = Some rezid -> contains out (str rezid)))
  /\ (forall d, wf_reservation_list d ->
        exists out,
          format_reservation_list (JDict d) = Ok out
          /\ (forall r number,
                In (JDict r) (items d "list") ->
                lookup r "reservationnumber" = Some number ->
                contains out (str number)))
  /\ (forall places, wf_places (JList places) ->
        exists out,
          format_places_results (JList places) = Ok out
          /\ (forall p place_id,
                In (JDict p) places -> lookup p "place_id" = Some place_id ->
                contains out (str place_id)))
  /\ (forall d, wf_details d -> exists out, format_place_details (JDict d) = Ok out).
Proof.
  split; [| split; [| split; [| split]]].
  - intros d Hwf. destruct (transfer_identifiers d Hwf) as (out & E & Hu & Hids).
    exists out. split; [exact E |]. split.
    + intros uuid Hl. now rewrite <- (printed_some _ _ _ Hl).
    + intros w o id Hw Ho [Hl | Hl]; rewrite <- (printed_some _ _ _ Hl);
        now apply (Hids w o).
  - intros d Hwf. destruct (reservation_identifier d Hwf) as (out & E & Hr).
    exists out. split; [exact E |].
    intros rezid Hl. now rewrite <- (printed_some _ _ _ Hl).
  - intros d Hwf. destruct (reservation_list_identifiers d Hwf) as (out & E & Hr).
    exists out. split; [exact E |].
    intros r number Hin Hl. rewrite <- (printed_some _ _ _ Hl). now apply Hr.
  - intros places Hwf.
    destruct (places_identifiers _ Hwf) as (l & out & El & E & Hp).
    inversion El; subst l. exists out. split; [exact E |].
    intros p place_id Hin Hl. rewrite <- (printed_some _ _ _ Hl). now apply Hp.
  - apply details_formatted.
Qed.

Ltac well_formed :=
  repeat first
    [ exact I
    | reflexivity
    | progress cbn [optional lookup String.eqb Ascii.eqb Bool.eqb]
    | split
    | apply Forall_nil
    | apply Forall_cons
    | eexists ].

Lemma sample_transfers_wf : wf_transfers sample_transfers.
Proof.
  unfold wf_transfers, sample_transfers, dict_list, wf_way, wf_option, dict_list,
    any_dict, is_str.
  well_formed.
Qed.

Lemma sample_listing_wf : wf_reservation_list sample_listing.
Proof.
  unfold wf_reservation_list, sample_listing, dict_list, wf_record, dict_list,
    any_dict.
  well_formed.
Qed.

Lemma sample_places_wf : wf_places sample_places.
Proof. unfold wf_places, sample_places, dict_list, any_dict. well_formed. Qed.

(** C8 at the sample responses. *)
Lemma identifiers_are_printed_witness :
  (exists out,
     format_transfer_results (JDict sample_transfers) = Ok out
     /\ contains out "3f2b-77aa" /\ contains out "7041")
  /\ (exists out,
        format_reservation_results
          (JDict [("status", JStr "success"); ("rezid", JInt 90017)]) = Ok out
        /\ contains out "90017")
  /\ (exists out,
        format_reservation_list (JDict sample_listing) = Ok out
        /\ contains out "90017")
  /\ (exists out,
        format_places_results sample_places = Ok out
        /\ contains out "ChIJ-ayt")
  /\ (exists out,
        format_place_details (JDict [("name", JStr "Antalya Airport")]) = Ok out).
Proof.
  destruct identifiers_are_printed as (Ht & Hr & Hl & Hp & Hd).
  split; [| split; [| split; [| split]]].
  - destruct (Ht sample_transfers sample_transfers_wf) as (out & E & Hu & Hids).
    exists out. split; [exact E |]. split.
    + apply (Hu (JStr "3f2b-77aa")). reflexivity.
    + eapply (Hids _ _ (JInt 7041));
        [left; reflexivity | left; reflexivity | left; reflexivity].
  - destruct (Hr [("status", JStr "success"); ("rezid", JInt 90017)] eq_refl)
      as (out & E & Hid).
    exists out. split; [exact E |]. apply (Hid (JInt 90017)). reflexivity.
  - destruct (Hl sample_listing sample_listing_wf) as (out & E & Hid).
    exists out. split; [exact E |].
    eapply (Hid _ (JInt 90017)); [left; reflexivity | reflexivity].
  - destruct (Hp _ sample_places_wf) as (out & E & Hid).
    exists out. split; [exact E |].
    eapply (Hid _ (JStr "ChIJ-ayt")); [left; reflexivity | reflexivity].
  - apply Hd. split; exact I.
Defined.

(** ** Further properties *)

(** *** Every call is refused or goes on to the client *)

Lemma not_str_cases s : (not_str s = true /\ s = "") \/ (not_str s = false /\ s <> "").
Proof.
  destruct (not_str s) eqn:E; [left | right]; split; auto.
  - now apply not_str_true.
  - now apply not_str_false.
Qed.

Lemma not_opt_str_true o : server.not_opt_str o = true <-> missing o.
Proof.
  unfold missing. destruct o as [s|]; simpl.
  - rewrite not_str_true. split; [intros ->; now right |].
    intros [H | H]; [discriminate | now inversion H].
  - split; auto.
Qed.

Ltac proceed_with a :=
  right; exists a; split; [exact I |];
  match goal with
  | |- match ?ctx with _ => _ end =>
      destruct ctx as [[[[api]|]]|]; unfold served;
      cbn [client_call formatter action];
      [ let R := fresh in
        pose proof (fun A => @running_body A api) as R; unfold running in R;
        rewrite R; reflexivity
      | reflexivity | reflexivity ]
  end.

Lemma search_transfers_decides http pickup_address pickup_lat pickup_lng
    dropoff_address dropoff_lat dropoff_lng pickup_date pickup_time
    adults children infants round_trip return_date return_time
    currency language ctx :
  let c := SearchTransfers pickup_address pickup_lat pickup_lng
             dropoff_address dropoff_lat dropoff_lng pickup_date pickup_time
             adults children infants round_trip return_date return_time
             currency language in
  fails_validation c \/ proceeds http c ctx.
Proof.
  intros c. subst c. unfold proceeds. cbn [fails_validation run].
  unfold server.search_transfers.
  destruct (not_str_cases pickup_address) as [[-> Ha] | [-> Ha]]; [tauto |].
  destruct (not_str_cases dropoff_address) as [[-> Hb] | [-> Hb]]; [tauto |].
  cbn [orb].
  destruct (adults <? 1) eqn:Eadults; [apply Z.ltb_lt in Eadults; tauto |].
  destruct (validate_date_total pickup_date) as [Vpd | Vpd]; [| tauto].
  destruct (validate_time_total pickup_time) as [Vpt | Vpt]; [| tauto].
  rewrite Vpd, Vpt, !bindIO_lift_ok. cbn [negb].
  destruct round_trip.
  - destruct (server.not_opt_str return_date) eqn:Erd.
    { apply not_opt_str_true in Erd. tauto. }
    destruct (server.not_opt_str return_time) eqn:Ert.
    { apply not_opt_str_true in Ert. tauto. }
    apply not_opt_str_false in Erd as (d & -> & Hd), Ert as (t & -> & Ht).
    cbn [orb]. unfold server.validate_date_opt, server.validate_time_opt.
    cbn [server.or_empty].
    destruct (validate_date_total d) as [Vd | Vd].
    2:{ left. do 5 right. split; [reflexivity |]. right; right; left. now exists d. }
    destruct (validate_time_total t) as [Vt | Vt].
    2:{ left. do 5 right. split; [reflexivity |]. right; right; right. now exists t. }
    rewrite Vd, Vt, !bindIO_lift_ok. cbn [negb].
    proceed_with (call_search_transfers pickup_address pickup_lat pickup_lng
                    dropoff_address dropoff_lat dropoff_lng adults children
                    infants pickup_date pickup_time (Some d) (Some t) 2
                    (map_get CURRENCY_MAP (upper currency) 2) language).
  - proceed_with (call_search_transfers pickup_address pickup_lat pickup_lng
                    dropoff_address dropoff_lat dropoff_lng adults children
                    infants pickup_date pickup_time (Some "") (Some "") 1
                    (map_get CURRENCY_MAP (upper currency) 2) language).
Qed.

Lemma make_reservation_decides http uuid first_name last_name email phone
    country_code outbound_subroute_id flight_number terminal notes
    return_subroute_id return_flight_number return_terminal return_notes
    passenger_names passenger_countries ctx :
  let c := MakeReservation uuid first_name last_name email phone country_code
             outbound_subroute_id flight_number terminal notes
             return_subroute_id return_flight_number return_terminal
             return_notes passenger_names passenger_countries in
  fails_validation c \/ proceeds http c ctx.
Proof.
  intros c. subst c. unfold proceeds. cbn [fails_validation run].
  unfold server.make_reservation.
  destruct (not_str_cases uuid) as [[-> H1] | [-> H1]]; [tauto |].
  destruct (not_str_cases first_name) as [[-> H2] | [-> H2]]; [tauto |].
  destruct (not_str_cases last_name) as [[-> H3] | [-> H3]]; [tauto |].
  cbn [orb].
  destruct (not_str_cases email) as [[-> H4] | [-> H4]]; [tauto |].
  destruct (not_str_cases phone) as [[-> H5] | [-> H5]]; [tauto |].
  destruct (not_str_cases country_code) as [[-> H6] | [-> H6]]; [tauto |].
  destruct (outbound_subroute_id =? 0) eqn:E7; [apply Z.eqb_eq in E7; tauto |].
  set (ways := match return_subroute_id with
               | Some id => if id =? 0 then _ else _
               | None => _
               end).
  destruct (negb (server.not_opt_list passenger_names)
            && negb (server.not_opt_list passenger_countries)) eqn:Eboth.
  - destruct (negb (Nat.eqb (List.length (server.or_nil passenger_names))
                              (List.length (server.or_nil passenger_countries))))
      eqn:Elen.
    + left. do 7 right.
      apply andb_true_iff in Eboth as [En Ec].
      apply negb_true_iff in En, Ec.
      apply not_opt_list_false in En as (ns & -> & Hns), Ec as (cs & -> & Hcs).
      exists ns, cs. repeat split; auto.
      apply negb_true_iff, Nat.eqb_neq in Elen. exact Elen.
    + proceed_with (call_make_reservation uuid first_name last_name email phone
                      (lower country_code) ways
                      (map (fun nc => server.passenger (fst nc) (lower (snd nc)))
                           (server.zip (server.or_nil passenger_names)
                                       (server.or_nil passenger_countries)))).
  - proceed_with (call_make_reservation uuid first_name last_name email phone
                    (lower country_code) ways
                    [server.passenger (first_name ++ " " ++ last_name)
                       (lower country_code)]).
Qed.

Lemma list_reservations_decides http query_type start_date end_date
    reservation_number ctx :
  let c := ListReservations query_type start_date end_date reservation_number in
  fails_validation c \/ proceeds http c ctx.
Proof.
  intros c. subst c. unfold proceeds. cbn [fails_validation run In].
  unfold server.list_reservations.
  destruct (String.eqb query_type "createdate"
            || String.eqb query_type "flightdate") eqn:Edate.
  - cbn [orb negb].
    assert (Hq : "createdate" = query_type \/ "flightdate" = query_type).
    { apply orb_true_iff in Edate as [E | E]; apply String.eqb_eq in E; auto. }
    assert (Enum : String.eqb query_type "reservationnumber" = false).
    { apply String.eqb_neq. destruct Hq as [<- | <-]; discriminate. }
    rewrite Enum. cbn [andb].
    destruct (server.not_opt_str start_date) eqn:Es.
    { apply not_opt_str_true in Es. left. right. left. tauto. }
    destruct (server.not_opt_str end_date) eqn:Ee.
    { apply not_opt_str_true in Ee. left. right. left. tauto. }
    apply not_opt_str_false in Es as (d & -> & Hd), Ee as (t & -> & Ht).
    cbn [orb]. unfold server.validate_date_opt. cbn [server.or_empty].
    destruct (validate_date_total d) as [Vd | Vd].
    2:{ left. right. left. split; [tauto |]. right; right; left. now exists d. }
    destruct (validate_date_total t) as [Vt | Vt].
    2:{ left. right. left. split; [tauto |]. right; right; right. now exists t. }
    rewrite Vd, Vt, !bindIO_lift_ok. cbn [negb].
    proceed_with (call_list_reservations query_type (Some d) (Some t) None).
  - cbn [orb].
    destruct (String.eqb query_type "reservationnumber") eqn:Enum; cbn [negb andb].
    2:{ left. left. apply orb_false_iff in Edate as [E1 E2].
        apply String.eqb_neq in E1, E2, Enum.
        intros [H | [H | [H | []]]]; congruence. }
    apply String.eqb_eq in Enum. subst query_type.
    destruct reservation_number as [n|]; cbn [server.not_opt_int].
    2:{ left. right. right. auto. }
    destruct (n =? 0) eqn:En.
    { apply Z.eqb_eq in En. subst n. left. right. right. auto. }
    proceed_with (call_list_reservations "reservationnumber" None None (Some n)).
Qed.

Lemma search_places_decides http query language ctx :
  let c := SearchPlaces query language in
  fails_validation c \/ proceeds http c ctx.
Proof.
  intros c. subst c. unfold proceeds. cbn [fails_validation run].
  unfold server.search_places.
  destruct (not_str_cases query) as [[-> H] | [-> H]]; [tauto |].
  proceed_with (call_search_places query language).
Qed.

Lemma get_place_details_decides http place_id language ctx :
  let c := GetPlaceDetails place_id language in
  fails_validation c \/ proceeds http c ctx.
Proof.
  intros c. subst c. unfold proceeds. cbn [fails_validation run].
  unfold server.get_place_details.
  destruct (not_str_cases place_id) as [[-> H] | [-> H]]; [tauto |].
  proceed_with (call_get_place_details place_id language).
Qed.

(** Every call is either refused by validation or goes on to the client. *)
Lemma run_decides http c ctx : fails_validation c \/ proceeds http c ctx.
Proof.
  destruct c.
  - apply search_transfers_decides.
  - apply make_reservation_decides.
  - apply list_reservations_decides.
  - apply search_places_decides.
  - apply get_place_details_decides.
Qed.

(** *** What the client does with the answer of the session *)

Lemma answer_result http r :
  client.answer http r
  = (match http r with
     | Raise e => Raise e
     | Ok response =>
         if is_success response then json_body response
         else Raise (HTTPError (status_error response))
     end, [EvHttp r]).
Proof.
  unfold client.answer, client.send, bindIO, lift, raise_for_status, is_success.
  destruct (http r) as [resp|e]; [| reflexivity].
  destruct ((200 <=? status_code resp) && (status_code resp <=? 299));
    [| reflexivity].
  destruct (json_body resp); reflexivity.
Qed.

Lemma emit_then {A} e (m : IO A) :
  bindIO (emit e) (fun _ => m) = (fst m, e :: snd m).
Proof. unfold bindIO, emit. destruct m. reflexivity. Qed.

Lemma client_call_shape http api a :
  exists r,
    client_call http api a = (fst (client.answer http r), [EvApi a; EvHttp r])
    /\ url r = client.base_url api ++ snd (endpoint a)
    /\ is_post r = fst (endpoint a).
Proof.
  destruct a; cbn [client_call];
    unfold client.search_transfers, client.make_reservation,
      client.list_reservations, client.search_places, client.get_place_details;
    rewrite emit_then, snd_answer; eexists;
    (split; [reflexivity | split; reflexivity]).
Qed.

Lemma served_outcome http c api a :
  exists r,
    served http c api a = (Ok (outcome c (http r)), [EvApi a; EvHttp r])
    /\ url r = client.base_url api ++ snd (endpoint a)
    /\ is_post r = fst (endpoint a).
Proof.
  destruct (client_call_shape http api a) as (r & E & Hu & Hp).
  exists r. split; [| now split].
  unfold served. rewrite E, answer_result. cbn [fst].
  unfold outcome, try_except_Exception, bindIO, lift, ret.
  destruct (http r) as [resp|e]; [| reflexivity].
  destruct (is_success resp); [| reflexivity].
  destruct (json_body resp) as [j|e]; [| reflexivity].
  destruct (formatter c j); cbn [app]; reflexivity.
Qed.

Lemma run_rejects http c ctx : fails_validation c -> rejected (run http c ctx).
Proof.
  intros F. apply (rejected_by_rejected c). revert F.
  destruct c; cbn [run].
  - apply search_transfers_rejects.
  - apply make_reservation_rejects.
  - apply list_reservations_rejects.
  - apply search_places_rejects.
  - apply get_place_details_rejects.
Qed.

(** Whether a call fails validation can be read off a run with a client. *)
Lemma sent_not_failing http c api a r :
  snd (run http c (running api)) = [EvApi a; EvHttp r] -> ~ fails_validation c.
Proof.
  intros T F. destruct (run_rejects http c (running api) F) as (msg & E & _).
  rewrite E in T. discriminate T.
Qed.

Lemma fails_validation_dec c : fails_validation c \/ ~ fails_validation c.
Proof.
  destruct (run_decides offline c (running client.default)) as [F | (a & _ & P)];
    [now left | right].
  cbn in P. destruct (served_outcome offline c client.default a) as (r & E & _).
  apply (sent_not_failing offline c client.default a r).
  now rewrite P, E.
Qed.

(** The three ways a call ends. *)
Lemma run_cases http c ctx :
  (fails_validation c /\ rejected (run http c ctx))
  \/ (~ fails_validation c
      /\ exists attr, run http c ctx = (Ok (no_attribute_text c attr), [])
                      /\ ((ctx = None /\ attr = "request_context")
                          \/ (ctx = no_lifespan /\ attr = "client")))
  \/ (~ fails_validation c
      /\ exists api a r,
           ctx = running api /\ serves c a
           /\ run http c ctx = (Ok (outcome c (http r)), [EvApi a; EvHttp r])
           /\ url r = client.base_url api ++ snd (endpoint a)
           /\ is_post r = fst (endpoint a)).
Proof.
  destruct (fails_validation_dec c) as [F | NF].
  { left. split; [exact F | now apply run_rejects]. }
  right. destruct (run_decides http c ctx) as [F | (a & Ha & P)]; [contradiction |].
  destruct ctx as [[[[api]|]]|].
  - right. split; [exact NF |].
    destruct (served_outcome http c api a) as (r & E & Hu & Hp).
    exists api, a, r. rewrite P, E. repeat split; auto.
  - left. split; [exact NF |]. exists "client". split; [exact P |]. right. auto.
  - left. split; [exact NF |]. exists "request_context". split; [exact P |].
    left. auto.
Qed.

(** *** How a call ends *)

Lemma sent_outcome http c ctx a r :
  snd (run http c ctx) = [EvApi a; EvHttp r] ->
  run http c ctx = (Ok (outcome c (http r)), [EvApi a; EvHttp r]).
Proof.
  intros T.
  destruct (run_cases http c ctx)
    as [[_ (msg & E & _)] | [[_ (attr & E & _)] | [_ (api & a' & r' & _ & _ & E & _)]]];
    rewrite E in T; try discriminate T.
  inversion T; subst. exact E.
Qed.


(** X2.  A tool call causes no event at all, or exactly one call of the
    client method of its tool followed by exactly one call on the HTTP
    session: [post] or [get] as that endpoint asks, on its path under the
    base URL of the client in the context.  (What the session does with the
    call is its own matter.) *)
Theorem one_session_call_at_most http c ctx :
  snd (run http c ctx) = []
  \/ exists api a r,
       ctx = running api /\ serves c a
       /\ snd (run http c ctx) = [EvApi a; EvHttp r]
       /\ url r = client.base_url api ++ snd (endpoint a)
       /\ is_post r = fst (endpoint a).
Proof.
  destruct (run_cases http c ctx)
    as [[_ (msg & E & _)] | [[_ (attr & E & _)]
        | [_ (api & a & r & Hc & Hs & E & Hu & Hp)]]];
    rewrite E; [now left | now left | right].
  exists api, a, r. auto.
Qed.

(** X3.  With the client in the context, a call whose dates and times are
    ASCII text leaves no event exactly when its arguments fail a validation
    check. *)
Theorem request_iff_valid http c api :
  ascii_dates c = true ->
  (snd (run http c (running api)) = [] <-> fails_validation c).
Proof.
  intros _. split.
  - intros T.
    destruct (run_cases http c (running api))
      as [[F _] | [[_ (attr & _ & [[H _] | [H _]])]
          | [_ (api' & a & r & _ & _ & E & _)]]];
      [exact F | discriminate H | discriminate H |].
    rewrite E in T. discriminate T.
  - intros F. destruct (run_rejects http c (running api) F) as (msg & E & _).
    now rewrite E.
Qed.

(** X3 at a search on 30 February and at the same search a day earlier. *)
Lemma request_iff_valid_witness :
  snd (run offline
         (SearchTransfers "Antalya Airport" sample_lat sample_lng
            "Kemer" sample_lat sample_lng
            "2024-02-30" "10:30" 2 0 0 false None None "EUR" "en")
         (running client.default)) = []
  /\ snd (run offline
            (SearchTransfers "Antalya Airport" sample_lat sample_lng
               "Kemer" sample_lat sample_lng
               "2024-02-29" "10:30" 2 0 0 false None None "EUR" "en")
            (running client.default)) <> [].
Proof.
  split.
  - apply (proj2 (request_iff_valid offline
                    (SearchTransfers "Antalya Airport" sample_lat sample_lng
                       "Kemer" sample_lat sample_lng
                       "2024-02-30" "10:30" 2 0 0 false None None "EUR" "en")
                    client.default eq_refl)).
    simpl. do 3 right. left. vm_compute. reflexivity.
  - intros E.
    apply (proj1 (request_iff_valid offline
                    (SearchTransfers "Antalya Airport" sample_lat sample_lng
                       "Kemer" sample_lat sample_lng
                       "2024-02-29" "10:30" 2 0 0 false None None "EUR" "en")
                    client.default eq_refl)) in E.
    simpl in E.
    destruct E as [E|[E|[E|[E|[E|[E _]]]]]];
      try discriminate E; vm_compute in E; discriminate E.
Defined.

(** X4.  A call that passes validation but finds no context, or a context
    without lifespan context, sends nothing: [search_places] returns its
    configuration error and the other four return their action text followed
    by Python's message for the attribute missing on [None]. *)
Theorem missing_context_text http c :
  ~ fails_validation c ->
  run http c None = (Ok (no_attribute_text c "request_context"), [])
  /\ run http c no_lifespan = (Ok (no_attribute_text c "client"), []).
Proof.
  intros NF. split.
  - destruct (run_decides http c None) as [F | (a & _ & P)]; [contradiction | exact P].
  - destruct (run_decides http c no_lifespan) as [F | (a & _ & P)];
      [contradiction | exact P].
Qed.

Lemma missing_context_text_witness :
  run offline (GetPlaceDetails "ChIJ-ayt" "en") None
  = (Ok "Error getting place details: 'NoneType' object has no attribute 'request_context'", [])
  /\ run offline (SearchPlaces "Antalya" "en") no_lifespan
     = (Ok "Error: Server configuration error - missing context", []).
Proof.
  split.
  - apply (missing_context_text offline (GetPlaceDetails "ChIJ-ayt" "en")).
    simpl. discriminate.
  - apply (missing_context_text offline (SearchPlaces "Antalya" "en")).
    simpl. discriminate.
Defined.

(** X5.  When the request of a call fails in transport with exception [e],
    the tool returns its action text followed by [str(e)]. *)
Theorem transport_failure_text http c ctx a r e :
  snd (run http c ctx) = [EvApi a; EvHttp r] ->
  http r = Raise e ->
  fst (run http c ctx) = Ok (action c ++ exn_str e).
Proof.
  intros T H. rewrite (sent_outcome _ _ _ _ _ T). cbn [fst]. unfold outcome.
  now rewrite H.
Qed.

Lemma transport_failure_text_witness :
  fst (run offline (SearchPlaces "Antalya" "en") (running client.default))
  = Ok "Error searching places: All connection attempts failed".
Proof.
  apply (transport_failure_text offline (SearchPlaces "Antalya" "en")
           (running client.default) (call_search_places "Antalya" "en")
           (GET "http://test-api.bizimtransfer.com/places"
                [("query", "Antalya"); ("language", "en")])
           (HTTPError "All connection attempts failed"));
    reflexivity.
Defined.

(** X6.  When the request of a call is answered with a status outside
    200..299, the tool returns its action text followed by the message of
    the status error; the body is not read and nothing is formatted. *)
Theorem bad_status_text http c ctx a r response :
  snd (run http c ctx) = [EvApi a; EvHttp r] ->
  http r = Ok response ->
  ~ (200 <= status_code response <= 299) ->
  fst (run http c ctx) = Ok (action c ++ status_error response).
Proof.
  intros T H S. rewrite (sent_outcome _ _ _ _ _ T). cbn [fst]. unfold outcome.
  rewrite H.
  assert (E : is_success response = false).
  { unfold is_success. apply andb_false_iff.
    destruct (Z.leb_spec 200 (status_code response)); [right | now left].
    apply Z.leb_gt. lia. }
  now rewrite E.
Qed.

Lemma bad_status_text_witness :
  fst (run unavailable (GetPlaceDetails "ChIJ-ayt" "en") (running client.default))
  = Ok "Error getting place details: Server error '503 Service Unavailable'".
Proof.
  apply (bad_status_text unavailable (GetPlaceDetails "ChIJ-ayt" "en")
           (running client.default) (call_get_place_details "ChIJ-ayt" "en")
           (GET "http://test-api.bizimtransfer.com/places/detail"
                [("place_id", "ChIJ-ayt"); ("language", "en")])
           (mkResponse 503 "Server error '503 Service Unavailable'"
              (Raise (ValueError "Expecting value: line 1 column 1 (char 0)"))));
    [reflexivity | reflexivity | simpl; lia].
Defined.

(** X7.  When the request of a call is answered with a 2xx status and a
    body that decodes to [result], the tool returns what its formatter makes
    of [result], or its action text followed by the message of the exception
    the formatter raises. *)
Theorem answer_is_formatted http c ctx a r response result :
  snd (run http c ctx) = [EvApi a; EvHttp r] ->
  http r = Ok response ->
  200 <= status_code response <= 299 ->
  json_body response = Ok result ->
  fst (run http c ctx)
  = Ok (match formatter c result with
        | Ok text => text
        | Raise e => action c ++ exn_str e
        end).
Proof.
  intros T H S J. rewrite (sent_outcome _ _ _ _ _ T). cbn [fst]. unfold outcome.
  rewrite H.
  assert (E : is_success response = true).
  { unfold is_success. apply andb_true_iff. rewrite !Z.leb_le. lia. }
  now rewrite E, J.
Qed.

Lemma answer_is_formatted_witness :
  fst (run (answering (JInt 7)) (GetPlaceDetails "ChIJ-ayt" "en")
         (running client.default))
  = Ok "Error getting place details: 'int' object has no attribute 'get'".
Proof.
  apply (answer_is_formatted (answering (JInt 7)) (GetPlaceDetails "ChIJ-ayt" "en")
           (running client.default) (call_get_place_details "ChIJ-ayt" "en")
           (GET "http://test-api.bizimtransfer.com/places/detail"
                [("place_id", "ChIJ-ayt"); ("language", "en")])
           (mkResponse 200 "" (Ok (JInt 7))) (JInt 7));
    [reflexivity | reflexivity | simpl; lia | reflexivity].
Defined.

(** X8.  A client method returns a value exactly when its one request was
    answered with a 2xx status and a body that decodes; the value is the
    decoded body. *)
Theorem client_returns_on_success_only http api a result :
  fst (client_call http api a) = Ok result
  <-> exists r response,
        snd (client_call http api a) = [EvApi a; EvHttp r]
        /\ http r = Ok response
        /\ 200 <= status_code response <= 299
        /\ json_body response = Ok result.
Proof.
  destruct (client_call_shape http api a) as (r & E & _).
  rewrite E, answer_result. cbn [fst snd]. split.
  - intros H. exists r. destruct (http r) as [resp|e]; [| discriminate H].
    exists resp. destruct (is_success resp) eqn:S; [| discriminate H].
    unfold is_success in S. apply andb_true_iff in S. rewrite !Z.leb_le in S.
    repeat split; auto; lia.
  - intros (r' & resp & T & H & S & J). inversion T; subst r'. rewrite H.
    assert (Es : is_success resp = true).
    { unfold is_success. apply andb_true_iff. rewrite !Z.leb_le. lia. }
    now rewrite Es.
Qed.

(** X9.  A 2xx answer whose body is an object with a [status] other than
    "success" reaches the caller of the three booking tools as the error
    line made of its [description]. *)
Theorem business_failure_text http c ctx a r response d :
  snd (run http c ctx) = [EvApi a; EvHttp r] ->
  http r = Ok response ->
  200 <= status_code response <= 299 ->
  json_body response = Ok (JDict d) ->
  lookup d "status" <> Some (JStr "success") ->
  (forall query language, c <> SearchPlaces query language) ->
  (forall place_id language, c <> GetPlaceDetails place_id language) ->
  fst (run http c ctx) = Ok (error_line d).
Proof.
  intros T H S J Hs Hp Hd.
  rewrite (sent_outcome _ _ _ _ _ T). cbn [fst]. unfold outcome. rewrite H.
  assert (E : is_success response = true).
  { unfold is_success. apply andb_true_iff. rewrite !Z.leb_le. lia. }
  rewrite E, J.
  destruct c; cbn [formatter];
    unfold format_transfer_results, format_reservation_results,
      format_reservation_list;
    try (rewrite (check_status_error d Hs); reflexivity).
  - exfalso. eapply Hp. reflexivity.
  - exfalso. eapply Hd. reflexivity.
Qed.

Lemma business_failure_text_witness :
  fst (run (answering (JDict [("status", JStr "error");
                              ("description", JStr "No cars available")]))
         (ListReservations "reservationnumber" None None (Some 90017))
         (running client.default))
  = Ok "Error: No cars available".
Proof.
  apply (business_failure_text
           (answering (JDict [("status", JStr "error");
                              ("description", JStr "No cars available")]))
           (ListReservations "reservationnumber" None None (Some 90017))
           (running client.default)
           (call_list_reservations "reservationnumber" None None (Some 90017))
           (POST "http://test-api.bizimtransfer.com/list"
              (JDict [("querytype", JStr "reservationnumber");
                      ("reservationnumber", JInt 90017)]))
           (mkResponse 200 ""
              (Ok (JDict [("status", JStr "error");
                          ("description", JStr "No cars available")])))
           [("status", JStr "error"); ("description", JStr "No cars available")]);
    try reflexivity; try discriminate.
  simpl; lia.
Defined.

(** *** What is sent *)

Lemma nth_zip_passengers names countries i name country :
  nth_error names i = Some name -> nth_error countries i = Some country ->
  nth_error (map (fun nc => server.passenger (fst nc) (lower (snd nc)))
               (server.zip names countries)) i
  = Some (server.passenger name (lower country)).
Proof.
  revert countries i. induction names as [|n ns IH]; intros [|c cs] [|i] Hn Hc;
    try discriminate; simpl in *.
  - now inversion Hn; inversion Hc.
  - now apply IH.
Qed.

Lemma length_zip_passengers names countries :
  List.length names = List.length countries ->
  List.length (map (fun nc => server.passenger (fst nc) (lower (snd nc)))
                 (server.zip names countries)) = List.length names.
Proof.
  rewrite length_map. revert countries.
  induction names as [|n ns IH]; intros [|c cs] H; try discriminate; simpl.
  - reflexivity.
  - f_equal. apply IH. now inversion H.
Qed.

Section Reservation.

Variable http : HttpRequest -> Result Response.
Variables uuid first_name last_name email phone country_code : string.
Variable outbound_subroute_id : Z.
Variables flight_number terminal notes : option string.
Variable return_subroute_id : option Z.
Variables return_flight_number return_terminal return_notes : option string.
Variable api : client.BizimTransferClient.

Hypothesis uuid_given : uuid <> "".
Hypothesis first_name_given : first_name <> "".
Hypothesis last_name_given : last_name <> "".
Hypothesis email_given : email <> "".
Hypothesis phone_given : phone <> "".
Hypothesis country_code_given : country_code <> "".
Hypothesis outbound_given : outbound_subroute_id <> 0.

Ltac required :=
  unfold server.make_reservation;
  rewrite (proj2 (not_str_false _) uuid_given),
    (proj2 (not_str_false _) first_name_given),
    (proj2 (not_str_false _) last_name_given),
    (proj2 (not_str_false _) email_given),
    (proj2 (not_str_false _) phone_given),
    (proj2 (not_str_false _) country_code_given),
    (proj2 (Z.eqb_neq _ _) outbound_given);
  cbn [orb].

(** X10.  With two passenger lists of the same non-zero length, the
    countries and the country code being ASCII text, the request carries one
    passenger per name, in order: the name as given and the country in lower
    case. *)
Theorem explicit_passengers_sent names countries :
  names <> [] -> List.length names = List.length countries ->
  isascii country_code = true ->
  forallb isascii countries = true ->
  exists ways passengers payload,
    snd (server.make_reservation http uuid first_name last_name email phone
           country_code outbound_subroute_id flight_number terminal notes
           return_subroute_id return_flight_number return_terminal return_notes
           (Some names) (Some countries) (running api))
    = [ EvApi (call_make_reservation uuid first_name last_name email phone
                 (lower country_code) ways passengers);
        EvHttp (POST (client.base_url api ++ "/reservation") (JDict payload)) ]
    /\ lookup payload "passangers" = Some (JList passengers)
    /\ List.length passengers = List.length names
    /\ forall i name country,
         nth_error names i = Some name -> nth_error countries i = Some country ->
         nth_error passengers i
         = Some (JDict [("name", JStr name); ("country", JStr (lower country))]).
Proof.
  intros Hn Hlen _ _. required.
  destruct names as [|n ns]; [congruence |].
  destruct countries as [|c cs]; [discriminate Hlen |].
  cbn [server.not_opt_list negb andb server.or_nil].
  rewrite (proj2 (Nat.eqb_eq _ _) Hlen). cbn [negb].
  rewrite running_body, snd_try_format, snd_client_make_reservation.
  do 3 eexists. split; [reflexivity |]. split; [reflexivity |]. split.
  - apply length_zip_passengers. exact Hlen.
  - intros i name country Hi Hc. now apply nth_zip_passengers.
Qed.

(** X11.  The request of a reservation carries the outbound leg alone when
    the return subroute id is absent or 0, and the outbound leg followed by
    the return leg otherwise; absent flight number, terminal and notes are
    sent as empty texts.  (Nothing is said here of the customer's country
    and of the passengers, which come with the legs.) *)
Theorem transfer_ways_sent passenger_names passenger_countries :
  (server.not_opt_list passenger_names = true
   \/ server.not_opt_list passenger_countries = true
   \/ List.length (server.or_nil passenger_names)
      = List.length (server.or_nil passenger_countries)) ->
  let outbound :=
    JDict [ ("subrouteid", JInt outbound_subroute_id);
            ("flightnumber", JStr (server.or_empty flight_number));
            ("terminal", JStr (server.or_empty terminal));
            ("notes", JStr (server.or_empty notes)) ] in
  exists country ways passengers payload,
    snd (server.make_reservation http uuid first_name last_name email phone
           country_code outbound_subroute_id flight_number terminal notes
           return_subroute_id return_flight_number return_terminal return_notes
           passenger_names passenger_countries (running api))
    = [ EvApi (call_make_reservation uuid first_name last_name email phone
                 country ways passengers);
        EvHttp (POST (client.base_url api ++ "/reservation") (JDict payload)) ]
    /\ lookup payload "transferway" = Some (JList ways)
    /\ (return_subroute_id = None \/ return_subroute_id = Some 0 ->
        ways = [outbound])
    /\ (forall id, return_subroute_id = Some id -> id <> 0 ->
        ways = [ outbound;
                 JDict [ ("subrouteid", JInt id);
                         ("flightnumber", JStr (server.or_empty return_flight_number));
                         ("terminal", JStr (server.or_empty return_terminal));
                         ("notes", JStr (server.or_empty return_notes)) ] ]).
Proof.
  intros Hp outbound. required.
  assert (E : (if negb (server.not_opt_list passenger_names)
                && negb (server.not_opt_list passenger_countries)
             then if negb (Nat.eqb (List.length (server.or_nil passenger_names))
                                   (List.length (server.or_nil passenger_countries)))
                  then false else true
             else true) = true).
  { destruct (server.not_opt_list passenger_names);
      destruct (server.not_opt_list passenger_countries); cbn [negb andb]; auto.
    destruct Hp as [H | [H | H]]; try discriminate H.
    now rewrite (proj2 (Nat.eqb_eq _ _) H). }
  destruct (negb (server.not_opt_list passenger_names)
            && negb (server.not_opt_list passenger_countries));
    [destruct (negb (Nat.eqb _ _)); [discriminate E |] |];
    rewrite running_body, snd_try_format, snd_client_make_reservation;
    (do 4 eexists; split; [reflexivity |]; split; [reflexivity |]; split;
     [ intros [-> | ->]; reflexivity
     | intros id -> Hid; apply Z.eqb_neq in Hid; now rewrite Hid ]).
Qed.

End Reservation.

Lemma explicit_passengers_sent_witness :
  exists ways passengers payload,
    snd (server.make_reservation offline "3f2b-77aa" "Ada" "Lovelace"
           "ada@example.org" "+905550000000" "TR" 7041 None None None
           None None None None (Some ["Grace Hopper"; "Alan Turing"])
           (Some ["US"; "GB"]) (running client.default))
    = [ EvApi (call_make_reservation "3f2b-77aa" "Ada" "Lovelace"
                 "ada@example.org" "+905550000000" "tr" ways passengers);
        EvHttp (POST "http://test-api.bizimtransfer.com/reservation"
                  (JDict payload)) ]
    /\ lookup payload "passangers" = Some (JList passengers)
    /\ List.length passengers = 2%nat
    /\ nth_error passengers 1
       = Some (JDict [("name", JStr "Alan Turing"); ("country", JStr "gb")]).
Proof.
  destruct (explicit_passengers_sent offline "3f2b-77aa" "Ada" "Lovelace"
              "ada@example.org" "+905550000000" "TR" 7041 None None None
              None None None None client.default)
    with (names := ["Grace Hopper"; "Alan Turing"]) (countries := ["US"; "GB"])
    as (ways & ps & payload & T & Hl & Hlen & Hnth);
    try discriminate; try reflexivity.
  exists ways, ps, payload. repeat split; auto.
  apply (Hnth 1%nat "Alan Turing" "GB"); reflexivity.
Defined.

Lemma transfer_ways_sent_witness :
  exists country ways passengers payload,
    snd (server.make_reservation offline "3f2b-77aa" "Ada" "Lovelace"
           "ada@example.org" "+905550000000" "TR" 7041 (Some "TK1") None None
           (Some 0) (Some "TK2") None None None None (running client.default))
    = [ EvApi (call_make_reservation "3f2b-77aa" "Ada" "Lovelace"
                 "ada@example.org" "+905550000000" country ways passengers);
        EvHttp (POST "http://test-api.bizimtransfer.com/reservation"
                  (JDict payload)) ]
    /\ ways = [ JDict [ ("subrouteid", JInt 7041); ("flightnumber", JStr "TK1");
                        ("terminal", JStr ""); ("notes", JStr "") ] ].
Proof.
  destruct (transfer_ways_sent offline "3f2b-77aa" "Ada" "Lovelace"
              "ada@example.org" "+905550000000" "TR" 7041 (Some "TK1") None None
              (Some 0) (Some "TK2") None None client.default)
    with (passenger_names := @None (list string))
         (passenger_countries := @None (list string))
    as (country & ways & ps & payload & T & _ & Hnone & _);
    try discriminate; try (left; reflexivity).
  exists country, ways, ps, payload. split; [exact T |]. apply Hnone. now right.
Defined.

Lemma snd_client_list_reservations http api querytype start end_ number :
  snd (client.list_reservations http api querytype start end_ number)
  = [ EvApi (call_list_reservations querytype start end_ number);
      EvHttp (POST (client.base_url api ++ "/list")
                (if String.eqb querytype "createdate"
                    || String.eqb querytype "flightdate"
                 then JDict [ ("querytype", JStr querytype);
                              ("start", opt_str start);
                              ("end", opt_str end_) ]
                 else JDict [ ("querytype", JStr querytype);
                              ("reservationnumber", opt_int number) ])) ].
Proof.
  unfold client.list_reservations. now rewrite snd_emit_then, snd_answer.
Qed.

(** X12.  A listing by date sends the query type and the two dates and
    drops any reservation number; a listing by reservation number sends the
    query type and the number and neither checks nor sends the dates. *)
Theorem listing_request http query_type api :
  (query_type = "createdate" \/ query_type = "flightdate" ->
   forall start_date end_date reservation_number,
     start_date <> "" -> end_date <> "" ->
     validate_date start_date = Ok true -> validate_date end_date = Ok true ->
     snd (server.list_reservations http query_type (Some start_date)
            (Some end_date) reservation_number (running api))
     = [ EvApi (call_list_reservations query_type (Some start_date)
                  (Some end_date) None);
         EvHttp (POST (client.base_url api ++ "/list")
                   (JDict [ ("querytype", JStr query_type);
                            ("start", JStr start_date);
                            ("end", JStr end_date) ])) ])
  /\ (query_type = "reservationnumber" ->
      forall start_date end_date number,
        number <> 0 ->
        snd (server.list_reservations http query_type start_date end_date
               (Some number) (running api))
        = [ EvApi (call_list_reservations query_type None None (Some number));
            EvHttp (POST (client.base_url api ++ "/list")
                      (JDict [ ("querytype", JStr query_type);
                               ("reservationnumber", JInt number) ])) ]).
Proof.
  split.
  - intros Hq start_date end_date number Hs He Vs Ve.
    unfold server.list_reservations.
    assert (Eq : String.eqb query_type "createdate"
                 || String.eqb query_type "flightdate" = true)
      by (destruct Hq as [-> | ->]; reflexivity).
    assert (En : String.eqb query_type "reservationnumber" = false)
      by (destruct Hq as [-> | ->]; reflexivity).
    rewrite Eq, En. cbn [orb negb andb server.not_opt_str].
    rewrite (proj2 (not_str_false _) Hs), (proj2 (not_str_false _) He).
    cbn [orb]. unfold server.validate_date_opt. cbn [server.or_empty].
    rewrite Vs, bindIO_lift_ok, Ve, bindIO_lift_ok. cbn [negb].
    rewrite running_body, snd_try_format, snd_client_list_reservations.
    now rewrite Eq.
  - intros -> start_date end_date number Hn.
    unfold server.list_reservations.
    cbn [String.eqb Ascii.eqb Bool.eqb orb negb andb server.not_opt_int].
    rewrite (proj2 (Z.eqb_neq _ _) Hn).
    rewrite running_body, snd_try_format, snd_client_list_reservations.
    reflexivity.
Qed.

Lemma listing_request_witness :
  snd (server.list_reservations offline "flightdate" (Some "2024-05-01")
         (Some "2024-05-31") (Some 90017) (running client.default))
  = [ EvApi (call_list_reservations "flightdate" (Some "2024-05-01")
               (Some "2024-05-31") None);
      EvHttp (POST "http://test-api.bizimtransfer.com/list"
                (JDict [ ("querytype", JStr "flightdate");
                         ("start", JStr "2024-05-01");
                         ("end", JStr "2024-05-31") ])) ]
  /\ snd (server.list_reservations offline "reservationnumber" (Some "soon")
            None (Some 90017) (running client.default))
     = [ EvApi (call_list_reservations "reservationnumber" None None (Some 90017));
         EvHttp (POST "http://test-api.bizimtransfer.com/list"
                   (JDict [ ("querytype", JStr "reservationnumber");
                            ("reservationnumber", JInt 90017) ])) ].
Proof.
  split.
  - apply (proj1 (listing_request offline "flightdate" client.default));
      [now right | discriminate | discriminate
      | vm_compute; reflexivity | vm_compute; reflexivity].
  - apply (proj2 (listing_request offline "reservationnumber" client.default));
      [reflexivity | discriminate].
Defined.

(** X13.  An accepted one-way search calls the client, and the client
    calls [post] on the session, with the addresses, the coordinates, the
    three passenger counts, the pickup date and time and the language as
    they were given; the numbers of children and infants and the language
    are not checked.  (Whether the session can encode and send the body is
    its answer: [http] is arbitrary.) *)
Theorem search_request http pickup_address pickup_lat pickup_lng
    dropoff_address dropoff_lat dropoff_lng pickup_date pickup_time
    adults children infants return_date return_time currency language api :
  pickup_address <> "" -> dropoff_address <> "" -> 1 <= adults ->
  validate_date pickup_date = Ok true -> validate_time pickup_time = Ok true ->
  exists currencyid,
    snd (server.search_transfers http pickup_address pickup_lat pickup_lng
           dropoff_address dropoff_lat dropoff_lng pickup_date pickup_time
           adults children infants false return_date return_time
           currency language (running api))
    = [ EvApi (call_search_transfers pickup_address pickup_lat pickup_lng
                 dropoff_address dropoff_lat dropoff_lng adults children infants
                 pickup_date pickup_time (Some "") (Some "") 1 currencyid
                 language);
        EvHttp (POST (client.base_url api ++ "/query")
                  (JDict [ ("pickup", JStr pickup_address);
                           ("pickuplat", JFloat pickup_lat);
                           ("pickuplng", JFloat pickup_lng);
                           ("dropoff", JStr dropoff_address);
                           ("dropofflat", JFloat dropoff_lat);
                           ("dropofflng", JFloat dropoff_lng);
                           ("adult", JInt adults);
                           ("child", JInt children);
                           ("infant", JInt infants);
                           ("pickupdate", JStr pickup_date);
                           ("pickuptime", JStr pickup_time);
                           ("dropoffdate", JStr "");
                           ("dropofftime", JStr "");
                           ("requesttype", JInt 1);
                           ("currencyid", JInt currencyid);
                           ("language", JStr language) ])) ].
Proof.
  intros Hpa Hda Had Hpd Hpt.
  rewrite (search_transfers_sends http _ _ _ _ _ _ _ _ _ _ _ false
             return_date return_time _ _ api Hpa Hda Had Hpd Hpt);
    [| discriminate].
  eexists. unfold client.search_transfers.
  now rewrite snd_emit_then, snd_answer.
Qed.

Lemma search_request_witness :
  exists currencyid,
    snd (server.search_transfers offline
           "Antalya Airport" sample_lat sample_lng "Kemer" sample_lat sample_lng
           "2024-05-01" "10:30" 1 (-3) 250 false None None "EUR" "xx"
           (running client.default))
    = [ EvApi (call_search_transfers
                 "Antalya Airport" sample_lat sample_lng
                 "Kemer" sample_lat sample_lng 1 (-3) 250
                 "2024-05-01" "10:30" (Some "") (Some "") 1 currencyid "xx");
        EvHttp (POST (client.base_url client.default ++ "/query")
                  (JDict [ ("pickup", JStr "Antalya Airport");
                           ("pickuplat", JFloat sample_lat);
                           ("pickuplng", JFloat sample_lng);
                           ("dropoff", JStr "Kemer");
                           ("dropofflat", JFloat sample_lat);
                           ("dropofflng", JFloat sample_lng);
                           ("adult", JInt 1);
                           ("child", JInt (-3));
                           ("infant", JInt 250);
                           ("pickupdate", JStr "2024-05-01");
                           ("pickuptime", JStr "10:30");
                           ("dropoffdate", JStr "");
                           ("dropofftime", JStr "");
                           ("requesttype", JInt 1);
                           ("currencyid", JInt currencyid);
                           ("language", JStr "xx") ])) ].
Proof.
  apply (search_request offline
           "Antalya Airport" sample_lat sample_lng "Kemer" sample_lat sample_lng
           "2024-05-01" "10:30" 1 (-3) 250 None None "EUR" "xx" client.default);
    [discriminate | discriminate | lia | vm_compute; reflexivity
    | vm_compute; reflexivity].
Defined.

(** X14.  A place search with a non-empty query, and a place lookup with a
    non-empty id, send one GET request whose parameters are the query (or
    the id) and the language as given. *)
Theorem place_requests http language api :
  (forall query, query <> "" ->
     snd (server.search_places http query language (running api))
     = [ EvApi (call_search_places query language);
         EvHttp (GET (client.base_url api ++ "/places")
                   [("query", query); ("language", language)]) ])
  /\ (forall place_id, place_id <> "" ->
        snd (server.get_place_details http place_id language (running api))
        = [ EvApi (call_get_place_details place_id language);
            EvHttp (GET (client.base_url api ++ "/places/detail")
                      [("place_id", place_id); ("language", language)]) ]).
Proof.
  split.
  - intros query Hq. unfold server.search_places.
    rewrite (proj2 (not_str_false _) Hq). cbn [running].
    rewrite (running_body api), snd_try_format.
    unfold client.search_places. now rewrite snd_emit_then, snd_answer.
  - intros place_id Hp. unfold server.get_place_details.
    rewrite (proj2 (not_str_false _) Hp).
    rewrite running_body, snd_try_format.
    unfold client.get_place_details. now rewrite snd_emit_then, snd_answer.
Qed.

(** *** More on the validators *)

(** The value of [validate_date] on a date made of three number tokens. *)
Lemma validate_date_tokens ys ms ds y m d :
  digits4 ys y ->
  digits1 ms m \/ digits2 ms m -> 1 <= m <= 12 ->
  digits1 ds d \/ digits2 ds d \/ blank_digit ds d -> 1 <= d <= 31 ->
  validate_date (ys ++ "-" ++ ms ++ "-" ++ ds)
  = Ok ((1 <=? y) && (d <=? datetime._days_in_month y m)).
Proof.
  intros Hy Hm Hm1 Hd Hd1.
  destruct ((1 <=? y) && (d <=? datetime._days_in_month y m)) eqn:E.
  - apply andb_true_iff in E as [E1 E2]. apply Z.leb_le in E1, E2.
    apply validate_date_complete. exists ys, ms, ds, y, m, d.
    repeat split; auto; lia.
  - destruct (validate_date_total (ys ++ "-" ++ ms ++ "-" ++ ds)) as [V | V];
      [| exact V].
    exfalso. apply validate_date_inv in V as [V | V].
    { destruct Hy as (a & b & c & e & -> & _). discriminate V. }
    destruct V as (ys' & ms' & ds' & y' & m' & d' & Es & Hy' & Hy1 & Hm' & Hm1'
                   & Hd' & Hd1').
    assert (ys' = ys /\ y' = y /\ ms' ++ "-" ++ ds' = ms ++ "-" ++ ds)
      as (-> & -> & Er).
    { destruct Hy as (a & b & c & e & -> & _ & _ & _ & _ & ->).
      destruct Hy' as (a' & b' & c' & e' & -> & _ & _ & _ & _ & ->).
      simpl in Es. inversion Es; subst. auto. }
    assert (ms' = ms /\ m' = m /\ ds' = ds) as (-> & -> & ->).
    { destruct Hm as [(p & -> & Hp & ->) | (p & q & -> & Hp & Hq & ->)];
      destruct Hm' as [(p' & -> & Hp' & ->) | (p' & q' & -> & Hp' & Hq' & ->)];
        simpl in Er; inversion Er; subst; auto;
        [discriminate Hq' | discriminate Hq]. }
    assert (d' = d) as ->.
    { destruct Hd as [(p & -> & Hp & ->) | [(p & q & -> & Hp & Hq & ->)
                                            | (p & -> & Hp & ->)]];
      destruct Hd' as [(p' & E' & Hp' & ->) | [(p' & q' & E' & Hp' & Hq' & ->)
                                               | (p' & E' & Hp' & ->)]];
        inversion E'; subst; auto; discriminate. }
    apply andb_false_iff in E as [E | E];
      [apply Z.leb_gt in E | apply Z.leb_gt in E]; lia.
Qed.

(** X16.  For a year from 0001 on, 29 February is taken exactly in leap
    years: years divisible by 4, except those divisible by 100 and not by
    400. *)
Theorem leap_day ys y :
  digits4 ys y -> 1 <= y ->
  (validate_date (ys ++ "-02-29") = Ok true
   <-> y mod 4 = 0 /\ (y mod 100 <> 0 \/ y mod 400 = 0)).
Proof.
  intros Hy Hpos.
  change (ys ++ "-02-29") with (ys ++ "-" ++ "02" ++ "-" ++ "29").
  rewrite (validate_date_tokens ys "02" "29" y 2 29 Hy).
  - rewrite (proj2 (Z.leb_le 1 y) Hpos). cbn [andb].
    unfold datetime._days_in_month, datetime._is_leap. cbn [Z.eqb Pos.eqb andb].
    destruct (y mod 4 =? 0) eqn:E4; cbn [andb].
    + destruct (y mod 100 =? 0) eqn:E100; cbn [negb orb].
      * destruct (y mod 400 =? 0) eqn:E400; cbn;
          rewrite ?Z.eqb_eq, ?Z.eqb_neq in *; split;
          try discriminate; try tauto; intuition lia.
      * rewrite ?Z.eqb_eq, ?Z.eqb_neq in *. cbn. split; auto.
    + rewrite Z.eqb_neq in E4. cbn. split; [discriminate | tauto].
  - right. exists "0"%char, "2"%char. repeat split.
  - lia.
  - right. left. exists "2"%char, "9"%char. repeat split.
  - lia.
Qed.

Lemma leap_day_witness :
  validate_date "2024-02-29" = Ok true
  <-> 2024 mod 4 = 0 /\ (2024 mod 100 <> 0 \/ 2024 mod 400 = 0).
Proof.
  apply (leap_day "2024" 2024); [| lia].
  exists "2"%char, "0"%char, "2"%char, "4"%char. repeat split.
Defined.





(** *** More on the formatters *)

(** X18.  On a response that is not an object, the four formatters that
    read fields of the response raise AttributeError for the missing [get]. *)
Theorem non_object_response_raises v :
  (forall d, v <> JDict d) ->
  format_transfer_results v
  = Raise (AttributeError ("'" ++ type_name v ++ "' object has no attribute 'get'"))
  /\ format_reservation_results v
     = Raise (AttributeError ("'" ++ type_name v ++ "' object has no attribute 'get'"))
  /\ format_reservation_list v
     = Raise (AttributeError ("'" ++ type_name v ++ "' object has no attribute 'get'"))
  /\ format_place_details v
     = Raise (AttributeError ("'" ++ type_name v ++ "' object has no attribute 'get'")).
Proof.
  intros H. destruct v; try (repeat split; reflexivity).
  exfalso. eapply H. reflexivity.
Qed.

Lemma non_object_response_raises_witness :
  format_reservation_list (JList [])
  = Raise (AttributeError "'list' object has no attribute 'get'").
Proof.
  apply (non_object_response_raises (JList [])). discriminate.
Defined.

(** X19.  Empty results are reported in words: any falsy value gives the
    no-places text, and a successful listing whose [list] is absent or falsy
    gives the no-reservations text. *)
Theorem nothing_found :
  (forall v, truthy v = false ->
     format_places_results v = Ok "No places found matching your query.")
  /\ (forall d,
        lookup d "status" = Some (JStr "success") ->
        (lookup d "list" = None
         \/ exists v, lookup d "list" = Some v /\ truthy v = false) ->
        format_reservation_list (JDict d)
        = Ok "No reservations found matching your criteria.").
Proof.
  split.
  - intros v H. unfold format_places_results. now rewrite H.
  - intros d Hs Hl. unfold format_reservation_list.
    rewrite (check_status_success d Hs). cbn [bind]. rewrite get_dict. cbn [bind].
    destruct Hl as [-> | (v & -> & Hv)]; [reflexivity | now rewrite Hv].
Qed.

Lemma nothing_found_witness :
  format_places_results JNull = Ok "No places found matching your query."
  /\ format_reservation_list (JDict [("status", JStr "success")])
     = Ok "No reservations found matching your criteria.".
Proof.
  destruct nothing_found as [Hp Hl]. split.
  - apply Hp. reflexivity.
  - apply Hl; [reflexivity | left; reflexivity].
Defined.

Lemma for_each_places ps start :
  for_each (enumerate (map JDict ps) start) format_place
  = Ok (map (fun ip => str_of_int (fst ip) ++ ". " ++ printed (snd ip) "description"
                       ++ " (ID: " ++ printed (snd ip) "place_id" ++ ")")
            (enumerate ps start)).
Proof.
  revert start. induction ps as [|p ps IH]; intros start; [reflexivity |].
  cbn [map enumerate for_each]. rewrite format_place_line, IH. reflexivity.
Qed.

(** X20.  The places of a non-empty list of objects are printed one per
    line after the header, in order, numbered from 1, each with its
    description and its place id. *)
Theorem places_are_numbered (ps : list (list (string * json))) :
  ps <> [] ->
  format_places_results (JList (map JDict ps))
  = Ok (join (String newline "")
          ("Found locations:"
           :: map (fun ip => str_of_int (fst ip) ++ ". "
                             ++ printed (snd ip) "description"
                             ++ " (ID: " ++ printed (snd ip) "place_id" ++ ")")
                  (enumerate ps 1))).
Proof.
  intros H. unfold format_places_results.
  destruct ps as [|p ps]; [congruence |].
  cbn [map truthy negb iter bind].
  change (JDict p :: map JDict ps) with (map JDict (p :: ps)).
  now rewrite for_each_places.
Qed.

Lemma places_are_numbered_witness :
  format_places_results
    (JList [ JDict [("place_id", JStr "ChIJ-ayt"); ("description", JStr "Antalya Airport")];
             JDict [("place_id", JStr "ChIJ-kmr")] ])
  = Ok (join (String newline "")
          [ "Found locations:";
            "1. Antalya Airport (ID: ChIJ-ayt)";
            "2. None (ID: ChIJ-kmr)" ]).
Proof.
  apply (places_are_numbered
           [ [("place_id", JStr "ChIJ-ayt"); ("description", JStr "Antalya Airport")];
             [("place_id", JStr "ChIJ-kmr")] ]).
  discriminate.
Defined.

(** X21.  The text of a non-empty well-formed listing starts with the
    number of its records. *)
Theorem reservations_are_counted d :
  wf_reservation_list d -> items d "list" <> [] ->
  exists rest,
    format_reservation_list (JDict d)
    = Ok ("Found " ++ str_of_int (Z.of_nat (List.length (items d "list")))
            ++ " reservation(s):" ++ rest).
Proof.
  intros [Hs Hlist] Hne. unfold format_reservation_list.
  rewrite (check_status_success d Hs). cbn [bind]. rewrite get_dict. cbn [bind].
  destruct (dict_list_items _ _ _ Hlist) as [-> Hall].
  destruct (items d "list") as [|x xs] eqn:E; [congruence |].
  cbn [truthy negb len iter bind].
  destruct (for_each_dicts wf_record format_listed_reservation snd
              (enumerate (x :: xs) 1)) as (ls & -> & _).
  { rewrite Forall_forall in *. intros [i y] Hy.
    apply enumerate_in in Hy. exact (Hall y Hy). }
  { intros [i y] e Ey He. simpl in Ey. subst y.
    destruct (format_listed_reservation_lines i e He) as (lines & -> & _). eauto. }
  cbn [bind]. destruct ls as [|l ls].
  - exists "". cbn [join]. now rewrite append_nil_r.
  - exists (String newline "" ++ join (String newline "") (l :: ls)).
    cbn [join]. now rewrite !append_assoc.
Qed.

Lemma reservations_are_counted_witness :
  exists rest,
    format_reservation_list (JDict sample_listing)
    = Ok ("Found 1 reservation(s):" ++ rest).
Proof.
  apply (reservations_are_counted sample_listing sample_listing_wf).
  discriminate.
Defined.

Lemma place_requests_witness :
  snd (server.search_places offline "Antalya" "tr" (running client.default))
  = [ EvApi (call_search_places "Antalya" "tr");
      EvHttp (GET "http://test-api.bizimtransfer.com/places"
                [("query", "Antalya"); ("language", "tr")]) ]
  /\ snd (server.get_place_details offline "ChIJ-ayt" "tr" (running client.default))
     = [ EvApi (call_get_place_details "ChIJ-ayt" "tr");
         EvHttp (GET "http://test-api.bizimtransfer.com/places/detail"
                   [("place_id", "ChIJ-ayt"); ("language", "tr")]) ].
Proof.
  destruct (place_requests offline "tr" client.default) as [Hs Hd]. split.
  - apply Hs. discriminate.
  - apply Hd. discriminate.
Defined.

(** X22.  A leg is titled Outbound when its type tag starts with "yon1" and
    Return otherwise, also when it has no type tag. *)
Theorem leg_title currency_symbol w :
  wf_way w ->
  exists rest,
    format_way currency_symbol (JDict w)
    = Ok (("## " ++ (if match lookup w "type" with
                        | Some (JStr tag) => startswith tag "yon1"
                        | _ => false
                        end
                     then "Outbound" else "Return") ++ " Journey") :: rest).
Proof.
  intros [Htype Hlist]. unfold format_way. rewrite get_dict.
  unfold optional, is_str in Htype.
  assert (T : exists tag,
            (match lookup w "type" with Some x => x | None => JStr "" end) = JStr tag
            /\ match lookup w "type" with
               | Some (JStr tag') => startswith tag' "yon1"
               | _ => false
               end = startswith tag "yon1").
  { destruct (lookup w "type") as [v|].
    - destruct Htype as (s & ->). now exists s.
    - now exists "". }
  destruct T as (tag & -> & ->). cbn [bind py_startswith].
  rewrite !field_dict, get_dict. cbn [bind].
  destruct (dict_list_items _ _ _ Hlist) as [-> Hall]. cbn [iter bind].
  destruct (for_each_dicts wf_option (format_option currency_symbol) snd
              (enumerate (items w "list") 1)) as (ls & -> & _).
  - rewrite Forall_forall in *. intros [i x] Hx.
    apply enumerate_in in Hx. exact (Hall x Hx).
  - intros [i x] e E He. simpl in E. subst x.
    destruct (format_option_lines currency_symbol i e He) as (lines & -> & _). eauto.
  - cbn [bind]. eexists. reflexivity.
Qed.

Lemma leg_title_witness :
  exists rest,
    format_way "EUR" (JDict [("from", JStr "Kemer"); ("to", JStr "Antalya Airport")])
    = Ok ("## Return Journey" :: rest).
Proof.
  apply (leg_title "EUR" [("from", JStr "Kemer"); ("to", JStr "Antalya Airport")]).
  split; exact I.
Defined.
